(** * openfisca-survey-manager: surveys.py and scenarios.py

    A shallow embedding of the table reader (surveys.py, [get_values]),
    of the simulation initialisation from a flat table (scenarios.py,
    [init_simulation_with_data_frame] and [filter_input_variables]) and
    of the aggregation helpers ([compute_aggregate],
    [compute_pivot_table]).

    Conventions.
    - A Python dict is a [gmap], a Python set a [gset]; a data frame is
      its number of rows and the ordered list of its labelled columns.
    - A Python exception is a value of [exn]; code that mutates objects
      or logs runs in the monad [py L S]: the state survives an
      exception, as the mutations of a Python object do, and the log
      records written are an output, oldest first.
    - A cell of a column is a Python scalar ([value]): an integer, a
      float [VFloat m e] that stands for [m * 2 ^ e], a boolean, a
      missing value or a string. The identifier and role columns are
      read cell by cell, as pandas and numpy do it whatever the type of
      the column (module [Cells]). The sum of a float and 1 is rounded
      to the 53 bits of a binary64 number, the sum of two 64-bit
      integers wraps around.
    - Numbers computed by the simulation engine are elements of an
      abstract carrier [F] with abstract operations (class [numeric]):
      nothing proved here depends on how floating point rounds. *)

From stdpp Require Import gmap strings list.
From Stdlib Require Import ZArith Ascii QArith Qround.

Close Scope Q_scope.
Open Scope string_scope.
Open Scope list_scope.

(** ** Python: exceptions and the two monads *)

Module Py.

(** What an [assert] of the source checks when it fails. *)
Inductive assertion :=
| AggfuncNotAllowed (aggfunc : string)
| VariableIsNone
| NotInTaxBenefitSystem (name : string)
| NoWeightColumnName
| ValuesNotStrOrList
| NotInEntity (variable entity_key : string)
| Hdf5FilePathIsNone
| NotAValidPath (path : string)
| NotInInputDataFrame (id_variable : string)
| NotAValidRolesCount (roles_count : Z) (entity_key : string)
| RoleZeroCount (count : nat) (entity_key : string) (unique_ids_count : nat)
| NaNValuesLeft (column_name : string)
| BadSize (column_name : string) (size count : nat).

Inductive exn :=
| AssertionError (a : assertion)
| KeyError (key : string)
| IndexError
| TypeError (what : string)
| ValueError (what : string)
| OverflowError (what : string)
| AttributeError (what : string)
| UnboundLocalError (name : string)
| Exception (what : string)
| EngineError (what : string).

Inductive result (A : Type) :=
| Ok (a : A)
| Raise (e : exn).
Arguments Ok {A} a.
Arguments Raise {A} e.

#[export] Instance result_ret : MRet result := @Ok.
#[export] Instance result_bind : MBind result :=
  λ A B f r, match r with Ok a => f a | Raise e => Raise e end.
#[export] Instance result_fmap : FMap result :=
  λ A B f r, match r with Ok a => Ok (f a) | Raise e => Raise e end.

Definition assert (b : bool) (a : assertion) : result unit :=
  if b then Ok tt else Raise (AssertionError a).

(** [d[key]] on a dict. *)
Definition getitem {V} (d : gmap string V) (key : string) : result V :=
  match d !! key with
  | Some v => Ok v
  | None => Raise (KeyError key)
  end.

(** Code with effects on a state [S] that writes log records [L]: it
    ends in a state, with the records it has written (oldest first)
    and an outcome. The state reached when an exception is raised is
    kept, and so is what was logged until then. *)
Definition py (L S A : Type) : Type := S → S * list L * result A.

#[export] Instance py_ret {L S} : MRet (py L S) := λ A a s, (s, [], Ok a).
#[export] Instance py_bind {L S} : MBind (py L S) :=
  λ A B f m s,
    match m s with
    | (s', l, Ok a) => let '(s'', l', r) := f a s' in (s'', l ++ l', r)
    | (s', l, Raise e) => (s', l, Raise e)
    end.

Definition get {L S} : py L S S := λ s, (s, [], Ok s).
Definition modify {L S} (f : S → S) : py L S unit := λ s, (f s, [], Ok tt).
Definition lift {L S A} (r : result A) : py L S A := λ s, (s, [], r).
Definition raise {L S A} (e : exn) : py L S A := lift (Raise e).

(** [log.info(...)] *)
Definition info {L S} (r : L) : py L S unit := λ s, (s, [r], Ok tt).

(** [for x in l: body(x)] *)
Fixpoint for_each {L S A} (l : list A) (body : A → py L S unit) : py L S unit :=
  match l with
  | [] => mret tt
  | x :: l' => body x ;; for_each l' body
  end.

Definition when {L S} (b : bool) (m : py L S unit) : py L S unit :=
  if b then m else mret tt.

End Py.
Export Py.

(** ** pandas: series and data frames *)

Module Pandas.

(** A Python scalar: a cell of a column, or a default of the schema. *)
Inductive value :=
| VNaN
| VNone
| VBool (b : bool)
| VInt (z : Z)
| VFloat (mantissa exponent : Z)
| VStr (s : string).

(** [m * 2 ^ e], the number that the float [VFloat m e] stands for. *)
Definition dyadic (m e : Z) : Q :=
  if (0 <=? e)%Z then inject_Z (m * 2 ^ e) else Qmake m (2 ^ Z.to_pos (- e)).

(** The number that a scalar holds, when it holds one: [True] is 1
    and [False] is 0, as Python has it. *)
Definition number (v : value) : option Q :=
  match v with
  | VBool b => Some (inject_Z (Z.b2z b))
  | VInt z => Some (inject_Z z)
  | VFloat m e => Some (dyadic m e)
  | VNaN | VNone | VStr _ => None
  end.

Inductive dtype :=
| bool_
| int_ (bits : N)
| float_ (bits : N)
| datetime64
| object_.

#[export] Instance dtype_eq_dec : EqDecision dtype.
Proof. solve_decision. Defined.

(** [np.issubdtype(dt, np.float)] *)
Definition is_floating (dt : dtype) : bool :=
  match dt with float_ _ => true | _ => false end.

(** [pandas.isnull] on one cell. *)
Definition isnull (v : value) : bool :=
  match v with VNaN | VNone => true | _ => false end.
Definition notnull (v : value) : bool := negb (isnull v).

Record Series := { dtype_of : dtype; values : list value }.

(** [index] is the number of rows, [len(df)]; every column of a data
    frame has that many cells ([rectangular]). *)
Record DataFrame := { index : nat; items : list (string * Series) }.

Definition columns (df : DataFrame) : list string := (items df).*1.

Definition rectangular (df : DataFrame) : Prop :=
  ∀ name s, (name, s) ∈ items df → length (values s) = index df.

(** [df[name]]: the column labelled [name]. *)
Definition frame_getitem (df : DataFrame) (name : string) : result Series :=
  match filter (λ c, c.1 = name) (items df) with
  | c :: _ => Ok c.2
  | [] => Raise (KeyError name)
  end.

(** [df.rename(columns = {old: new}, inplace = True)] *)
Definition rename (old new : string) (df : DataFrame) : DataFrame :=
  {| index := index df;
     items := (λ c, (if decide (c.1 = old) then new else c.1, c.2)) <$> items df |}.

(** [df.rename(columns = dict((c, f(c)) for c in df), inplace = True)] *)
Definition rename_with (f : string → string) (df : DataFrame) : DataFrame :=
  {| index := index df; items := (λ c, (f c.1, c.2)) <$> items df |}.

(** [df.drop(name, axis = 1, inplace = True)]: every column with that
    label goes; a label that is not there is an error. *)
Definition drop (name : string) (df : DataFrame) : result DataFrame :=
  if bool_decide (name ∈ columns df)
  then Ok {| index := index df;
             items := filter (λ c, c.1 ≠ name) (items df) |}
  else Raise (ValueError "labels not contained in axis").

(** [df[names]] for a list of labels. *)
Definition select_columns (names : list string) (df : DataFrame) : DataFrame :=
  {| index := index df;
     items := names ≫= (λ name, filter (λ c, c.1 = name) (items df)) |}.

End Pandas.
Export Pandas.

(** ** surveys.py *)

Module Surveys.

Definition is_digit (c : ascii) : bool :=
  let n := N_of_ascii c in ((48 <=? n) && (n <=? 57))%N.

Definition lower_ascii (c : ascii) : ascii :=
  let n := N_of_ascii c in
  if ((65 <=? n) && (n <=? 90))%N then ascii_of_N (n + 32) else c.

(** [str.lower] *)
Fixpoint lower (s : string) : string :=
  match s with
  | "" => ""
  | String c s' => String (lower_ascii c) (lower s')
  end.

(** [$]: the end of the string, or the newline that ends it. *)
Definition at_end (s : string) : bool :=
  match s with
  | "" => true
  | String c "" => bool_decide (c = "010"%char)
  | _ => false
  end.

(** [\d{lo,hi}$] *)
Fixpoint digits_then_end (lo hi : nat) (s : string) : bool :=
  match s with
  | String c s' =>
      (is_digit c && bool_decide (0 < hi)%nat
         && digits_then_end (pred lo) (pred hi) s')
      || (bool_decide (lo = 0%nat) && at_end s)
  | "" => bool_decide (lo = 0%nat)
  end.

(** The literal [lit] under [(?i)], then [k] on what follows. *)
Fixpoint ignorecase (lit : string) (k : string → bool) (s : string) : bool :=
  match lit, s with
  | "", _ => k s
  | String a lit', String c s' =>
      bool_decide (lower_ascii c = lower_ascii a) && ignorecase lit' k s'
  | String _ _, "" => false
  end.

(** [ident_re.match(s) is not None], for
    [ident_re = re.compile(u"(?i)ident\d{2,4}$")]. *)
Definition ident_re_match (s : string) : bool :=
  ignorecase "ident" (digits_then_end 2 4) s.

Inductive log_record :=
| NoTableInFile (table path : string)
| AvailableTables (keys : list string)
| ReplacedByIdent (column_name : string).

(** An HDF5 file: its tables by key. The file system: files by path. *)
Abbreviation HDFStore := (gmap string DataFrame).
Abbreviation FileSystem := (gmap string HDFStore).

Record Survey := { name : string; hdf5_file_path : option string }.

(** The loop of lines 210-214 over the column labels [names] of the
    frame as it was when the loop started: the first label that
    matches is renamed, and [break] leaves the loop. *)
Fixpoint rename_ident_loop (names : list string) (df : DataFrame)
  : DataFrame * list log_record :=
  match names with
  | [] => (df, [])
  | column_name :: names' =>
      if ident_re_match column_name
      then (rename column_name "ident" df, [ReplacedByIdent column_name])
      else rename_ident_loop names' df
  end.

Definition get_values (self : Survey) (fs : FileSystem)
    (variables : option (list string)) (table : string)
    (lowercase rename_ident : bool)
  : list log_record * result DataFrame :=
  match hdf5_file_path self with
  | None => ([], Raise (AssertionError Hdf5FilePathIsNone))
  | Some path =>
      match fs !! path with
      | None => ([], Raise (AssertionError (NotAValidPath path)))
      | Some store =>
          match store !! table with
          | None =>
              ([NoTableInFile table path;
                AvailableTables (elements (dom store))],
               Raise (KeyError table))
          | Some df =>
              let df := if lowercase then rename_with lower df else df in
              let '(df, log) :=
                if rename_ident then rename_ident_loop (columns df) df
                else (df, []) in
              match variables with
              | None => (log, Ok df)
              | Some variables =>
                  let diff : gset string :=
                    list_to_set variables ∖ list_to_set (columns df) in
                  if bool_decide (diff = ∅)
                  then
                    let variables :=
                      elements ((list_to_set variables : gset string)
                                  ∩ list_to_set (columns df)) in
                    (log, Ok (select_columns variables df))
                  else
                    (log, Raise (Exception "The following variable(s) are missing"))
              end
          end
      end
  end.

(** The first label that matches [ident_re], if there is one. *)
Definition first_ident (names : list string) : option string :=
  List.find ident_re_match names.

(** The labels after the renaming of [old]. *)
Definition renamed (old : option string) (names : list string) : list string :=
  match old with
  | Some old => (λ n, if decide (n = old) then "ident" else n) <$> names
  | None => names
  end.

End Surveys.

(** ** Python and numpy: the cells of a column as numbers *)

Module Cells.

(** [x == 0] for a cell [x]: false for a missing value and for a
    string. *)
Definition eq_zero (x : value) : bool :=
  match number x with
  | Some q => Qeq_bool q 0
  | None => false
  end.

(** The greater of two cells. A missing value is skipped; Python 2
    puts a string above every number. *)
Definition greater (v w : value) : value :=
  if isnull v then w
  else if isnull w then v
  else match v, w with
       | VStr s, VStr t => if String.ltb s t then w else v
       | VStr _, _ => v
       | _, VStr _ => w
       | _, _ =>
           match number v, number w with
           | Some p, Some q => if Qle_bool p q then w else v
           | _, _ => v
           end
       end.

(** [column.max()]: NaN when no cell holds a value. *)
Definition Series_max (cells : list value) : value := foldr greater VNaN cells.

(** [m / 2 ^ k] rounded to the nearest integer, a tie to the even one. *)
Definition round_half_even (m k : Z) : Z :=
  let q := (m / 2 ^ k)%Z in
  let r := (m mod 2 ^ k)%Z in
  if (2 * r <? 2 ^ k)%Z then q
  else if (2 ^ k <? 2 * r)%Z then (q + 1)%Z
  else if Z.even q then q else (q + 1)%Z.

(** What a binary64 number keeps of [m * 2 ^ e]: 53 bits (the bounds
    of the exponent are left aside). *)
Definition binary64 (m e : Z) : Z * Z :=
  let k := (Z.log2 (Z.abs m) - 52)%Z in
  if (k <=? 0)%Z then (m, e) else (round_half_even m k, (e + k)%Z).

(** [m * 2 ^ e + 1], before it is rounded. *)
Definition exact_plus_1 (m e : Z) : Z * Z :=
  if (0 <=? e)%Z then (m * 2 ^ e + 1, 0)%Z else (m + 2 ^ (- e), e)%Z.

Definition float_plus_1 (m e : Z) : Z * Z :=
  let '(m1, e1) := exact_plus_1 m e in binary64 m1 e1.

(** What an addition of 64-bit integers keeps of the sum. *)
Definition wrap64 (z : Z) : Z := ((z + 2 ^ 63) mod 2 ^ 64 - 2 ^ 63)%Z.

(** [x + 1] for [x] taken from a column of type [dt]: the cell of an
    integer column is a 64-bit integer of numpy, an integer of
    another column is a Python integer. *)
Definition plus_1 (dt : dtype) (x : value) : result value :=
  match x with
  | VNaN => Ok VNaN
  | VBool b => Ok (VInt (Z.b2z b + 1))
  | VInt z => Ok (VInt (match dt with int_ _ => wrap64 (z + 1) | _ => z + 1 end))
  | VFloat m e => let '(m', e') := float_plus_1 m e in Ok (VFloat m' e')
  | VNone => Raise (TypeError "unsupported operand type(s) for +: 'NoneType' and 'int'")
  | VStr _ => Raise (TypeError "cannot concatenate 'str' and 'int' objects")
  end.

(** [str.isspace] on one character. *)
Definition isspace (c : ascii) : bool :=
  let n := N_of_ascii c in ((9 <=? n) && (n <=? 13) || (n =? 32))%N.

Fixpoint lstrip (s : string) : string :=
  match s with
  | String c s' => if isspace c then lstrip s' else s
  | "" => ""
  end.

(** The digits of a literal, then blanks to the end. *)
Fixpoint digits (acc : Z) (s : string) : option Z :=
  match s with
  | "" => Some acc
  | String c s' =>
      if Surveys.is_digit c
      then digits (10 * acc + Z.of_N (N_of_ascii c - 48)) s'
      else if bool_decide (lstrip s = "") then Some acc else None
  end.

Definition unsigned (s : string) : option Z :=
  match s with
  | String c _ => if Surveys.is_digit c then digits 0 s else None
  | "" => None
  end.

(** [int(s)] for a string: a decimal literal with blanks around it. *)
Definition int_of_str (s : string) : option Z :=
  match lstrip s with
  | String "-" s' => Z.opp <$> unsigned s'
  | String "+" s' => unsigned s'
  | s' => unsigned s'
  end.

(** The integer part of a number: [int] rounds toward zero. *)
Definition integer_part (q : Q) : Z :=
  if Qle_bool 0 q then Qfloor q else Qceiling q.

(** [int(x)] *)
Definition python_int (x : value) : result Z :=
  match x with
  | VInt z => Ok z
  | VBool b => Ok (Z.b2z b)
  | VFloat m e => Ok (integer_part (dyadic m e))
  | VNaN => Raise (ValueError "cannot convert float NaN to integer")
  | VNone =>
      Raise (TypeError "int() argument must be a string or a number, not 'NoneType'")
  | VStr s =>
      match int_of_str s with
      | Some z => Ok z
      | None => Raise (ValueError "invalid literal for int() with base 10")
      end
  end.

(** A 64-bit integer; a Python 2 [int] on a 64-bit platform. *)
Definition int64 (z : Z) : bool := ((- 2 ^ 63 <=? z) && (z <? 2 ^ 63))%Z.

(** One cell of [column.astype('int')]. pandas refuses a missing
    float; numpy converts a float with the conversion of the
    processor, which gives the least 64-bit integer for a number that
    64 bits cannot hold; any other cell goes through [int]. *)
Definition astype_int (x : value) : result Z :=
  match x with
  | VNaN => Raise (ValueError "Cannot convert NA to integer")
  | VFloat m e =>
      let z := integer_part (dyadic m e) in
      Ok (if int64 z then z else - 2 ^ 63)%Z
  | _ =>
      z ← python_int x;
      if int64 z then Ok z
      else Raise (OverflowError "Python int too large to convert to C long")
  end.

(** What the hash table of [unique] keeps of a cell: equal numbers
    are one value whatever their type, NaN is one value. *)
Inductive hashed :=
| HNaN
| HNone
| HNumber (q : Q)
| HStr (s : string).

#[export] Instance Q_eq_dec : EqDecision Q.
Proof. solve_decision. Defined.

#[export] Instance hashed_eq_dec : EqDecision hashed.
Proof. solve_decision. Defined.

Definition hash_key (x : value) : hashed :=
  match x with
  | VNaN => HNaN
  | VNone => HNone
  | VStr s => HStr s
  | VBool b => HNumber (Qred (inject_Z (Z.b2z b)))
  | VInt z => HNumber (Qred (inject_Z z))
  | VFloat m e => HNumber (Qred (dyadic m e))
  end.

End Cells.
Export Cells.

(** ** numpy, pandas and the simulation engine, as far as the code uses them *)

(** The numbers of the engine. [fsum] is [ndarray.sum()], [as_float] is
    one cell of [astype(float)], [one] is [1.0], [nan] is [np.nan]. *)
Class numeric := {
  F : Type;
  nan : F;
  one : F;
  fmul : F → F → F;
  fdiv : F → F → F;
  fsum : list F → F;
  as_float : F → F
}.

(** [astype_value dt v]: one cell of [array.astype(dt)]; [None] when
    numpy refuses the conversion. *)
Class numpy := { astype_value : dtype → value → option value }.

(** Whether a series handed out by [iteritems] before a write
    [df.loc[mask, name] = v] shows that write afterwards. pandas decides
    it (item cache, consolidation of the frame); the code does not. *)
Class pandas := { loc_writes_through : bool }.

Module Core.

Record FormulaClass := {
  is_simple_formula : bool;      (* issubclass(formula_class, formulas.SimpleFormula) *)
  function : option string       (* formula_class.function *)
}.

(** One variable of the schema. *)
Record Column := {
  entity_key : string;           (* column.entity.key *)
  column_dtype : dtype;          (* column.dtype *)
  column_default : value;        (* column.default *)
  formula_class : FormulaClass
}.

Record TaxBenefitSystem := { column_by_name : gmap string Column }.

(** An entity of a simulation; [simulation.entities] holds it under
    its key. *)
Record Entity := {
  is_person : bool;
  count : nat;
  step_size : nat;
  roles_count : option Z;
  members_entity_id : option (list Z);
  members_legacy_role : option (list Z)
}.

Definition set_count (n : nat) (e : Entity) : Entity :=
  {| is_person := is_person e; count := n; step_size := n;
     roles_count := roles_count e;
     members_entity_id := members_entity_id e;
     members_legacy_role := members_legacy_role e |}.

Definition set_roles_count (n : Z) (e : Entity) : Entity :=
  {| is_person := is_person e; count := count e; step_size := step_size e;
     roles_count := Some n;
     members_entity_id := members_entity_id e;
     members_legacy_role := members_legacy_role e |}.

Definition set_members_entity_id (ids : list Z) (e : Entity) : Entity :=
  {| is_person := is_person e; count := count e; step_size := step_size e;
     roles_count := roles_count e;
     members_entity_id := Some ids;
     members_legacy_role := members_legacy_role e |}.

Definition set_members_legacy_role (roles : list Z) (e : Entity) : Entity :=
  {| is_person := is_person e; count := count e; step_size := step_size e;
     roles_count := roles_count e;
     members_entity_id := members_entity_id e;
     members_legacy_role := Some roles |}.

(** A simulation: its schema, its entities by key, the arrays given
    to its holders by [set_input], by variable and period, and what
    [calculate_add] answers. *)
Record Simulation `{numeric} := {
  tax_benefit_system : TaxBenefitSystem;
  entities : gmap string Entity;
  holder_input : gmap (string * string) (list value);
  calculate_add : string → option string → result (list F)
}.

Definition set_entities `{numeric} (es : gmap string Entity)
    (sim : Simulation) : Simulation :=
  {| tax_benefit_system := tax_benefit_system sim; entities := es;
     holder_input := holder_input sim; calculate_add := calculate_add sim |}.

Definition set_holder_input `{numeric} (h : gmap (string * string) (list value))
    (sim : Simulation) : Simulation :=
  {| tax_benefit_system := tax_benefit_system sim; entities := entities sim;
     holder_input := h; calculate_add := calculate_add sim |}.

(** Modelled from the spec: [simulation.get_or_new_holder] is the
    engine's. A holder is bound to a variable of the schema of the
    simulation and to the entity of the simulation that owns the
    variable: the result is the holder's column and the key of its
    entity. *)
Definition get_or_new_holder `{numeric} (sim : Simulation) (column_name : string)
  : result (Column * string) :=
  column ← getitem (column_by_name (tax_benefit_system sim)) column_name;
  _ ← getitem (entities sim) (entity_key column);
  mret (column, entity_key column).

End Core.
Export Core.

(** ** scenarios.py: the helpers that fill a simulation from a table *)

Module Scenarios.

Definition id_variable_by_entity_key : gmap string string :=
  list_to_map [("famille", "idfam"); ("foyer_fiscal", "idfoy"); ("menage", "idmen")].

Definition role_variable_by_entity_key : gmap string string :=
  list_to_map [("famille", "quifam"); ("foyer_fiscal", "quifoy"); ("menage", "quimen")].

(** [d.values()] *)
Definition dict_values (d : gmap string string) : list string := (map_to_list d).*2.

Inductive log_record :=
| UsedAsInputInFilter (used_as_input_variables : list string)
| UnknownColumnDropped (column_name : string)
| NotDroppedUsedAsInput (column_name : string)
| CalculatedColumnDropped (column_name : string)
| KeepingVariables (columns : list string)
| VariablesMismatch (variables_mismatch : gset string)
| UsedAsInputVariables (used_as_input_variables : list string)
| InputDataFrameColumns (columns : list string)
| ConvertingDtype (column_name : string) (from to : dtype)
| NaNValuesCount (nulls notnulls : nat) (column_name : string)
| NaNToDefault (column_name : string) (default : value)
| VariableNotFound (variable : option string).

Section helpers.
Context `{numeric, numpy, pandas}.

(** What the helpers work on: the table and the simulation they are
    given; both are changed in place. *)
Record State := {
  input_data_frame : DataFrame;
  simulation : Simulation
}.

(** A helper: it changes the two objects and logs. *)
Abbreviation helper := (py log_record State).

Definition set_frame (df : DataFrame) : helper unit :=
  modify (λ st, {| input_data_frame := df; simulation := simulation st |}).

Definition set_simulation (sim : Simulation) : helper unit :=
  modify (λ st, {| input_data_frame := input_data_frame st; simulation := sim |}).

(** [entity.attr = ...] on the entity held under [key]. *)
Definition update_entity (key : string) (f : Entity → Entity) : helper unit :=
  st ← get;
  set_simulation
    (set_entities (alter f key (entities (simulation st))) (simulation st)).

(** [[d[entity.key] for entity in simulation.entities.values()
      if not entity.is_person]] *)
Definition group_variables (d : gmap string string) (sim : Simulation)
  : result (list string) :=
  mapM (λ ke : string * Entity, getitem d ke.1)
       (filter (λ ke, is_person ke.2 = false) (map_to_list (entities sim))).

Definition drop_column (column_name : string) : helper unit :=
  st ← get;
  df ← lift (drop column_name (input_data_frame st));
  set_frame df.

(** Lines 473-478, one turn of the loop. *)
Definition drop_unknown (column_by_name : gmap string Column)
    (id_variables role_variables : list string) (column_name : string)
  : helper unit :=
  if bool_decide (column_name ∈ id_variables ++ role_variables) then mret tt
  else if bool_decide (column_name ∉ dom column_by_name)
  then info (UnknownColumnDropped column_name) ;; drop_column column_name
  else mret tt.

(** Lines 480-496, one turn of the loop. *)
Definition drop_calculated (column_by_name : gmap string Column)
    (id_variables role_variables used_as_input_variables : list string)
    (column_name : string) : helper unit :=
  if bool_decide (column_name ∈ id_variables ++ role_variables) then mret tt
  else
    column ← lift (getitem column_by_name column_name);
    if negb (is_simple_formula (formula_class column)) then mret tt
    else
      match function (formula_class column) with
      | None => mret tt
      | Some _ =>
          if bool_decide (column_name ∈ used_as_input_variables)
          then info (NotDroppedUsedAsInput column_name)
          else info (CalculatedColumnDropped column_name) ;;
               drop_column column_name
      end.

Definition filter_input_variables (column_by_name : gmap string Column)
    (used_as_input_variables : list string) : helper unit :=
  st ← get;
  id_variables ← lift (group_variables id_variable_by_entity_key (simulation st));
  role_variables ← lift (group_variables role_variable_by_entity_key (simulation st));
  info (UsedAsInputInFilter used_as_input_variables) ;;
  for_each (columns (input_data_frame st))
    (drop_unknown column_by_name id_variables role_variables) ;;
  st ← get;
  for_each (columns (input_data_frame st))
    (drop_calculated column_by_name id_variables role_variables
       used_as_input_variables) ;;
  st ← get;
  info (KeepingVariables (columns (input_data_frame st))).

(** [(roles == 0).sum()] *)
Definition count_role_0 (roles : Series) : nat :=
  length (filter (λ x, eq_zero x = true) (values roles)).

(** [int(roles.max() + 1)] *)
Definition max_plus_1 (roles : Series) : result Z :=
  plus_1 (dtype_of roles) (Series_max (values roles)) ≫= python_int.

(** [len(ids.unique())] *)
Definition unique_count (ids : Series) : nat :=
  length (remove_dups (hash_key <$> values ids)).

(** [column.astype('int').values] *)
Definition int_values (column : Series) : result (list Z) :=
  mapM astype_int (values column).

(** Lines 541-555, one turn of the loop over [simulation.entities]. *)
Definition init_entity (ke : string * Entity) : helper unit :=
  let '(key, entity) := ke in
  st ← get;
  let df := input_data_frame st in
  if is_person entity then update_entity key (set_count (index df))
  else
    role_variable ← lift (getitem role_variable_by_entity_key key);
    roles ← lift (frame_getitem df role_variable);
    update_entity key (set_count (count_role_0 roles)) ;;
    roles_count ← lift (max_plus_1 roles);
    update_entity key (set_roles_count roles_count) ;;
    lift (assert (int64 roles_count) (NotAValidRolesCount roles_count key)) ;;
    id_variable ← lift (getitem id_variable_by_entity_key key);
    ids ← lift (frame_getitem df id_variable);
    let unique_ids_count := unique_count ids in
    lift (assert (bool_decide (count_role_0 roles = unique_ids_count))
            (RoleZeroCount (count_role_0 roles) key unique_ids_count)) ;;
    members_entity_id ← lift (int_values ids);
    update_entity key (set_members_entity_id members_entity_id) ;;
    members_legacy_role ← lift (int_values roles);
    update_entity key (set_members_legacy_role members_legacy_role).

(** [array.astype(dt)] *)
Definition astype (dt : dtype) (array : list value) : result (list value) :=
  match mapM (astype_value dt) array with
  | Some array' => Ok array'
  | None => Raise (ValueError "astype")
  end.

(** [array[mask]] for a boolean [mask]. *)
Definition boolean_index (mask : list bool) (array : list value)
  : result (list value) :=
  if bool_decide (length mask = length array)
  then Ok (filter (λ mv, mv.1 = true) (zip mask array)).*2
  else Raise IndexError.

(** [df.loc[mask, name] = v] *)
Definition loc_setitem (mask : list bool) (name : string) (v : value)
    (df : DataFrame) : DataFrame :=
  {| index := index df;
     items :=
       (λ c : string * Series,
          if decide (c.1 = name)
          then (c.1, {| dtype_of := dtype_of c.2;
                        values := zip_with (λ (m : bool) x, if m then v else x)
                                    mask (values c.2) |})
          else c) <$> items df |}.

(** Lines 567-576: the missing values of a floating column. *)
Definition fill_default (column_name : string) (column_serie : Series)
    (column : Column) : helper unit :=
  if is_floating (dtype_of column_serie)
  then
    when (existsb isnull (values column_serie))
      (info (NaNValuesCount
               (length (filter (λ v, isnull v = true) (values column_serie)))
               (length (filter (λ v, notnull v = true) (values column_serie)))
               column_name) ;;
       info (NaNToDefault column_name (column_default column)) ;;
       st ← get;
       set_frame (loc_setitem (isnull <$> values column_serie) column_name
                    (column_default column) (input_data_frame st))) ;;
    st ← get;
    now ← lift (frame_getitem (input_data_frame st) column_name);
    lift (assert (forallb notnull (values now)) (NaNValuesLeft column_name))
  else mret tt.

(** Modelled from the spec: [holder.set_input(period, array)] is the
    engine's. The spec has the arrays that the resolver produces
    keyed by variable and period: [holder_input] records, under that
    key, the array that the code has given last. *)
Definition set_input (column_name period : string) (array : list value)
  : helper unit :=
  st ← get;
  set_simulation
    (set_holder_input
       (<[(column_name, period) := array]> (holder_input (simulation st)))
       (simulation st)).

(** Lines 578-583: the array of a column for its entity. *)
Definition entity_array (df : DataFrame) (key : string) (entity : Entity)
    (column : Column) (column_serie : Series) : result (list value) :=
  if is_person entity
  then astype (column_dtype column) (values column_serie)
  else
    role_variable ← getitem role_variable_by_entity_key key;
    roles ← frame_getitem df role_variable;
    selected ← boolean_index (eq_zero <$> values roles) (values column_serie);
    astype (column_dtype column) selected.

(** Lines 578-589: the array is checked against the entity and
    given to the holder. *)
Definition store_array (period column_name : string) (column : Column)
    (key : string) (column_serie : Series) : helper unit :=
  st ← get;
  entity ← lift (getitem (entities (simulation st)) key);
  array ← lift (entity_array (input_data_frame st) key entity column column_serie);
  lift (assert (bool_decide (length array = count entity))
          (BadSize column_name (length array) (count entity))) ;;
  set_input column_name period array.

(** Lines 557-589, one turn of the loop over the columns. *)
Definition init_column (period column_name : string) : helper unit :=
  if bool_decide (column_name ∈ dict_values role_variable_by_entity_key
                                 ++ dict_values id_variable_by_entity_key)
  then mret tt
  else
    st ← get;
    column_serie ← lift (frame_getitem (input_data_frame st) column_name);
    '(column, key) ← lift (get_or_new_holder (simulation st) column_name);
    when (bool_decide (dtype_of column_serie ≠ column_dtype column))
      (info (ConvertingDtype column_name (dtype_of column_serie)
               (column_dtype column))) ;;
    fill_default column_name column_serie column ;;
    st ← get;
    column_serie ←
      (if loc_writes_through
       then lift (frame_getitem (input_data_frame st) column_name)
       else mret column_serie);
    store_array period column_name column key column_serie.

(** Lines 504-589. [input_data_frame] and [simulation] are the two
    objects of the state; the arguments that the code refuses when
    they are [None] are plain arguments here. *)
Definition init_simulation_with_data_frame (period : string)
    (tbs : TaxBenefitSystem) (used_as_input_variables : list string)
  : helper unit :=
  st ← get;
  let variables_mismatch : gset string :=
    list_to_set used_as_input_variables
      ∖ list_to_set (columns (input_data_frame st)) in
  when (negb (bool_decide (variables_mismatch = ∅)))
    (info (VariablesMismatch variables_mismatch) ;;
     info (UsedAsInputVariables used_as_input_variables) ;;
     info (InputDataFrameColumns (columns (input_data_frame st)))) ;;
  id_variables ← lift (group_variables id_variable_by_entity_key (simulation st));
  role_variables ← lift (group_variables role_variable_by_entity_key (simulation st));
  for_each (id_variables ++ role_variables)
    (λ id_variable,
       lift (assert (bool_decide (id_variable ∈ columns (input_data_frame st)))
               (NotInInputDataFrame id_variable))) ;;
  filter_input_variables (column_by_name tbs) used_as_input_variables ;;
  st ← get;
  for_each (map_to_list (entities (simulation st))) init_entity ;;
  st ← get;
  for_each (columns (input_data_frame st)) (init_column period).

End helpers.

(** *** class AbstractSurveyScenario *)

Module AbstractSurveyScenario.

(** [values] of [compute_pivot_table]: [None], a [str] or a [list]. *)
Inductive values_arg :=
| ValuesNone
| ValuesStr (s : string)
| ValuesList (l : list string).

(** A pivot table as pandas builds it, with the two operations the
    code applies to it. [pivot_table df index columns values] is
    [df.pivot_table(index, columns, values, aggfunc = 'sum')], where
    [values] is a label or a list of labels. *)
Class pivoting `{numeric} := {
  Pivot : Type;
  pivot_table : gmap string (list F) → option (list string) →
                option (list string) → string + list string → result Pivot;
  pivot_sub : Pivot → Pivot → Pivot;
  pivot_div : Pivot → Pivot → Pivot
}.

Section scenario.
Context `{numeric}.

Record Scenario := {
  filtering_variable_by_entity : option (gmap string string);
  reference_simulation : option Simulation;
  simulation : option Simulation;
  tax_benefit_system : TaxBenefitSystem;
  weight_column_name_by_entity : option (gmap string string)
}.

Definition set_simulation (reference : bool) (sim : Simulation)
    (self : Scenario) : Scenario :=
  {| filtering_variable_by_entity := filtering_variable_by_entity self;
     reference_simulation :=
       if reference then Some sim else reference_simulation self;
     simulation := if reference then simulation self else Some sim;
     tax_benefit_system := tax_benefit_system self;
     weight_column_name_by_entity := weight_column_name_by_entity self |}.

(** A method: it may change the scenario in place
    ([new_simulation] does) and logs. *)
Abbreviation method := (py log_record Scenario).

(** A scalar or a one-dimensional array. *)
Inductive ndarray :=
| Scalar (x : F)
| Array (xs : list F).

(** [a * b], with the broadcasting of numpy. *)
Definition multiply (a b : ndarray) : result ndarray :=
  match a, b with
  | Scalar x, Scalar y => Ok (Scalar (fmul x y))
  | Scalar x, Array ys => Ok (Array (fmul x <$> ys))
  | Array xs, Scalar y => Ok (Array ((λ x, fmul x y) <$> xs))
  | Array xs, Array ys =>
      if bool_decide (length xs = length ys) then Ok (Array (zip_with fmul xs ys))
      else match xs, ys with
           | [x], _ => Ok (Array (fmul x <$> ys))
           | _, [y] => Ok (Array ((λ x, fmul x y) <$> xs))
           | _, _ => Raise (ValueError "operands could not be broadcast together")
           end
  end.

(** [a.sum()]; a Python float has no such method. *)
Definition sum (a : ndarray) : result F :=
  match a with
  | Array xs => Ok (fsum xs)
  | Scalar _ => Raise (AttributeError "sum")
  end.

(** [(a * b * c).sum()] and [(a * b).sum()] *)
Definition sum_of_product3 (a b c : ndarray) : result F :=
  ab ← multiply a b; abc ← multiply ab c; sum abc.

Definition sum_of_product2 (a b : ndarray) : result F :=
  ab ← multiply a b; sum ab.

(** Truth value of an optional name: [None] and [''] are false. *)
Definition truthy (name : option string) : bool :=
  match name with
  | None | Some "" => false
  | Some _ => true
  end.

(** [d[key]] where [key] may be [None], which no dict of the
    schema has. *)
Definition getitem_opt {V} (d : gmap string V) (key : option string) : result V :=
  match key with
  | Some key => getitem d key
  | None => Raise (KeyError "None")
  end.

(** [self.filtering_variable_by_entity.get(entity_key)] *)
Definition filtering_variable (self : Scenario) (key : string)
  : result (option string) :=
  match filtering_variable_by_entity self with
  | Some d => Ok (d !! key)
  | None => Raise (AttributeError "get")
  end.

Section engine.
(** Lines 311-402 of [new_simulation]: the simulation built from
    the tables of the scenario, as a function of the scenario. What
    these lines do to the objects of the scenario (line 402 calls
    [neutralize_variables] on its schema, see [NewSimulation]) and
    what they log is not followed here. *)
Variable build_simulation : Scenario → bool → result Simulation.

(** Lines 404-412: the new simulation is kept in the scenario. *)
Definition new_simulation (reference : bool) : method Simulation :=
  self ← get;
  sim ← lift (build_simulation self reference);
  modify (set_simulation reference sim) ;;
  mret sim.

(** [self.simulation or self.new_simulation()], and the same
    with the reference. *)
Definition get_simulation (reference : bool) : method Simulation :=
  self ← get;
  match (if reference then reference_simulation self
         else simulation self) with
  | Some sim => mret sim
  | None => new_simulation reference
  end.

(** Lines 82-111: the value of the variable, the weight of its
    entity and the filter, on the simulation asked for. *)
Definition aggregate_operands (variable filter_by period : option string)
    (reference : bool) : method (ndarray * ndarray * ndarray) :=
  self ← get;
  filter_by ←
    match filter_by with
    | None =>
        column ← lift (getitem_opt
                         (column_by_name (tax_benefit_system self)) variable);
        lift (filtering_variable self (entity_key column))
    | Some _ => mret filter_by
    end;
  lift (assert (bool_decide (is_Some variable)) VariableIsNone) ;;
  simulation ← get_simulation reference;
  self ← get;
  when (truthy filter_by)
    (lift (assert (bool_decide
                     (is_Some (filter_by ≫=
                                 (column_by_name (tax_benefit_system self) !!.))))
             (NotInTaxBenefitSystem (default "" filter_by)))) ;;
  lift (assert (match weight_column_name_by_entity self with
                | Some d => negb (bool_decide (d = ∅))
                | None => false
                end) NoWeightColumnName) ;;
  column ← lift (getitem_opt
                   (column_by_name (tax_benefit_system self)) variable);
  entity_weight ← lift (getitem (default ∅ (weight_column_name_by_entity self))
                          (entity_key column));
  value ←
    (if bool_decide (is_Some (variable ≫=
                                (column_by_name
                                   (Core.tax_benefit_system simulation) !!.)))
     then lift (Array <$> calculate_add simulation (default "" variable) period)
     else info (VariableNotFound variable) ;; mret (Scalar nan));
  weight ← lift (calculate_add simulation entity_weight period);
  let weight := Array (as_float <$> (weight : list F)) in
  filter_dummy ←
    (if truthy filter_by
     then lift (Array <$> calculate_add simulation (default "" filter_by) period)
     else mret (Scalar one));
  mret (value, weight, filter_dummy).

(** Lines 76-118. *)
Definition compute_aggregate (variable : option string) (aggfunc : string)
    (filter_by period : option string) (reference : bool) : method F :=
  lift (assert (bool_decide (aggfunc ∈ ["count"; "mean"; "sum"]))
          (AggfuncNotAllowed aggfunc)) ;;
  '(value, weight, filter_dummy) ←
    aggregate_operands variable filter_by period reference;
  if bool_decide (aggfunc = "sum")
  then lift (sum_of_product3 value weight filter_dummy)
  else if bool_decide (aggfunc = "mean")
  then
    lift (s ← sum_of_product3 value weight filter_dummy;
          m ← sum_of_product2 weight filter_dummy;
          mret (fdiv s m))
  else if bool_decide (aggfunc = "count")
  then lift (sum_of_product2 weight filter_dummy)
  else raise (TypeError "None") (* not reached: line 80 *).

Section pivot.
Context `{!pivoting}.

(** [values[0]] *)
Definition first_value (values : values_arg) : result string :=
  match values with
  | ValuesNone => Raise (TypeError "'NoneType' object has no attribute '__getitem__'")
  | ValuesStr "" | ValuesList [] => Raise IndexError
  | ValuesStr (String c _) => Ok (String c "")
  | ValuesList (v :: _) => Ok v
  end.

(** [calculate_variable] of lines 175-181. The name it logs
    is [variable] of the enclosing function: what the loop of
    line 168 left there. *)
Definition calculate_variable (simulation : Simulation)
    (period variable : option string) (var : string) : method ndarray :=
  if bool_decide (var ∈ dom (column_by_name (Core.tax_benefit_system simulation)))
  then lift (Array <$> calculate_add simulation var period)
  else info (VariableNotFound variable) ;; mret (Scalar nan).

(** [pandas.DataFrame(d)] for a dict of arrays and scalars:
    the arrays have one length, which the scalars take. *)
Definition data_frame_of_dict (d : list (string * ndarray))
  : result (gmap string (list F)) :=
  match d with
  | [] => Ok ∅
  | _ =>
      match omap (λ ka : string * ndarray,
                    match ka.2 with
                    | Array xs => Some (length xs)
                    | Scalar _ => None
                    end) d with
      | [] => Raise (ValueError "If using all scalar values, you must pass an index")
      | n :: ns =>
          if forallb (λ m, bool_decide (m = n)) ns
          then Ok (list_to_map
                     ((λ ka : string * ndarray,
                         (ka.1, match ka.2 with
                                | Array xs => xs
                                | Scalar x => replicate n x
                                end)) <$> d))
          else Raise (ValueError "arrays must all be same length")
      end
  end.

(** Lines 120-196. [depth] bounds the calls of the function
    by itself, as the interpreter does. *)
Fixpoint compute_pivot_table (depth : nat) (aggfunc : string)
    (columns : option (list string)) (difference : bool)
    (filter_by : option string) (index : option (list string))
    (period : option string) (reference : bool) (values : values_arg)
  : method Pivot :=
  match depth with
  | O => raise (Exception "maximum recursion depth exceeded")
  | S depth =>
      lift (assert (bool_decide (aggfunc ∈ ["count"; "mean"; "sum"]))
              (AggfuncNotAllowed aggfunc)) ;;
      self ← get;
      (* lines 124-127: [tax_benefit_system] is a local name,
         bound by line 125 only *)
      let local_tax_benefit_system :=
        match filter_by with
        | None => Some (tax_benefit_system self)
        | Some _ => None
        end in
      tbs ← lift (match local_tax_benefit_system with
                  | Some tbs => Ok tbs
                  | None => Raise (UnboundLocalError "tax_benefit_system")
                  end);
      v0 ← lift (first_value values);
      column ← lift (getitem (column_by_name tbs) v0);
      filter_by ← lift (filtering_variable self (entity_key column));
      lift (assert (match values with ValuesNone => false | _ => true end)
              ValuesNotStrOrList) ;;
      let values :=
        match values with
        | ValuesList l => l
        | _ => ["values"]
        end in
      let tbs := tax_benefit_system self in
      lift (assert (bool_decide (is_Some (weight_column_name_by_entity self)))
              NoWeightColumnName) ;;
      if difference
      then
        current ← compute_pivot_table depth aggfunc columns false filter_by
                    index period false (ValuesList values);
        reference ← compute_pivot_table depth aggfunc columns false filter_by
                      index period true (ValuesList values);
        mret (pivot_sub current reference)
      else
        simulation ← get_simulation reference;
        let index_list := default [] index in
        let columns_list := default [] columns in
        let variables : gset string :=
          list_to_set (index_list ++ values ++ columns_list) in
        v0 ← lift (first_value (ValuesList values));
        column ← lift (getitem (column_by_name tbs) v0);
        let key := entity_key column in
        weight ← lift (getitem (default ∅ (weight_column_name_by_entity self))
                         key);
        let variables :=
          variables ∪ {[weight]}
            ∪ match filter_by with Some f => {[f]} | None => ∅ end in
        for_each (elements variables)
          (λ variable,
             column ← lift (getitem (column_by_name tbs) variable);
             lift (assert (bool_decide (entity_key column = key))
                     (NotInEntity variable key))) ;;
        d ← mapM (λ var,
                    a ← calculate_variable simulation period
                          (last (elements variables)) var;
                    mret (var, a))
                 (elements variables);
        data_frame ← lift (data_frame_of_dict d);
        let filter_dummy :=
          match filter_by ≫= (data_frame !!.) with
          | Some xs => Array xs
          | None => Scalar one
          end in
        x ← lift (getitem data_frame v0);
        xw ← lift (getitem data_frame weight);
        x ← lift (xw ← multiply (Array x) (Array xw);
                  multiply xw filter_dummy);
        let data_frame :=
          match x with
          | Array xs => <[v0 := xs]> data_frame
          | Scalar _ => data_frame
          end in
        pivot_sum ← lift (pivot_table data_frame index columns (inr values));
        pivot_mass ← lift (pivot_table data_frame index columns (inl weight));
        if bool_decide (aggfunc = "mean")
        then mret (pivot_div pivot_sum pivot_mass)
        else if bool_decide (aggfunc = "sum")
        then mret pivot_sum
        else mret pivot_mass
  end.

End pivot.
End engine.
End scenario.
End AbstractSurveyScenario.

End Scenarios.

(** ** A small survey, to run the model on *)

Module Example.
Import Scenarios.

(** Numbers with a NaN that every operation propagates. *)
#[export] Instance option_Z_numeric : numeric := {|
  F := option Z;
  nan := None;
  one := Some 1%Z;
  fmul := λ x y, match x, y with Some a, Some b => Some (a * b)%Z | _, _ => None end;
  fdiv := λ x y, match x, y with
                 | Some a, Some b => if decide (b = 0%Z) then None else Some (a / b)%Z
                 | _, _ => None
                 end;
  fsum := foldr (λ x acc, match x, acc with
                          | Some a, Some b => Some (a + b)%Z
                          | _, _ => None
                          end) (Some 0%Z);
  as_float := id
|}.

(** A cast that keeps every cell. *)
Definition keep_cells : numpy := {| astype_value := λ _ v, Some v |}.

Definition writes_through : pandas := {| loc_writes_through := true |}.
Definition keeps_old_series : pandas := {| loc_writes_through := false |}.

Definition input_variable (key : string) (dt : dtype) (d : value) : Column :=
  {| entity_key := key; column_dtype := dt; column_default := d;
     formula_class := {| is_simple_formula := true; function := None |} |}.

Definition calculated_variable (key : string) (dt : dtype) (d : value) : Column :=
  {| entity_key := key; column_dtype := dt; column_default := d;
     formula_class := {| is_simple_formula := true; function := Some "function" |} |}.

Definition system : TaxBenefitSystem :=
  {| column_by_name :=
       list_to_map [("salaire", input_variable "individus" (float_ 32) (VInt 0));
                    ("loyer", input_variable "menage" (float_ 32) (VInt 0));
                    ("wprm", input_variable "menage" (float_ 32) (VInt 0));
                    ("impot", calculated_variable "menage" (float_ 32) (VInt 0))] |}.

Definition new_entity (person : bool) : Entity :=
  {| is_person := person; count := 0; step_size := 0; roles_count := None;
     members_entity_id := None; members_legacy_role := None |}.

(** A simulation of persons and households, nothing computed yet. *)
Definition empty_simulation : Simulation :=
  {| tax_benefit_system := system;
     entities := list_to_map [("individus", new_entity true);
                              ("menage", new_entity false)];
     holder_input := ∅;
     calculate_add := λ name _, Raise (EngineError name) |}.

Definition ints (zs : list Z) : Series :=
  {| dtype_of := int_ 64; values := VInt <$> zs |}.

Definition floats (vs : list value) : Series :=
  {| dtype_of := float_ 64; values := vs |}.

(** Four persons in two households. *)
Definition four_persons : DataFrame :=
  {| index := 4;
     items := [("idmen", ints [1; 1; 2; 2]%Z);
               ("quimen", ints [0; 1; 0; 1]%Z);
               ("salaire", floats [VFloat 5 2; VNaN; VFloat 3 3; VFloat 0 0]);
               ("loyer", floats [VFloat 1 9; VNaN; VFloat 3 7; VNaN])] |}.

Definition start (df : DataFrame) : State :=
  {| input_data_frame := df; simulation := empty_simulation |}.


(** A survey table with a calculated variable and an unknown column. *)
Definition raw_table : DataFrame :=
  {| index := 2;
     items := [("idmen", ints [1; 2]%Z);
               ("quimen", ints [0; 0]%Z);
               ("salaire", floats [VFloat 5 2; VFloat 3 3]);
               ("impot", floats [VFloat 1 2; VFloat 1 3]);
               ("noi", ints [1; 1]%Z)] |}.

(** A table of persons that lacks the role column of the households. *)
Definition no_role_column : DataFrame :=
  {| index := 2;
     items := [("idmen", ints [1; 2]%Z);
               ("salaire", floats [VFloat 5 2; VFloat 3 3])] |}.

(** A table with the columns of the households and no row. *)
Definition no_row : DataFrame :=
  {| index := 0;
     items := [("idmen", ints []); ("quimen", ints [])] |}.

(** Two persons of one household, in columns of floats; the role of
    the second is not a whole number. *)
Definition fractional_role : DataFrame :=
  {| index := 2;
     items := [("idmen", floats [VFloat 1 0; VFloat 1 0]);
               ("quimen", floats [VFloat 0 0; VFloat 3 (-1)])] |}.


End Example.

(** ** Notions used in the statements *)

Section py_notions.
Context {L S : Type}.

(** [m], run from [s], ends as [Q] says. *)
Definition ends {A} (m : py L S A) (s : S)
    (Q : S → list L → result A → Prop) : Prop :=
  Q (m s).1.1 (m s).1.2 (m s).2.

(** A relation between the state before and the state after. *)
Definition keeps (R : relation S) {A} (m : py L S A) : Prop :=
  ∀ s, R s (m s).1.1.



End py_notions.

Section notions.
Context `{numeric}.
Import Scenarios.

(** [st'] is [st] with some columns dropped, none of them in [keep]. *)
Definition narrowed (keep : list string) (st st' : State) : Prop :=
  simulation st' = simulation st
  ∧ index (input_data_frame st') = index (input_data_frame st)
  ∧ ∃ dropped : list string,
      (∀ n, n ∈ dropped → n ∉ keep)
      ∧ items (input_data_frame st')
        = filter (λ c, c.1 ∉ dropped) (items (input_data_frame st)).

(** A cell of a role column that equals 0: the integer 0, the float
    0.0 or [False]. *)
Definition role_is_0 (x : value) : bool :=
  match x with
  | VInt 0 | VBool false | VFloat 0 _ => true
  | _ => false
  end.

(** Two cells hold the same value: the same number whatever its type,
    the same string, or the same missing value. *)
Definition same_value (x y : value) : bool :=
  match x, y with
  | VNaN, VNaN | VNone, VNone => true
  | VStr s, VStr t => bool_decide (s = t)
  | _, _ =>
      match number x, number y with
      | Some p, Some q => Qeq_bool p q
      | _, _ => false
      end
  end.

(** One cell for each of the values of [cells]: a cell is dropped
    when its value comes again further down. *)
Fixpoint distinct (cells : list value) : list value :=
  match cells with
  | [] => []
  | x :: cells' =>
      if existsb (same_value x) cells' then distinct cells'
      else x :: distinct cells'
  end.

(** [greatest] is a cell of [cells] that holds a number, and no
    number of [cells] is above it. *)
Definition is_greatest (greatest : value) (cells : list value) : Prop :=
  greatest ∈ cells
  ∧ ∃ g, number greatest = Some g
         ∧ ∀ x q, x ∈ cells → number x = Some q → (q <= g)%Q.

(** The sum of the cell and 1 is exact: 64 bits hold it for an
    integer, the 53 bits of a binary64 number hold it for a float. *)
Definition exact_sum (x : value) : Prop :=
  match x with
  | VInt z => (- 2 ^ 63 ≤ z + 1 < 2 ^ 63)%Z
  | VFloat m e =>
      ∃ m' e', (Z.abs m' < 2 ^ 53)%Z ∧ (dyadic m e + 1 == dyadic m' e')%Q
  | _ => True
  end.


(** [n] is [q] rounded toward zero. *)
Definition truncated (q : Q) (n : Z) : Prop :=
  ((0 <= q)%Q → n = Qfloor q) ∧ ((q <= 0)%Q → n = Qceiling q).

(** [z] stands for the cell [x] in an array of integers: the number
    of [x] rounded toward zero, when 64 bits hold it. *)
Definition stored_as (x : value) (z : Z) : Prop :=
  ∀ q n, number x = Some q → truncated q n →
         (- 2 ^ 63 ≤ n < 2 ^ 63)%Z → z = n.

(** What the resolver leaves in the entity [e] held under [key], for
    the table [df]. *)
Definition resolved (df : DataFrame) (key : string) (e : Entity) : Prop :=
  if is_person e then count e = index df
  else
    ∃ role_variable id_variable roles ids greatest n members_id members_role,
      role_variable_by_entity_key !! key = Some role_variable
      ∧ id_variable_by_entity_key !! key = Some id_variable
      ∧ frame_getitem df role_variable = Ok roles
      ∧ frame_getitem df id_variable = Ok ids
      ∧ count e = length (filter (λ x, role_is_0 x = true) (values roles))
      ∧ is_greatest greatest (values roles)
      ∧ roles_count e = Some n
      ∧ (∀ q, number greatest = Some q → exact_sum greatest →
              truncated (q + 1) n)
      ∧ length (distinct (values ids)) = count e
      ∧ members_entity_id e = Some members_id
      ∧ Forall2 stored_as (values ids) members_id
      ∧ members_legacy_role e = Some members_role
      ∧ Forall2 stored_as (values roles) members_role.

(** [st'] is [st] but for the entities of the simulation. *)
Definition same_but_entities (st st' : State) : Prop :=
  input_data_frame st' = input_data_frame st
  ∧ Core.tax_benefit_system (simulation st') = Core.tax_benefit_system (simulation st)
  ∧ holder_input (simulation st') = holder_input (simulation st).

Definition same_entities (st st' : State) : Prop :=
  entities (simulation st') = entities (simulation st)
  ∧ Core.tax_benefit_system (simulation st') = Core.tax_benefit_system (simulation st).




(** The six labels that the loop over the columns skips. *)
Definition group_labels : list string :=
  dict_values role_variable_by_entity_key ++ dict_values id_variable_by_entity_key.

End notions.

(** ** Notions used in the further properties *)

Section filter_notions.
Import Scenarios.

(** A column that [filter_input_variables] keeps: a column of a group
    entity, or a variable of the schema that is not a calculated one
    (a simple formula with a function) unless it is used as input. *)
Definition kept_by_filter (column_by_name : gmap string Column)
    (groups used_as_input_variables : list string) (name : string) : bool :=
  bool_decide (name ∈ groups)
  || match column_by_name !! name with
     | None => false
     | Some column =>
         negb (is_simple_formula (formula_class column)
               && bool_decide (is_Some (function (formula_class column)))
               && negb (bool_decide (name ∈ used_as_input_variables)))
     end.

(** The holder of [name] has, for [period], an array as long as its
    entity counts members. *)
Definition given_to_holder `{numeric} (period : string) (st : State)
    (name : string) : Prop :=
  ∃ column e array,
    column_by_name (Core.tax_benefit_system (simulation st)) !! name = Some column
    ∧ entities (simulation st) !! entity_key column = Some e
    ∧ holder_input (simulation st) !! (name, period) = Some array
    ∧ length array = count e.

(** The state differs only in what the holder of [name] holds, and in
    the cells of the table. *)
Definition same_but_holder `{numeric} (name : string) (st st' : State) : Prop :=
  entities (simulation st') = entities (simulation st)
  ∧ Core.tax_benefit_system (simulation st') = Core.tax_benefit_system (simulation st)
  ∧ ∀ other p, other ≠ name →
               holder_input (simulation st') !! (other, p)
               = holder_input (simulation st) !! (other, p).

(** The table has kept its rows, and lost some columns or none. *)
Definition same_rows_fewer_columns `{numeric} (st st' : State) : Prop :=
  index (input_data_frame st') = index (input_data_frame st)
  ∧ columns (input_data_frame st') `sublist_of` columns (input_data_frame st).

(** Two runs end in the same state with the same outcome; what they
    have logged may differ. *)
Definition same_outcome {L S A} (x y : S * list L * result A) : Prop :=
  x.1.1 = y.1.1 ∧ x.2 = y.2.

End filter_notions.

(** ** scenarios.py: [new_simulation], lines 339-393, and
    [neutralize_variables] *)

From Stdlib Require DecimalString.

Module NewSimulation.
Import Scenarios.

(** [regex.findall(period_str)] for the regex of line 350,
    [^(?:19|20)[0-9]{2,2}(?:\-(0[0-9]|1[0-2]|Q[1-4])){0,1}$]: the
    pattern is anchored and has one group, so the list is empty or has
    one string, what the group has matched (the empty string when the
    group has matched nothing). *)
Definition century (a b : ascii) : bool :=
  (bool_decide (a = "1"%char) && bool_decide (b = "9"%char))
  || (bool_decide (a = "2"%char) && bool_decide (b = "0"%char)).

Definition between (lo hi c : ascii) : bool :=
  ((N_of_ascii lo <=? N_of_ascii c) && (N_of_ascii c <=? N_of_ascii hi))%N.

(** [0[0-9]|1[0-2]|Q[1-4]] *)
Definition sub_period (x y : ascii) : bool :=
  (bool_decide (x = "0"%char) && between "0" "9" y)
  || (bool_decide (x = "1"%char) && between "0" "2" y)
  || (bool_decide (x = "Q"%char) && between "1" "4" y).

(** [(?:\-(...)){0,1}$] *)
Definition optional_sub_period (rest : string) : list string :=
  let with_group :=
    match rest with
    | String h (String x (String y rest')) =>
        if bool_decide (h = "-"%char) && sub_period x y && Surveys.at_end rest'
        then Some (String x (String y ""))
        else None
    | _ => None
    end in
  match with_group with
  | Some group => [group]
  | None => if Surveys.at_end rest then [""] else []
  end.

Definition findall (period_str : string) : list string :=
  match period_str with
  | String a (String b (String c (String d rest))) =>
      if century a b && Surveys.is_digit c && Surveys.is_digit d
      then optional_sub_period rest
      else []
  | _ => []
  end.

(** [int(s)] for a string of one character or none. *)
Definition int (s : string) : result Z :=
  match s with
  | String c "" =>
      if Surveys.is_digit c then Ok (Z.of_N (N_of_ascii c) - 48)%Z
      else Raise (ValueError "invalid literal for int() with base 10")
  | _ => Raise (ValueError "invalid literal for int() with base 10")
  end.

(** [period_str[-1:]] *)
Fixpoint last_character (s : string) : string :=
  match s with
  | "" => ""
  | String c "" => String c ""
  | String _ s' => last_character s'
  end.

(** [period_str[:4]] *)
Definition first_four (s : string) : string :=
  match s with
  | String a (String b (String c (String d _))) =>
      String a (String b (String c (String d "")))
  | _ => s
  end.

(** ["{}".format(n)] for an integer. *)
Definition format_int (n : Z) : string :=
  DecimalString.NilZero.string_of_int (Z.to_int n).

(** Lines 359-393: the periods for which the table of [period] is
    given to [init_simulation_with_data_frame], in the order of the
    calls. A period is what [str] writes for it. *)
Definition initialisation_periods (period : string) : result (list string) :=
  let period_str := period in
  let period_type := findall period_str in
  if match period_type with
     | [] => true
     | first :: _ => bool_decide (first = "")
     end
  then Ok [period]
  else if bool_decide ("Q" ∈ period_type)
  then
    let year := first_four period_str in
    quarter ← int (last_character period_str);
    let quarter_month_range :=
      seqZ (4 * (quarter - 1) + 1) (4 * quarter - (4 * (quarter - 1) + 1)) in
    Ok ((λ month : Z,
           if bool_decide (10 ≤ month)%Z
           then year +:+ "-" +:+ format_int month
           else year +:+ "-0" +:+ format_int month) <$> quarter_month_range)
  else Ok [period].

Section fill.
Context `{numeric, numpy, pandas}.

(** Lines 346-393 for one table of [input_data_table_by_period], once
    it is read: the table and the simulation are the state. *)
Definition fill_from_table (period : string) (tbs : TaxBenefitSystem)
    (used_as_input_variables : list string) : py log_record State unit :=
  periods ← lift (initialisation_periods period);
  for_each periods
    (λ period_item,
       init_simulation_with_data_frame period_item tbs used_as_input_variables).

End fill.

(** [x in l] where [l] may be [None]. *)
Definition contains (x : string) (l : option (list string)) : result bool :=
  match l with
  | Some l => Ok (bool_decide (x ∈ l))
  | None => Raise (TypeError "argument of type 'NoneType' is not iterable")
  end.

(** [tax_benefit_system.neutralize_column(column_name)] is the
    engine's: the state is the list of the columns it has been called
    on, oldest first. *)
Definition neutralize_column (column_name : string)
  : py log_record (list string) unit :=
  modify (λ calls, calls ++ [column_name]).

(** Lines 437-450, one turn of the loop. The three attributes of the
    scenario that the loop reads are arguments. *)
Definition neutralize_variable
    (used_as_input_variables non_neutralizable_variables : option (list string))
    (weight_column_name_by_entity : option (gmap string string))
    (item : string * Column) : py log_record (list string) unit :=
  let '(column_name, column) := item in
  if negb (is_simple_formula (formula_class column)) then mret tt
  else
    match function (formula_class column) with
    | Some _ => mret tt
    | None =>
        used ← lift (contains column_name used_as_input_variables);
        if (used : bool) then mret tt
        else
          kept ← lift (contains column_name non_neutralizable_variables);
          if (kept : bool) then mret tt
          else
            weights ← lift (match weight_column_name_by_entity with
                            | Some d => Ok (dict_values d)
                            | None => Raise (AttributeError "values")
                            end);
            if bool_decide (column_name ∈ weights) then mret tt
            else neutralize_column column_name
    end.

Definition neutralize_variables
    (used_as_input_variables non_neutralizable_variables : option (list string))
    (weight_column_name_by_entity : option (gmap string string))
    (tbs : TaxBenefitSystem) : py log_record (list string) unit :=
  for_each (map_to_list (column_by_name tbs))
    (neutralize_variable used_as_input_variables non_neutralizable_variables
       weight_column_name_by_entity).

(** An input variable: a simple formula without a function. *)
Definition is_input_variable (column : Column) : bool :=
  is_simple_formula (formula_class column)
  && negb (bool_decide (is_Some (function (formula_class column)))).

End NewSimulation.

(** ** surveys.py: the other methods of [Survey] *)

Module SurveyMethods.
Import Surveys.

Inductive log_record :=
| Reading (record : Surveys.log_record)
| BuildingColumnsIndex (table : string)
| TableNotFound (table filename : string)
| TableNotInSurvey (table : string).

(** What the methods share: the files, and [Survey.tables_index], a
    dict of the class that no method ever binds on an object, so every
    survey reads and fills the same one. *)
Record World := {
  files : FileSystem;
  tables_index : gmap string (list string)
}.

Definition set_files (fs : FileSystem) (w : World) : World :=
  {| files := fs; tables_index := tables_index w |}.

Definition set_tables_index (index : gmap string (list string)) (w : World) : World :=
  {| files := files w; tables_index := index |}.

(** [pandas.HDFStore(path)]: the file is opened in mode ['a'], which
    creates it when it is not there; [None] is not a path. *)
Definition open_store (path : option string) : py log_record World HDFStore :=
  match path with
  | None => raise (TypeError "expected a path")
  | Some path =>
      w ← get;
      let store := default ∅ (files w !! path) in
      modify (set_files (<[path := store]> (files w))) ;;
      mret store
  end.

(** Lines 135-150. The labels of a table are strings here: line 143
    gives the label itself to [ident_re.match], where line 211 of
    [get_values] gives [str(column_name)]. *)
Definition get_columns (self : Survey) (table : string) (rename_ident : bool)
  : py log_record World (list string) :=
  store ← open_store (hdf5_file_path self);
  match store !! table with
  | Some data_frame =>
      info (BuildingColumnsIndex table) ;;
      let '(data_frame, log) :=
        if rename_ident then rename_ident_loop (columns data_frame) data_frame
        else (data_frame, []) in
      for_each log (λ record, info (Reading record)) ;;
      mret (columns data_frame)
  | None =>
      info (TableNotFound table (default "" (hdf5_file_path self))) ;;
      mret []
  end.

(** Lines 128-132: the loop, with [container_tables] as it is when
    the loop reaches [tables]. *)
Fixpoint find_tables_loop (self : Survey) (variable : string)
    (tables container_tables : list string) : py log_record World (list string) :=
  match tables with
  | [] => mret container_tables
  | table :: tables =>
      w ← get;
      when (bool_decide (table ∉ dom (tables_index w)))
        (columns ← get_columns self table true;
         modify (λ w, set_tables_index (<[table := columns]> (tables_index w)) w)) ;;
      w ← get;
      columns ← lift (getitem (tables_index w) table);
      find_tables_loop self variable tables
        (if bool_decide (variable ∈ columns) then container_tables ++ [table]
         else container_tables)
  end.

Section objects.
(** The Python objects that a survey keeps without reading them. *)
Context {V : Type}.

(** A survey with all its attributes; [survey] holds the two that
    [get_values] reads. *)
Record SurveyObject := {
  survey : Survey;
  label : option string;
  tables : option (gmap string (gmap string V));
  informations : gmap string V;
  survey_collection : option V
}.

Definition set_tables (ts : option (gmap string (gmap string V)))
    (self : SurveyObject) : SurveyObject :=
  {| survey := survey self; label := label self; tables := ts;
     informations := informations self;
     survey_collection := survey_collection self |}.

(** Lines 120-133. [rename_ident] is not read. *)
Definition find_tables (self : SurveyObject) (variable : string)
    (tables_arg : option (list string)) (rename_ident : bool)
  : py log_record World (list string) :=
  tables_list ←
    match tables_arg with
    | Some tables_list => mret tables_list
    | None =>
        match tables self with
        | Some ts => mret (map_to_list ts).*1
        | None => raise (TypeError "'NoneType' object is not iterable")
        end
    end;
  find_tables_loop (survey self) variable tables_list [].

(** Lines 152-171. *)
Definition get_value (self : SurveyObject) (fs : FileSystem)
    (variable table : string) : list log_record * result DataFrame :=
  match tables self with
  | None => ([], Raise (TypeError "argument of type 'NoneType' is not iterable"))
  | Some ts =>
      let log := if bool_decide (table ∉ dom ts) then [TableNotInSurvey table]
                 else [] in
      let '(log', df) :=
        get_values (survey self) fs (Some [variable]) table false true in
      (log ++ (Reading <$> log'), df)
  end.

(** A key of a JSON object: not there, there with [null], or there
    with a value. *)
Inductive json_field (A : Type) :=
| Absent
| Null
| Value (a : A).
Arguments Absent {A}.
Arguments Null {A}.
Arguments Value {A} a.

(** [survey_json.get(key)] *)
Definition json_get {A} (field : json_field A) : option A :=
  match field with
  | Value a => Some a
  | Absent | Null => None
  end.

Definition json_of_option {A} (x : option A) : json_field A :=
  match x with
  | Some a => Value a
  | None => Null
  end.

(** The keys of [survey_json] that the code reads or writes. *)
Record SurveyJson := {
  json_hdf5_file_path : json_field string;
  json_label : json_field string;
  json_name : json_field string;
  json_tables : json_field (gmap string (gmap string V));
  json_informations : json_field (gmap string V)
}.

(** How the construction of a survey fails:
    the [AssertionError] of line 44, the [TypeError] of a keyword given
    twice, and the [TypeError] of [**None]. *)
Inductive init_error :=
| NameIsNone
| MultipleValues
| NotAMapping.

(** Lines 42-57: [Survey(name, label, hdf5_file_path,
    survey_collection, **kwargs)]. *)
Definition Survey_init (name label hdf5_file_path : option string)
    (survey_collection : option V) (kwargs : gmap string V)
  : init_error + SurveyObject :=
  match name with
  | None => inl NameIsNone
  | Some name =>
      inr {| survey := {| Surveys.name := name;
                          Surveys.hdf5_file_path := hdf5_file_path |};
             label := label;
             tables := Some ∅;
             informations := kwargs;
             survey_collection := survey_collection |}
  end.

(** [cls(name = ..., label = ..., hdf5_file_path = ..., **keywords)]:
    a keyword that names a parameter is bound to it, and a parameter
    must not be given twice. [self] is the first parameter of
    [__init__], and the call has given it. *)
Definition Survey_call (name label hdf5_file_path : option string)
    (keywords : gmap string V) : init_error + SurveyObject :=
  if bool_decide (Exists (λ k, k ∈ dom keywords)
                    ["self"; "name"; "label"; "hdf5_file_path"])
  then inl MultipleValues
  else Survey_init name label hdf5_file_path (keywords !! "survey_collection")
         (delete "survey_collection" keywords).

(** Lines 68-77. *)
Definition create_from_json (survey_json : SurveyJson)
  : init_error + SurveyObject :=
  match (match json_informations survey_json with
         | Absent => inr ∅
         | Null => inl NotAMapping
         | Value d => inr d
         end) with
  | inl e => inl e
  | inr keywords =>
      match Survey_call (json_get (json_name survey_json))
              (json_get (json_label survey_json))
              (json_get (json_hdf5_file_path survey_json)) keywords with
      | inl e => inl e
      | inr self => inr (set_tables (json_get (json_tables survey_json)) self)
      end
  end.

(** Lines 252-260. *)
Definition to_json (self : SurveyObject) : SurveyJson :=
  {| json_hdf5_file_path := json_of_option (hdf5_file_path (survey self));
     json_label := json_of_option (label self);
     json_name := Value (name (survey self));
     json_tables := json_of_option (tables self);
     json_informations := Value (informations self) |}.

End objects.
Arguments SurveyObject V : clear implicits.
Arguments SurveyJson V : clear implicits.

End SurveyMethods.

(** ** A small scenario, to run the methods on *)

Module ExampleScenario.
Import Scenarios Scenarios.AbstractSurveyScenario Example.

(** Two households: their rent, their weight, and whether they are in
    the field of the survey. *)
Definition computed_simulation : Simulation :=
  {| Core.tax_benefit_system :=
       {| column_by_name :=
            <["champm" := input_variable "menage" bool_ (VBool false)]>
              (column_by_name system) |};
     entities := list_to_map [("individus", new_entity true);
                              ("menage", new_entity false)];
     holder_input := ∅;
     calculate_add := λ name _,
       if decide (name = "loyer") then Ok [Some 10; Some 20]%Z
       else if decide (name = "wprm") then Ok [Some 2; Some 3]%Z
       else if decide (name = "champm") then Ok [Some 1; Some 0]%Z
       else Raise (EngineError name) |}.

(** A scenario with nothing computed yet, and no filter by default. *)
Definition scenario : Scenario :=
  {| filtering_variable_by_entity := Some ∅;
     reference_simulation := None;
     simulation := None;
     tax_benefit_system := Core.tax_benefit_system computed_simulation;
     weight_column_name_by_entity := Some {["menage" := "wprm"]} |}.

(** The same, with the households filtered by [champm]. *)
Definition filtered_scenario : Scenario :=
  {| filtering_variable_by_entity := Some {["menage" := "champm"]};
     reference_simulation := None;
     simulation := None;
     tax_benefit_system := Core.tax_benefit_system computed_simulation;
     weight_column_name_by_entity := Some {["menage" := "wprm"]} |}.

Definition build_simulation (self : Scenario) (reference : bool)
  : result Simulation := Ok computed_simulation.

(** Totals by the values of one index column. *)
Definition totals_by (keys : list (option Z)) (xs : list (option Z))
  : list (option Z * option Z) :=
  (λ k, (k, fsum (filter (λ kx, kx.1 = k) (zip keys xs)).*2)) <$> remove_dups keys.

#[export] Instance totals : pivoting := {|
  Pivot := list (string * list (option Z * option Z));
  pivot_table := λ df index columns values,
    match index, columns with
    | Some [i], None =>
        keys ← getitem df i;
        mapM (λ v, xs ← getitem df v; mret (v, totals_by keys xs))
             (match values with inl w => [w] | inr l => l end)
    | _, _ => Raise (ValueError "one index column and no columns")
    end;
  pivot_sub :=
    zip_with (λ a b, (a.1, zip_with (λ x y, (x.1, match x.2, y.2 with
                                                  | Some m, Some n => Some (m - n)%Z
                                                  | _, _ => None
                                                  end)) a.2 b.2));
  pivot_div := zip_with (λ a b, (a.1, zip_with (λ x y, (x.1, fdiv x.2 y.2)) a.2 b.2))
|}.

End ExampleScenario.

(** ** Two small surveys, to run the methods on *)

Module ExampleSurveys.
Import Surveys SurveyMethods.

Definition households : DataFrame :=
  {| index := 2;
     items := [("ident08", Example.ints [1; 2]%Z);
               ("wprm", Example.floats [VFloat 2 0; VFloat 3 0]);
               ("loyer", Example.floats [VFloat 1 1; VFloat 2 1])] |}.

Definition households_without_rent : DataFrame :=
  {| index := 1;
     items := [("ident09", Example.ints [1]%Z);
               ("wprm", Example.floats [VFloat 2 0])] |}.

Definition erfs_2008 : Survey :=
  {| name := "erfs_2008"; hdf5_file_path := Some "erfs_2008.h5" |}.

Definition erfs_2009 : Survey :=
  {| name := "erfs_2009"; hdf5_file_path := Some "erfs_2009.h5" |}.

Definition disk : FileSystem :=
  {["erfs_2008.h5" := {["menage" := households]};
    "erfs_2009.h5" := {["menage" := households_without_rent]}]}.

(** A survey object whose dicts hold strings. *)
Definition object_of (s : Survey) : SurveyObject string :=
  {| survey := s; label := Some "ERFS";
     tables := Some {["menage" := ∅]};
     informations := {["stata_files" := "menage.dta"]};
     survey_collection := None |}.

(** Nothing indexed yet. *)
Definition fresh : World := {| files := disk; tables_index := ∅ |}.

End ExampleSurveys.

(** ** Notions used in the properties of the survey methods *)

(** A string of decimal digits. *)
Fixpoint all_digits (s : string) : bool :=
  match s with
  | "" => true
  | String c s' => Surveys.is_digit c && all_digits s'
  end.

(** The end of a line: nothing, or the newline that [$] accepts. *)
Definition line_end (s : string) : Prop := s = "" ∨ s = String "010" "".

(** ** Notions used in the properties of the scenario methods *)

Section scenario_notions.
Context `{numeric}.
Import Scenarios.AbstractSurveyScenario.

(** The simulation of the scenario that [reference] asks for. *)
Definition simulation_slot (reference : bool) (self : Scenario)
  : option Simulation :=
  if reference then reference_simulation self else simulation self.

(** [self'] is [self], but for simulations stored where there was
    none. *)
Definition fills_simulations (self self' : Scenario) : Prop :=
  filtering_variable_by_entity self' = filtering_variable_by_entity self
  ∧ tax_benefit_system self' = tax_benefit_system self
  ∧ weight_column_name_by_entity self' = weight_column_name_by_entity self
  ∧ ∀ reference,
      simulation_slot reference self' = simulation_slot reference self
      ∨ simulation_slot reference self = None.

(** What the aggregates take from the entity [key] of a variable: its
    weight and its filter, on the simulation asked for. *)
Definition weight_and_filter
    (build_simulation : Scenario → bool → result Simulation)
    (key : string) (filter_by period : option string) (reference : bool)
    (self : Scenario) : result (ndarray * ndarray) :=
  filter_by ← match filter_by with
              | None => filtering_variable self key
              | Some _ => Ok filter_by
              end;
  match get_simulation build_simulation reference self with
  | (_, _, Raise e) => Raise e
  | (self, _, Ok simulation) =>
      entity_weight ← getitem (default ∅ (weight_column_name_by_entity self)) key;
      weight ← calculate_add simulation entity_weight period;
      filter_dummy ←
        (if truthy filter_by
         then Array <$> calculate_add simulation (default "" filter_by) period
         else Ok (Scalar one));
      Ok (Array (as_float <$> weight), filter_dummy)
  end.

End scenario_notions.

(** * Properties *)

(** ** surveys.py: [ident_re] and [get_values] *)

Section surveys_properties.
Import Surveys.

Example ident_re_examples :
  ident_re_match "ident08" = true ∧ ident_re_match "IDENT2008" = true
  ∧ ident_re_match "Ident123" = true
  ∧ ident_re_match "ident8" = false ∧ ident_re_match "ident20081" = false
  ∧ ident_re_match "ident" = false ∧ ident_re_match "ident08x" = false
  ∧ ident_re_match "xident08" = false ∧ ident_re_match "noi" = false.
Proof. repeat split; reflexivity. Qed.

Lemma columns_rename old new df :
  columns (rename old new df) = (λ n, if decide (n = old) then new else n) <$> columns df.
Proof.
  unfold columns, rename; simpl. rewrite <- !list_fmap_compose.
  apply list_fmap_ext. intros i [n s] _; reflexivity.
Qed.

Lemma rename_cells old new df :
  index (rename old new df) = index df ∧ (items (rename old new df)).*2 = (items df).*2.
Proof.
  split; [reflexivity|]. unfold rename; simpl. rewrite <- list_fmap_compose.
  apply list_fmap_ext. intros i [n s] _; reflexivity.
Qed.

Lemma rename_ident_loop_first names df :
  rename_ident_loop names df =
    match first_ident names with
    | Some c => (rename c "ident" df, [ReplacedByIdent c])
    | None => (df, [])
    end.
Proof.
  unfold first_ident. induction names as [|n names IH]; simpl; [reflexivity|].
  destruct (ident_re_match n); [reflexivity | exact IH].
Qed.

Lemma first_ident_matches names c :
  first_ident names = Some c → ident_re_match c = true ∧ c ∈ names.
Proof.
  intros Hf. apply List.find_some in Hf as [Hin Hm].
  split; [exact Hm | by apply list_elem_of_In].
Qed.

Lemma first_ident_none names :
  first_ident names = None → ∀ n, n ∈ names → ident_re_match n = false.
Proof.
  intros Hf n Hn. apply list_elem_of_In in Hn.
  exact (List.find_none _ _ Hf n Hn).
Qed.

(** When at most one name matches, renaming the first match renames
    every match. *)
Lemma renamed_all names :
  (∀ n m, n ∈ names → m ∈ names →
          ident_re_match n = true → ident_re_match m = true → n = m) →
  renamed (first_ident names) names
  = (λ n, if ident_re_match n then "ident" else n) <$> names.
Proof.
  intros Huniq. destruct (first_ident names) as [c|] eqn:Hf; simpl.
  - apply first_ident_matches in Hf as [Hc Hin].
    apply list_fmap_ext. intros i n Hn.
    apply list_elem_of_lookup_2 in Hn.
    destruct (decide (n = c)) as [->|Hne]; [by rewrite Hc|].
    destruct (ident_re_match n) eqn:Hm; [|reflexivity].
    exfalso. apply Hne. by apply Huniq.
  - rewrite <- (list_fmap_id names) at 1.
    apply list_fmap_ext. intros i n Hn. apply list_elem_of_lookup_2 in Hn.
    by rewrite (first_ident_none _ Hf n Hn).
Qed.

Lemma columns_select_columns names df n :
  n ∈ columns (select_columns names df) → n ∈ names ∧ n ∈ columns df.
Proof.
  unfold columns, select_columns; simpl. intros Hn.
  apply list_elem_of_fmap in Hn as [[n' s] [-> Hin]]; simpl.
  apply list_elem_of_bind in Hin as [v [Hin Hv]].
  apply list_elem_of_filter in Hin as [Heq Hin]; simpl in Heq; subst v.
  split; [exact Hv|]. apply list_elem_of_fmap. by exists (n', s).
Qed.

(** C8, as the code has it: the loop of [get_values] stops at the
    first label that matches [ident_re]. When the whole table is asked
    for, the table that is returned has the rows and cells of the
    stored one, and its labels are those of the stored table (in lower
    case when [lowercase] is set) where the first matching label, and
    every column that carries the same label, has become "ident";
    the other labels are unchanged, later matching ones included.
    When no two different labels match, this renames every matching
    label. A selection of variables returns labels of that renamed
    table only. *)
Theorem get_values_renames_first_ident
    (self : Survey) (fs : FileSystem) (path table : string) (store : HDFStore)
    (df : DataFrame) (lowercase : bool) :
  hdf5_file_path self = Some path →
  fs !! path = Some store →
  store !! table = Some df →
  let names := columns (if lowercase then rename_with lower df else df) in
  let names' := renamed (first_ident names) names in
  (∃ df', (get_values self fs None table lowercase true).2 = Ok df'
          ∧ index df' = index df
          ∧ (items df').*2 = (items df).*2
          ∧ columns df' = names')
  ∧ ((∀ n m, n ∈ names → m ∈ names →
             ident_re_match n = true → ident_re_match m = true → n = m) →
     names' = (λ n, if ident_re_match n then "ident" else n) <$> names)
  ∧ (∀ variables df',
       (get_values self fs (Some variables) table lowercase true).2 = Ok df' →
       ∀ n, n ∈ columns df' → n ∈ variables ∧ n ∈ names').
Proof.
  intros Hpath Hfs Hstore names names'.
  assert (Hcells : ∀ d : DataFrame,
             index (if lowercase then rename_with lower d else d) = index d
             ∧ (items (if lowercase then rename_with lower d else d)).*2 = (items d).*2).
  { intros d. destruct lowercase; [|done]. split; [reflexivity|].
    unfold rename_with; simpl. rewrite <- list_fmap_compose.
    apply list_fmap_ext. by intros i [n s] _. }
  set (df0 := if lowercase then rename_with lower df else df) in *.
  assert (Hloop : ∃ df1 log, rename_ident_loop (columns df0) df0 = (df1, log)
                             ∧ index df1 = index df
                             ∧ (items df1).*2 = (items df).*2
                             ∧ columns df1 = names').
  { rewrite rename_ident_loop_first. subst names'. fold names.
    destruct (Hcells df) as [Hi Hc]. fold df0 in Hi, Hc.
    destruct (first_ident names) as [c|]; simpl.
    - eexists _, _. split; [reflexivity|].
      destruct (rename_cells c "ident" df0) as [Hi' Hc'].
      rewrite Hi', Hc', columns_rename. done.
    - eexists _, _. split; [reflexivity|]. done. }
  destruct Hloop as (df1 & log & Hloop & Hi & Hc & Hn).
  split; [|split].
  - exists df1. unfold get_values. rewrite Hpath, Hfs, Hstore. fold df0.
    rewrite Hloop. done.
  - apply renamed_all.
  - intros variables df'. unfold get_values. rewrite Hpath, Hfs, Hstore. fold df0.
    rewrite Hloop. case_bool_decide; simpl; [|discriminate].
    intros [= <-] n Hin. apply columns_select_columns in Hin as [Hv Hin].
    apply elem_of_elements in Hv. rewrite <- Hn. set_solver.
Qed.

Lemma get_values_renames_first_ident_witness :
  let df := {| index := 1;
               items := [("IDENT08", {| dtype_of := int_ 64; values := [VInt 7] |});
                         ("wprm", {| dtype_of := float_ 64; values := [VFloat 3 (-1)] |})] |} in
  ∃ df', (get_values {| name := "erfs"; hdf5_file_path := Some "erfs.h5" |}
            {["erfs.h5" := {["menage" := df]}]} None "menage" true true).2 = Ok df'
         ∧ columns df' = ["ident"; "wprm"].
Proof.
  intros df.
  destruct (get_values_renames_first_ident
              {| name := "erfs"; hdf5_file_path := Some "erfs.h5" |}
              {["erfs.h5" := {["menage" := df]}]} "erfs.h5" "menage"
              {["menage" := df]} df true)
    as [(df' & Hget & _ & _ & Hcols) _].
  - reflexivity.
  - reflexivity.
  - reflexivity.
  - exists df'. split; [exact Hget | exact Hcols].
Defined.

(** C8 as stated fails on a table with two matching labels: the
    second one keeps its name. *)
Lemma get_values_second_ident_kept :
  let s := {| dtype_of := int_ 64; values := [] |} in
  ident_re_match "ident09" = true
  ∧ (get_values {| name := "erfs"; hdf5_file_path := Some "erfs.h5" |}
       {["erfs.h5" := {["menage" := {| index := 0;
                                       items := [("ident08", s); ("ident09", s)] |}]}]}
       None "menage" false true).2
    = Ok {| index := 0; items := [("ident", s); ("ident09", s)] |}.
Proof. split; vm_compute; reflexivity. Qed.

End surveys_properties.

(** ** Running code of the monad [py] *)

Section py_logic.
Context {L S A0 : Type}.
Implicit Types s : S.


Lemma ends_run {A} (m : py L S A) s Q s' l r :
  ends m s Q → m s = (s', l, r) → Q s' l r.
Proof. unfold ends. intros HQ Hr. by rewrite Hr in HQ. Qed.

Lemma ends_mono {A} (m : py L S A) s (Q Q' : S → list L → result A → Prop) :
  ends m s Q → (∀ s' l r, Q s' l r → Q' s' l r) → ends m s Q'.
Proof. unfold ends. auto. Qed.

Lemma run_ret_bind {A B} (a : A) (f : A → py L S B) s : (mret a ≫= f) s = f a s.
Proof. unfold mbind, py_bind, mret, py_ret. by destruct (f a s) as [[??]?]. Qed.

Lemma run_lift_bind {A B} (r : result A) (f : A → py L S B) s :
  (lift r ≫= f) s = match r with Ok a => f a s | Raise e => (s, [], Raise e) end.
Proof.
  unfold mbind, py_bind, lift. destruct r as [a|e]; [|done].
  by destruct (f a s) as [[??]?].
Qed.

Lemma run_get_bind {B} (f : S → py L S B) s : (get ≫= f) s = f s s.
Proof. unfold mbind, py_bind, get. by destruct (f s s) as [[??]?]. Qed.

Lemma run_modify_bind {B} (g : S → S) (f : unit → py L S B) s :
  (modify g ≫= f) s = f tt (g s).
Proof. unfold mbind, py_bind, modify. by destruct (f tt (g s)) as [[??]?]. Qed.

Lemma run_info_bind {B} (x : L) (f : unit → py L S B) s :
  (info x ≫= f) s = ((f tt s).1.1, x :: (f tt s).1.2, (f tt s).2).
Proof. unfold mbind, py_bind, info. by destruct (f tt s) as [[??]?]. Qed.

Lemma run_bind {A B} (m : py L S A) (f : A → py L S B) s :
  (m ≫= f) s =
    match (m s).2 with
    | Ok a => ((f a (m s).1.1).1.1, (m s).1.2 ++ (f a (m s).1.1).1.2,
               (f a (m s).1.1).2)
    | Raise e => ((m s).1.1, (m s).1.2, Raise e)
    end.
Proof.
  unfold mbind, py_bind. destruct (m s) as [[s1 l1] [a|e]]; simpl; [|done].
  by destruct (f a s1) as [[??]?].
Qed.

Lemma run_bind_assoc {A B C} (m : py L S A) (f : A → py L S B) (g : B → py L S C) s :
  ((m ≫= f) ≫= g) s = (m ≫= (λ a, f a ≫= g)) s.
Proof.
  rewrite !run_bind. destruct (m s) as [[s1 l1] [a|e]]; simpl; [|done].
  rewrite !run_bind. simpl.
  destruct (f a s1) as [[s2 l2] [b|e]]; simpl; [|done].
  by rewrite (assoc_L (++)).
Qed.

Lemma ends_ret {A} (a : A) s (Q : S → list L → result A → Prop) :
  Q s [] (Ok a) → ends (mret a) s Q.
Proof. done. Qed.

Lemma ends_lift {A} (r : result A) s (Q : S → list L → result A → Prop) :
  Q s [] r → ends (lift r) s Q.
Proof. done. Qed.

Lemma ends_bind {A B} (m : py L S A) (f : A → py L S B) s
    (Q : S → list L → result B → Prop) :
  ends m s (λ s1 l1 r1,
              match r1 with
              | Ok a => ends (f a) s1 (λ s2 l2 r2, Q s2 (l1 ++ l2) r2)
              | Raise e => Q s1 l1 (Raise e)
              end) →
  ends (m ≫= f) s Q.
Proof.
  unfold ends. rewrite run_bind.
  destruct (m s) as [[s1 l1] [a|e]]; simpl; done.
Qed.


Lemma keeps_apply (R : relation S) {A} (m : py L S A) s :
  keeps R m → R s (m s).1.1.
Proof. intros Hm. apply Hm. Qed.

Lemma keeps_ret R `{!Reflexive R} {A} (a : A) : keeps R (mret a : py L S A).
Proof. intros s. simpl. reflexivity. Qed.

Lemma keeps_lift R `{!Reflexive R} {A} (r : result A) : keeps R (lift r : py L S A).
Proof. intros s. simpl. reflexivity. Qed.

Lemma keeps_get R `{!Reflexive R} : keeps R (get : py L S S).
Proof. intros s. simpl. reflexivity. Qed.

Lemma keeps_info R `{!Reflexive R} (x : L) : keeps R (info x : py L S unit).
Proof. intros s. simpl. reflexivity. Qed.

Lemma keeps_bind R `{!Transitive R} {A B} (m : py L S A) (f : A → py L S B) :
  keeps R m → (∀ a, keeps R (f a)) → keeps R (m ≫= f).
Proof.
  intros Hm Hf s. rewrite run_bind. specialize (Hm s).
  destruct (m s) as [[s1 l1] [a|e]]; simpl in *; [|done].
  etrans; [exact Hm | apply Hf].
Qed.

Lemma keeps_for_each R `{!PreOrder R} {A} (l : list A) (body : A → py L S unit) :
  (∀ x, x ∈ l → keeps R (body x)) → keeps R (for_each l body).
Proof.
  induction l as [|x l IH]; intros Hb; simpl.
  - apply keeps_ret, _.
  - apply keeps_bind; [apply _ | apply Hb; left |].
    intros _. apply IH. intros y Hy. apply Hb. by right.
Qed.

Lemma keeps_when R `{!Reflexive R} (b : bool) (m : py L S unit) :
  keeps R m → keeps R (when b m).
Proof. destruct b; simpl; [done|]. intros _. by apply keeps_ret. Qed.

Lemma for_each_cons {A} (x : A) (l : list A) (body : A → py L S unit) :
  for_each (x :: l) body = (body x ;; for_each l body).
Proof. done. Qed.

Lemma keeps_modify (R : relation S) (g : S → S) :
  (∀ s, R s (g s)) → keeps R (modify g : py L S unit).
Proof. intros Hg s. apply Hg. Qed.

Lemma bind_ok_inv {A B} (m : py L S A) (f : A → py L S B) s s' l b :
  (m ≫= f) s = (s', l, Ok b) →
  ∃ s1 l1 a l2, m s = (s1, l1, Ok a) ∧ f a s1 = (s', l2, Ok b) ∧ l = l1 ++ l2.
Proof.
  rewrite run_bind. destruct (m s) as [[s1 l1] [a|e]]; simpl; [|done].
  destruct (f a s1) as [[s2 l2] r] eqn:Hf; simpl. intros Heq. simplify_eq.
  by exists s1, l1, a, l2.
Qed.











Lemma bind_result_ok {A B} (m : py L S A) (f : A → py L S B) s a :
  (m s).2 = Ok a → ((m ≫= f) s).2 = (f a (m s).1.1).2.
Proof. rewrite run_bind. by intros ->. Qed.

Lemma bind_result_raise {A B} (m : py L S A) (f : A → py L S B) s e :
  (m s).2 = Raise e → ((m ≫= f) s).2 = Raise e.
Proof. rewrite run_bind. by intros ->. Qed.

(** A loop none of whose turns raises goes through; [I] relates the
    turns that are left to the state. *)
Lemma for_each_is_Ok (I : list A0 → S → Prop) (l : list A0)
    (body : A0 → py L S unit) s :
  I l s →
  (∀ x l' s, I (x :: l') s → (body x s).2 = Ok tt ∧ I l' (body x s).1.1) →
  (for_each l body s).2 = Ok tt ∧ I [] (for_each l body s).1.1.
Proof.
  revert s. induction l as [|x l IH]; intros s Hs Hb; [done|].
  rewrite for_each_cons, run_bind.
  destruct (Hb x l s Hs) as [Hok Hs1].
  destruct (body x s) as [[s1 l1] r]; simpl in *. subst r. simpl.
  by apply IH.
Qed.


(** A loop that goes through: every turn went through. *)
Lemma for_each_ok {A} (l : list A) (body : A → py L S unit) s s' log :
  for_each l body s = (s', log, Ok tt) →
  ∀ x, x ∈ l → ∃ s1 s2 log1, body x s1 = (s2, log1, Ok tt).
Proof.
  revert s log. induction l as [|y l IH]; intros s log Hrun x Hx; [inv Hx|].
  simpl in Hrun. rewrite run_bind in Hrun.
  destruct (body y s) as [[s1 l1] [[]|e]] eqn:Hy; simpl in Hrun; [|done].
  apply elem_of_cons in Hx as [->|Hx]; [by eauto|].
  destruct (for_each l body s1) as [[s2 l2] r2] eqn:Hl; simpl in Hrun.
  inv Hrun. eapply IH; eauto.
Qed.

End py_logic.

(** ** What a pure step may raise *)

Section fails_only.










End fails_only.

(** ** Data frames *)

Section frames.

Lemma frame_getitem_ext df df' name :
  filter (λ c : string * Series, c.1 = name) (items df')
  = filter (λ c : string * Series, c.1 = name) (items df) →
  frame_getitem df' name = frame_getitem df name.
Proof. unfold frame_getitem. by intros ->. Qed.

Lemma frame_getitem_columns df name s :
  frame_getitem df name = Ok s → name ∈ columns df ∧ (name, s) ∈ items df.
Proof.
  unfold frame_getitem, columns.
  destruct (filter _ (items df)) as [|[n c] l] eqn:Hf; [done|].
  intros [= <-]. assert (Hin : (n, c) ∈ filter (λ c : string * Series, c.1 = name) (items df))
    by (rewrite Hf; left).
  apply list_elem_of_filter in Hin as [Hn Hin]; simpl in Hn; subst n.
  split; [|done]. apply list_elem_of_fmap. by exists (name, c).
Qed.

Lemma frame_getitem_is_Ok df name :
  name ∈ columns df → ∃ s, frame_getitem df name = Ok s.
Proof.
  unfold frame_getitem, columns. intros Hin.
  apply list_elem_of_fmap in Hin as [[n c] [-> Hin]]; simpl.
  destruct (filter _ (items df)) as [|c' l] eqn:Hf; [|by eauto].
  assert (Hc : (n, c) ∈ filter (λ c : string * Series, c.1 = n) (items df))
    by (by apply list_elem_of_filter).
  rewrite Hf in Hc. inv Hc.
Qed.

Lemma drop_spec name df df' :
  drop name df = Ok df' →
  index df' = index df
  ∧ items df' = filter (λ c, c.1 ≠ name) (items df).
Proof. unfold drop. case_bool_decide; [|done]. by intros [= <-]. Qed.

Lemma columns_filter (P : string → Prop) (Q : string * Series → Prop)
    `{!∀ n, Decision (P n), !∀ c, Decision (Q c)} (its : list (string * Series)) :
  (∀ c, Q c ↔ P c.1) → (filter Q its).*1 = filter P its.*1.
Proof.
  intros HQ. induction its as [|[n c] its IH]; [done|].
  rewrite fmap_cons, !filter_cons; simpl.
  destruct (decide (Q (n, c))) as [Hq|Hq], (decide (P n)) as [Hp|Hp];
    rewrite ?fmap_cons; simpl; rewrite ?IH; try done.
  - by apply HQ in Hq.
  - by apply (HQ (n, c)) in Hp.
Qed.

Lemma filter_all {A} (P : A → Prop) `{!∀ x, Decision (P x)} (l : list A) :
  (∀ x, x ∈ l → P x) → filter P l = l.
Proof.
  induction l as [|x l IH]; intros HP; [done|].
  rewrite filter_cons_True by (apply HP; left).
  f_equal. apply IH. intros y Hy. apply HP. by right.
Qed.

Lemma drop_is_Ok name df : name ∈ columns df → ∃ df', drop name df = Ok df'.
Proof. unfold drop. intros Hin. rewrite bool_decide_eq_true_2 by done. eauto. Qed.

End frames.

(** ** [filter_input_variables] only drops columns, and none of an entity *)

Section filter_properties.
Context `{numeric, numpy, pandas}.
Import Scenarios.

Lemma mapM_result_Forall2 {A B} (f : A → result B) (l : list A) (k : list B) :
  mapM f l = Ok k → Forall2 (λ x y, f x = Ok y) l k.
Proof.
  revert k. induction l as [|x l IH]; intros k; simpl.
  - intros [= <-]. constructor.
  - destruct (f x) as [y|e] eqn:Hx; simpl; [|done].
    destruct (mapM f l) as [k'|e] eqn:Hl; simpl; [|done].
    intros [= <-]. constructor; [done | by apply IH].
Qed.

Lemma mapM_result_is_Ok {A B} (f : A → result B) (l : list A) :
  (∀ x, x ∈ l → ∃ y, f x = Ok y) → ∃ k, mapM f l = Ok k.
Proof.
  induction l as [|x l IH]; intros Hf; simpl; [by eauto|].
  destruct (Hf x) as [y Hy]; [left|]. rewrite Hy; simpl.
  destruct IH as [k Hk]; [intros z Hz; apply Hf; by right|].
  rewrite Hk; simpl. eauto.
Qed.

Lemma group_variables_elem (d : gmap string string) (sim : Simulation)
    (l : list string) key e :
  group_variables d sim = Ok l →
  entities sim !! key = Some e → is_person e = false →
  ∃ v, d !! key = Some v ∧ v ∈ l.
Proof.
  unfold group_variables. intros Hl He Hp.
  apply mapM_result_Forall2 in Hl.
  assert (Hin : (key, e) ∈ filter (λ ke : string * Entity, is_person ke.2 = false)
                  (map_to_list (entities sim))).
  { apply list_elem_of_filter. split; [done|]. by apply elem_of_map_to_list. }
  apply list_elem_of_lookup in Hin as [i Hi].
  destruct (Forall2_lookup_l _ _ _ _ _ Hl Hi) as (v & Hv & Hget).
  unfold getitem in Hget; simpl in Hget.
  destruct (d !! key) as [v'|] eqn:Hd; [|done]. injection Hget as ->.
  exists v. split; [done|]. by eapply list_elem_of_lookup_2.
Qed.

Lemma group_variables_is_Ok (d : gmap string string) (sim : Simulation) :
  (∀ key e, entities sim !! key = Some e → is_person e = false → is_Some (d !! key)) →
  ∃ l, group_variables d sim = Ok l
       ∧ ∀ v, v ∈ l → ∃ key e, entities sim !! key = Some e ∧ is_person e = false
                                ∧ d !! key = Some v.
Proof.
  intros Hd. unfold group_variables.
  destruct (mapM_result_is_Ok (λ ke : string * Entity, getitem d ke.1)
              (filter (λ ke : string * Entity, is_person ke.2 = false)
                 (map_to_list (entities sim)))) as [l Hl].
  { intros [key e] Hin. apply list_elem_of_filter in Hin as [Hp Hin].
    apply elem_of_map_to_list in Hin. destruct (Hd key e Hin Hp) as [v Hv].
    exists v. unfold getitem; simpl. by rewrite Hv. }
  exists l. split; [done|]. intros v Hv.
  apply mapM_result_Forall2 in Hl. apply list_elem_of_lookup in Hv as [i Hi].
  destruct (Forall2_lookup_r _ _ _ _ _ Hl Hi) as ([key e] & Hke & Hget).
  apply list_elem_of_lookup_2, list_elem_of_filter in Hke as [Hp Hin].
  apply elem_of_map_to_list in Hin. exists key, e. repeat split; try done.
  unfold getitem in Hget; simpl in Hget. by destruct (d !! key); simplify_eq.
Qed.

#[global] Instance narrowed_preorder keep : PreOrder (narrowed keep).
Proof.
  split.
  - intros st. repeat split. exists []. split; [intros n Hn; inv Hn|].
    symmetry. apply filter_all. intros c _ Hin. inv Hin.
  - intros st1 st2 st3 (Hs1 & Hi1 & d1 & Hd1 & Hit1) (Hs2 & Hi2 & d2 & Hd2 & Hit2).
    split; [congruence|]. split; [congruence|].
    exists (d1 ++ d2). split.
    + intros n Hn. apply elem_of_app in Hn as [?|?]; auto.
    + rewrite Hit2, Hit1, list_filter_filter. apply list_filter_iff.
      intros [n c]; simpl. rewrite elem_of_app. tauto.
Qed.

Lemma narrowed_getitem keep st st' n :
  narrowed keep st st' → n ∈ keep →
  frame_getitem (input_data_frame st') n = frame_getitem (input_data_frame st) n.
Proof.
  intros (_ & _ & d & Hd & Hit) Hn. apply frame_getitem_ext.
  rewrite Hit, list_filter_filter. apply list_filter_iff.
  intros [m c]; simpl. split; [tauto|]. intros ->. split; [done|].
  intros Hin. by apply (Hd _ Hin).
Qed.

Lemma narrowed_columns keep st st' :
  narrowed keep st st' →
  columns (input_data_frame st') `sublist_of` columns (input_data_frame st).
Proof.
  intros (_ & _ & d & Hd & Hit). unfold columns. rewrite Hit.
  erewrite (columns_filter (λ n, n ∉ d)) by done. apply sublist_filter.
Qed.

Lemma keeps_drop_column keep name :
  name ∉ keep → keeps (narrowed keep) (drop_column name).
Proof.
  intros Hn st. unfold drop_column. rewrite run_get_bind, run_lift_bind.
  destruct (drop name (input_data_frame st)) as [df'|e] eqn:Hd; simpl; [|reflexivity].
  apply drop_spec in Hd as [Hi Hit]. unfold narrowed; simpl.
  split; [done|]. split; [done|].
  exists [name]. split; [intros n Hin; by apply list_elem_of_singleton in Hin as ->|].
  rewrite Hit. apply list_filter_iff. intros [m c]; simpl.
  by rewrite list_elem_of_singleton.
Qed.

Lemma keeps_drop_unknown cbn ids roles name :
  keeps (narrowed (ids ++ roles)) (drop_unknown cbn ids roles name).
Proof.
  unfold drop_unknown. case_bool_decide as Hin; [apply keeps_ret, _|].
  case_bool_decide; [|apply keeps_ret, _].
  apply keeps_bind; [apply _ | apply keeps_info, _ |].
  intros _. by apply keeps_drop_column.
Qed.

Lemma keeps_drop_calculated cbn ids roles used name :
  keeps (narrowed (ids ++ roles)) (drop_calculated cbn ids roles used name).
Proof.
  unfold drop_calculated. case_bool_decide as Hin; [apply keeps_ret, _|].
  apply keeps_bind; [apply _ | apply keeps_lift, _ |]. intros column.
  destruct (negb _); [apply keeps_ret, _|].
  destruct (function _); [|apply keeps_ret, _].
  case_bool_decide; [apply keeps_info, _|].
  apply keeps_bind; [apply _ | apply keeps_info, _ |].
  intros _. by apply keeps_drop_column.
Qed.

Lemma filter_input_variables_narrows cbn used st ids roles :
  group_variables id_variable_by_entity_key (simulation st) = Ok ids →
  group_variables role_variable_by_entity_key (simulation st) = Ok roles →
  narrowed (ids ++ roles) st (filter_input_variables cbn used st).1.1.
Proof.
  intros Hids Hroles. unfold filter_input_variables.
  rewrite run_get_bind, Hids, run_lift_bind, Hroles, run_lift_bind, run_info_bind.
  simpl. apply keeps_apply.
  apply keeps_bind; [apply _| |].
  - apply keeps_for_each; [apply _|]. intros x _. apply keeps_drop_unknown.
  - intros _. apply keeps_bind; [apply _ | apply keeps_get, _ |]. intros st1.
    apply keeps_bind; [apply _ | |].
    + apply keeps_for_each; [apply _|]. intros x _. apply keeps_drop_calculated.
    + intros _. apply keeps_bind; [apply _ | apply keeps_get, _ |]. intros st2.
      apply keeps_info, _.
Qed.

End filter_properties.

(** ** The cells of a column as numbers *)

Section dyadic_numbers.
Local Open Scope Z_scope.

Lemma pos_pow2 e : e < 0 → Z.pos (2 ^ Z.to_pos (- e)) = 2 ^ (- e).
Proof. intros. rewrite Pos2Z.inj_pow, Z2Pos.id by lia. done. Qed.

Lemma dyadic_neg m e : e < 0 → dyadic m e = Qmake m (2 ^ Z.to_pos (- e)).
Proof. intros. unfold dyadic. destruct (Z.leb_spec 0 e); [lia|done]. Qed.

Lemma dyadic_nonneg m e : 0 ≤ e → dyadic m e = inject_Z (m * 2 ^ e).
Proof. intros. unfold dyadic. destruct (Z.leb_spec 0 e); [done|lia]. Qed.

Lemma dyadic_shift m e k : 0 ≤ k → (dyadic (m * 2 ^ k) e == dyadic m (e + k))%Q.
Proof.
  intros Hk. destruct (Z.leb_spec 0 e) as [He|He].
  - rewrite !dyadic_nonneg by lia. rewrite Z.pow_add_r by lia.
    apply inject_Z_injective. lia.
  - rewrite (dyadic_neg _ e) by lia. destruct (Z.leb_spec 0 (e + k)) as [He'|He'].
    + rewrite dyadic_nonneg by lia. unfold Qeq, inject_Z. cbn [Qnum Qden].
      rewrite pos_pow2 by lia.
      assert (Hp : 2 ^ k = 2 ^ (e + k) * 2 ^ (- e)).
      { rewrite <- Z.pow_add_r by lia. f_equal. lia. }
      rewrite Hp. lia.
    + rewrite dyadic_neg by lia. unfold Qeq. cbn [Qnum Qden].
      rewrite !pos_pow2 by lia.
      assert (Hp : 2 ^ (- e) = 2 ^ k * 2 ^ (- (e + k))).
      { rewrite <- Z.pow_add_r by lia. f_equal. lia. }
      rewrite Hp. lia.
Qed.


Lemma dyadic_inj m m' e : (dyadic m e == dyadic m' e)%Q → m = m'.
Proof.
  destruct (Z.leb_spec 0 e) as [He|He].
  - rewrite !dyadic_nonneg by lia. rewrite inject_Z_injective. intros Heq.
    assert (0 < 2 ^ e) by (apply Z.pow_pos_nonneg; lia).
    apply (Z.mul_reg_r _ _ (2 ^ e)); lia.
  - rewrite !dyadic_neg by lia. unfold Qeq. cbn [Qnum Qden].
    intros Heq. by apply Z.mul_reg_r in Heq.
Qed.

Lemma dyadic_0 e : (dyadic 0 e == 0)%Q.
Proof.
  destruct (Z.leb_spec 0 e) as [He|He].
  - by rewrite dyadic_nonneg by lia.
  - by rewrite dyadic_neg by lia.
Qed.

Lemma dyadic_eq_0 m e : (dyadic m e == 0)%Q → m = 0.
Proof. intros Heq. apply (dyadic_inj m 0 e). by rewrite Heq, dyadic_0. Qed.

Lemma dyadic_exact_plus_1 m e :
  (dyadic (exact_plus_1 m e).1 (exact_plus_1 m e).2 == dyadic m e + 1)%Q.
Proof.
  unfold exact_plus_1. destruct (Z.leb_spec 0 e) as [He|He]; cbn [fst snd].
  - rewrite !dyadic_nonneg by lia. rewrite Z.pow_0_r, Z.mul_1_r.
    by rewrite inject_Z_plus.
  - rewrite !dyadic_neg by lia. unfold Qeq, Qplus. cbn [Qnum Qden].
    rewrite Pos2Z.inj_mul, pos_pow2 by lia. lia.
Qed.


(** Rounding *)

Lemma round_half_even_exact m k : 0 ≤ k → (2 ^ k | m) → round_half_even m k * 2 ^ k = m.
Proof.
  intros Hk [c ->]. unfold round_half_even.
  assert (0 < 2 ^ k) by (apply Z.pow_pos_nonneg; lia).
  rewrite Z.mod_mul, Z.div_mul by lia.
  destruct (Z.ltb_spec (2 * 0) (2 ^ k)); [done|lia].
Qed.


Lemma log2_abs_bounds m : m ≠ 0 → 2 ^ Z.log2 (Z.abs m) ≤ Z.abs m < 2 ^ (Z.log2 (Z.abs m) + 1).
Proof.
  intros Hm. pose proof (Z.log2_spec (Z.abs m)) as Hs.
  replace (Z.succ (Z.log2 (Z.abs m))) with (Z.log2 (Z.abs m) + 1) in Hs by lia.
  apply Hs. lia.
Qed.

(** A sum that 53 bits hold is not rounded. *)
Lemma binary64_exact m e m' e' :
  Z.abs m' < 2 ^ 53 →
  (dyadic m e == dyadic m' e')%Q →
  (dyadic (binary64 m e).1 (binary64 m e).2 == dyadic m e)%Q.
Proof.
  intros Hm' Heq. unfold binary64.
  destruct (Z.leb_spec (Z.log2 (Z.abs m) - 52) 0) as [Hk|Hk]; [done|].
  cbn [fst snd]. set (k := Z.log2 (Z.abs m) - 52) in *.
  assert (Hm0 : m ≠ 0). { intros ->. simpl in k. lia. }
  pose proof (log2_abs_bounds m Hm0) as [Hlo Hhi].
  rewrite <- dyadic_shift by lia.
  rewrite round_half_even_exact; [done|lia|].
  destruct (Z.le_gt_cases e e') as [Hee|Hee].
  - (* m = m' * 2 ^ (e' - e) *)
    assert (Hm : m = m' * 2 ^ (e' - e)).
    { apply (dyadic_inj _ _ e). rewrite Heq, dyadic_shift by lia.
      by replace (e + (e' - e)) with e' by lia. }
    assert (k ≤ e' - e).
    { destruct (Z.le_gt_cases k (e' - e)) as [|Hlt]; [done|exfalso].
      assert (2 ^ (e' - e) * 2 ^ 53 ≤ 2 ^ Z.log2 (Z.abs m)).
      { rewrite <- Z.pow_add_r by lia. apply Z.pow_le_mono_r; lia. }
      assert (0 < 2 ^ (e' - e)) by (apply Z.pow_pos_nonneg; lia).
      assert (Habs : Z.abs m = Z.abs m' * 2 ^ (e' - e)).
      { rewrite Hm at 1. rewrite Z.abs_mul, (Z.abs_eq (2 ^ _)); lia. }
      assert (Z.abs m' * 2 ^ (e' - e) < 2 ^ 53 * 2 ^ (e' - e))
        by (apply Z.mul_lt_mono_pos_r; lia).
      lia. }
    rewrite Hm. exists (m' * 2 ^ (e' - e - k)).
    rewrite <- Z.mul_assoc, <- Z.pow_add_r by lia. f_equal. f_equal. lia.
  - exfalso.
    assert (Hm : m' = m * 2 ^ (e - e')).
    { apply (dyadic_inj _ _ e'). rewrite <- Heq, dyadic_shift by lia.
      by replace (e' + (e - e')) with e by lia. }
    assert (2 ^ 53 ≤ 2 ^ Z.log2 (Z.abs m)) by (apply Z.pow_le_mono_r; lia).
    assert (0 < 2 ^ (e - e')) by (apply Z.pow_pos_nonneg; lia).
    assert (Habs : Z.abs m' = Z.abs m * 2 ^ (e - e')).
    { rewrite Hm at 1. rewrite Z.abs_mul, (Z.abs_eq (2 ^ _)); lia. }
    nia.
Qed.


End dyadic_numbers.

Section cell_properties.


Lemma eq_zero_role_is_0 v : eq_zero v = role_is_0 v.
Proof.
  destruct v as [| |[]|z|m e|s]; try reflexivity.
  - by destruct z.
  - unfold eq_zero. cbn [number role_is_0].
    destruct m as [|p|p].
    + apply Qeq_bool_iff, dyadic_0.
    + destruct (Qeq_bool _ _) eqn:E; [|done].
      apply Qeq_bool_iff, dyadic_eq_0 in E. discriminate.
    + destruct (Qeq_bool _ _) eqn:E; [|done].
      apply Qeq_bool_iff, dyadic_eq_0 in E. discriminate.
Qed.

Lemma hash_key_number v q : number v = Some q → hash_key v = HNumber (Qred q).
Proof. destruct v; intros [= <-]; reflexivity. Qed.

Lemma hash_key_not_number v : number v = None → ∀ q, hash_key v ≠ HNumber q.
Proof. by destruct v. Qed.

Lemma same_value_hash v w : same_value v w = true ↔ hash_key v = hash_key w.
Proof.
  destruct v, w; cbn [same_value number hash_key];
    try (split; done);
    try (rewrite Qeq_bool_iff, <- Qred_eq_iff; split; [by intros -> | by intros [= ->]]).
  rewrite bool_decide_eq_true. split; [by intros ->|by intros [= ->]].
Qed.

Lemma existsb_same_value v cells :
  existsb (same_value v) cells = true ↔ hash_key v ∈ hash_key <$> cells.
Proof.
  rewrite existsb_exists, list_elem_of_fmap. split.
  - intros (w & Hin & Hs). exists w. split; [by apply same_value_hash|].
    by apply list_elem_of_In.
  - intros (w & Hk & Hin). exists w. split; [by apply list_elem_of_In|].
    by apply same_value_hash.
Qed.

Lemma remove_dups_distinct cells :
  length (remove_dups (hash_key <$> cells)) = length (distinct cells).
Proof.
  induction cells as [|v cells IH]; [done|].
  cbn [fmap list_fmap remove_dups distinct].
  pose proof (existsb_same_value v cells) as Hex.
  destruct (decide_rel _ _ _) as [Hin|Hnin].
  - by rewrite (proj2 Hex Hin).
  - destruct (existsb _ _); [by destruct Hnin; apply Hex|].
    cbn [length]. by rewrite IH.
Qed.

Lemma value_cases v :
  isnull v = true ∨ (∃ s, v = VStr s) ∨ (isnull v = false ∧ ∃ q, number v = Some q).
Proof. destruct v; eauto. Qed.

Lemma greater_null_l v w : isnull v = true → greater v w = w.
Proof. unfold greater. by intros ->. Qed.

Lemma greater_null_r v w : isnull v = false → isnull w = true → greater v w = v.
Proof. unfold greater. by intros -> ->. Qed.

Lemma greater_number v w p q :
  number v = Some p → number w = Some q →
  greater v w = if Qle_bool p q then w else v.
Proof. destruct v, w; intros [= <-] [= <-]; reflexivity. Qed.

Lemma greater_str_l s w :
  isnull w = false → ∃ t, greater (VStr s) w = VStr t ∧ (t = s ∨ w = VStr t).
Proof.
  destruct w; intros [=]; cbn; try (exists s; split; [reflexivity|by left]).
  destruct (String.ltb _ _); eauto.
Qed.

Lemma greater_str_r v t :
  isnull v = false → ∃ s, greater v (VStr t) = VStr s ∧ (s = t ∨ v = VStr s).
Proof.
  destruct v; intros [=]; cbn; try (exists t; split; [reflexivity|by left]).
  destruct (String.ltb _ _); eauto.
Qed.

Lemma Series_max_spec cells :
  (Series_max cells = VNaN ∧ ∀ v, v ∈ cells → isnull v = true)
  ∨ (∃ s, Series_max cells = VStr s ∧ VStr s ∈ cells)
  ∨ (is_greatest (Series_max cells) cells ∧ ∀ s, VStr s ∉ cells).
Proof.
  induction cells as [|v cells IH].
  { left. split; [done|]. intros v Hv. inv Hv. }
  change (Series_max (v :: cells)) with (greater v (Series_max cells)).
  destruct (value_cases v) as [Hnull|[[s ->]|[Hnull [p Hp]]]].
  - (* a missing value is skipped *)
    rewrite greater_null_l by done.
    destruct IH as [[Hmax Hall]|[(s & Hmax & Hin)|[(Hin & g & Hg & Hle) Hstr]]].
    + left. split; [done|]. intros w [->|Hw]%elem_of_cons; auto.
    + right; left. exists s. split; [done|]. by right.
    + right; right. split.
      * split; [by right|]. exists g. split; [done|].
        intros w q [->|Hw]%elem_of_cons Hq; [by destruct v|eauto].
      * intros s [Heq|Hs]%elem_of_cons; [by subst|by eapply Hstr].
  - (* a string is above every number *)
    right; left.
    destruct IH as [[Hmax Hall]|[(t & Hmax & Hin)|[(Hin & g & Hg & Hle) Hstr]]].
    + rewrite Hmax. exists s. split; [done|left].
    + rewrite Hmax. destruct (greater_str_l s (VStr t) eq_refl) as (u & -> & [->|[= ->]]).
      * exists s. split; [done|left].
      * exists u. split; [done|by right].
    + assert (Hn : isnull (Series_max cells) = false) by (by destruct (Series_max cells)).
      destruct (greater_str_l s _ Hn) as (u & -> & [->|Hu]).
      * exists s. split; [done|left].
      * rewrite Hu in Hg. done.
  - destruct IH as [[Hmax Hall]|[(t & Hmax & Hin)|[(Hin & g & Hg & Hle) Hstr]]].
    + right; right. rewrite Hmax, greater_null_r by done. split.
      * split; [left|]. exists p. split; [done|].
        intros w q [->|Hw]%elem_of_cons Hq.
        -- rewrite Hp in Hq. injection Hq as <-. apply Qle_refl.
        -- apply Hall in Hw. by destruct w.
      * intros s [Heq|Hs]%elem_of_cons; [by subst|]. by apply Hall in Hs.
    + right; left. rewrite Hmax.
      destruct (greater_str_r v t Hnull) as (u & -> & [->|Hu]).
      * exists t. split; [done|by right].
      * rewrite Hu in Hp. done.
    + right; right. rewrite (greater_number _ _ p g Hp Hg). split.
      * destruct (Qle_bool p g) eqn:Hpg.
        -- apply Qle_bool_iff in Hpg. split; [by right|]. exists g. split; [done|].
           intros w q [->|Hw]%elem_of_cons Hq; [|eauto].
           rewrite Hp in Hq. by injection Hq as <-.
        -- assert (Hgp : (g <= p)%Q).
           { apply Qlt_le_weak, Qnot_le_lt. intros Hle'.
             apply Qle_bool_iff in Hle'. congruence. }
           split; [left|]. exists p. split; [done|].
           intros w q [->|Hw]%elem_of_cons Hq.
           ++ rewrite Hp in Hq. injection Hq as <-. apply Qle_refl.
           ++ eapply Qle_trans; [|exact Hgp]. eauto.
      * intros s [Heq|Hs]%elem_of_cons; [by subst|by eapply Hstr].
Qed.

(** [int] *)

Lemma integer_part_comp q q' : (q == q')%Q → integer_part q = integer_part q'.
Proof.
  intros Heq. unfold integer_part.
  assert (Qle_bool 0 q = Qle_bool 0 q') as ->.
  { apply eq_true_iff_eq. rewrite !Qle_bool_iff. by rewrite Heq. }
  rewrite (Qfloor_comp _ _ Heq), (Qceiling_comp _ _ Heq). done.
Qed.

Lemma truncated_integer_part q n : truncated q n ↔ n = integer_part q.
Proof.
  unfold truncated, integer_part. destruct (Qle_bool 0 q) eqn:Hq.
  - apply Qle_bool_iff in Hq. split; [intros [Hf _]; auto|].
    intros ->. split; [done|]. intros Hq'.
    assert (Heq : (q == 0)%Q) by (by apply Qle_antisym).
    by rewrite (Qfloor_comp _ _ Heq), (Qceiling_comp _ _ Heq).
  - assert (Hq' : (q <= 0)%Q).
    { apply Qlt_le_weak, Qnot_le_lt. intros Hle. apply Qle_bool_iff in Hle. congruence. }
    split; [intros [_ Hc]; auto|].
    intros ->. split; [|done]. intros Hle. apply Qle_bool_iff in Hle. congruence.
Qed.

Lemma integer_part_Z z : integer_part (inject_Z z) = z.
Proof. unfold integer_part. rewrite Qfloor_Z, Qceiling_Z. by destruct (Qle_bool _ _). Qed.



Lemma int64_spec z : int64 z = true ↔ (- 2 ^ 63 ≤ z < 2 ^ 63)%Z.
Proof. unfold int64. rewrite andb_true_iff, Z.leb_le, Z.ltb_lt. done. Qed.

Lemma wrap64_int64 z : (- 2 ^ 63 ≤ z < 2 ^ 63)%Z → wrap64 z = z.
Proof. intros Hz. unfold wrap64. rewrite Z.mod_small; lia. Qed.

Lemma float_plus_1_value m e :
  (∃ m' e', (Z.abs m' < 2 ^ 53)%Z ∧ (dyadic m e + 1 == dyadic m' e')%Q) →
  (dyadic (float_plus_1 m e).1 (float_plus_1 m e).2 == dyadic m e + 1)%Q.
Proof.
  intros (m' & e' & Hm' & Heq). unfold float_plus_1.
  pose proof (dyadic_exact_plus_1 m e) as Hsum.
  destruct (exact_plus_1 m e) as [m1 e1]. cbn [fst snd] in Hsum.
  rewrite <- Hsum. apply (binary64_exact m1 e1 m' e' Hm'). by rewrite Hsum.
Qed.

(** [int(greatest + 1)] is the integer part of the sum when the sum
    is exact. *)
Lemma int_of_sum_exact dt g q n :
  number g = Some q →
  plus_1 dt g ≫= python_int = Ok n →
  exact_sum g →
  n = integer_part (q + 1).
Proof.
  destruct g as [| |b|z|m e|s]; intros [= <-]; cbn [plus_1 exact_sum].
  - intros [= <-] _.
    rewrite <- (integer_part_Z (Z.b2z b + 1)). apply integer_part_comp.
    by rewrite inject_Z_plus.
  - intros Hn Hz.
    assert (n = (z + 1)%Z) as ->.
    { destruct dt; unfold mbind, result_bind in Hn; cbn [python_int] in Hn;
        rewrite ?wrap64_int64 in Hn by done; congruence. }
    rewrite <- (integer_part_Z (z + 1)). apply integer_part_comp.
    by rewrite inject_Z_plus.
  - intros Hn Hex. pose proof (float_plus_1_value m e Hex) as Hv.
    destruct (float_plus_1 m e) as [m2 e2].
    unfold mbind, result_bind in Hn; cbn [python_int] in Hn. injection Hn as <-.
    by apply integer_part_comp.
Qed.



(** A cell of [astype('int')] *)

Lemma astype_int_stored v z q :
  astype_int v = Ok z → number v = Some q →
  int64 (integer_part q) = true → z = integer_part q.
Proof.
  destruct v as [| |b|z'|m e|s]; intros Hz [= <-]; cbn in Hz.
  - rewrite integer_part_Z. by destruct b; injection Hz as <-.
  - rewrite integer_part_Z. intros Hr. rewrite Hr in Hz. by injection Hz as <-.
  - intros Hr. rewrite Hr in Hz. by injection Hz as <-.
Qed.


End cell_properties.

(** ** The loop over the entities *)

Section entity_properties.
Context `{numeric, numpy, pandas}.
Import Scenarios.

(** [int(roles.max() + 1)], when it has a value, is taken from a
    greatest cell of the column. *)
Lemma max_plus_1_spec roles n :
  max_plus_1 roles = Ok n →
  is_greatest (Series_max (values roles)) (values roles)
  ∧ ∀ q, number (Series_max (values roles)) = Some q →
         exact_sum (Series_max (values roles)) →
         truncated (q + 1) n.
Proof.
  unfold max_plus_1. intros Hn.
  destruct (Series_max_spec (values roles))
    as [[Hmax _]|[(s & Hmax & _)|[Hgreatest _]]].
  - rewrite Hmax in Hn. done.
  - rewrite Hmax in Hn. done.
  - split; [done|]. intros q Hq Hexact. apply truncated_integer_part.
    by apply (int_of_sum_exact (dtype_of roles) (Series_max (values roles))).
Qed.


Lemma count_role_0_spec roles :
  count_role_0 roles = length (filter (λ x, role_is_0 x = true) (values roles)).
Proof.
  unfold count_role_0. induction (values roles) as [|x cells IH]; [done|].
  rewrite !filter_cons, eq_zero_role_is_0.
  destruct (decide (role_is_0 x = true)); cbn [length]; by rewrite IH.
Qed.

Lemma unique_count_spec ids : unique_count ids = length (distinct (values ids)).
Proof. apply remove_dups_distinct. Qed.

(** What [astype('int')] leaves of a column. *)
Lemma int_values_stored column members :
  int_values column = Ok members → Forall2 stored_as (values column) members.
Proof.
  intros Hm. apply mapM_result_Forall2 in Hm.
  eapply Forall2_impl; [exact Hm|]. intros x z Hz q n Hq Hn Hr.
  apply truncated_integer_part in Hn. subst n.
  apply (astype_int_stored x z q); [done..|]. by apply int64_spec.
Qed.


Lemma run_update_entity_bind {B} key f (k : unit → py log_record State B) st :
  (update_entity key f ≫= k) st
  = k tt {| input_data_frame := input_data_frame st;
            simulation := set_entities (alter f key (entities (simulation st)))
                            (simulation st) |}.
Proof.
  unfold update_entity. rewrite run_bind_assoc, run_get_bind.
  unfold set_simulation. by rewrite run_modify_bind.
Qed.

Lemma run_update_entity key f st :
  update_entity key f st
  = ({| input_data_frame := input_data_frame st;
        simulation := set_entities (alter f key (entities (simulation st)))
                        (simulation st) |}, [], Ok tt).
Proof. unfold update_entity. by rewrite run_get_bind. Qed.

#[global] Instance same_but_entities_preorder : PreOrder same_but_entities.
Proof.
  split.
  - by intros st.
  - intros st1 st2 st3 (?&?&?) (?&?&?). repeat split; congruence.
Qed.

Lemma keeps_update_entity key f : keeps same_but_entities (update_entity key f).
Proof. intros st. by rewrite run_update_entity. Qed.

Lemma keeps_init_entity ke : keeps same_but_entities (init_entity ke).
Proof.
  destruct ke as [key e]. unfold init_entity.
  apply keeps_bind; [apply _ | apply keeps_get, _ |]. intros st.
  destruct (is_person e); [apply keeps_update_entity|].
  repeat first
    [ apply keeps_update_entity
    | apply keeps_lift, _
    | apply keeps_bind; [apply _ | | intros ?] ].
Qed.

(** The entity held under [key] is the only one that changes, and it
    stays a person or a group. *)
Definition touches_only (key : string) (st st' : State) : Prop :=
  (∀ k, k ≠ key →
        entities (simulation st') !! k = entities (simulation st) !! k)
  ∧ ∀ e0, entities (simulation st) !! key = Some e0 →
          ∃ e1, entities (simulation st') !! key = Some e1
                ∧ is_person e1 = is_person e0.

#[global] Instance touches_only_preorder key : PreOrder (touches_only key).
Proof.
  split.
  - intros st. split; [done|]. intros e0 He0. by exists e0.
  - intros st1 st2 st3 [Ho1 Hk1] [Ho2 Hk2]. split.
    + intros k Hk. by rewrite Ho2, Ho1.
    + intros e0 He0. destruct (Hk1 e0 He0) as (e1 & He1 & Hp1).
      destruct (Hk2 e1 He1) as (e2 & He2 & Hp2). exists e2. split; congruence.
Qed.

Lemma touches_only_update_entity key f :
  (∀ e, is_person (f e) = is_person e) →
  keeps (touches_only key) (update_entity key f).
Proof.
  intros Hf st. rewrite run_update_entity. unfold touches_only. simpl. split.
  - intros k Hk. by rewrite lookup_alter_ne.
  - intros e0 He0. exists (f e0). by rewrite lookup_alter_eq, He0.
Qed.

Lemma touches_only_init_entity key e :
  keeps (touches_only key) (init_entity (key, e)).
Proof.
  unfold init_entity.
  apply keeps_bind; [apply _ | apply keeps_get, _ |]. intros st.
  destruct (is_person e); [by apply touches_only_update_entity|].
  repeat first
    [ by apply touches_only_update_entity
    | apply keeps_lift, _
    | apply keeps_bind; [apply _ | | intros ?] ].
Qed.

(** The turn of a group entity that goes through, step by step. *)
Lemma init_entity_ok key e st :
  is_person e = false →
  (init_entity (key, e) st).2 = Ok tt →
  ∃ rv iv roles ids n members_id members_role,
    role_variable_by_entity_key !! key = Some rv
    ∧ id_variable_by_entity_key !! key = Some iv
    ∧ frame_getitem (input_data_frame st) rv = Ok roles
    ∧ frame_getitem (input_data_frame st) iv = Ok ids
    ∧ max_plus_1 roles = Ok n
    ∧ int64 n = true
    ∧ count_role_0 roles = unique_count ids
    ∧ int_values ids = Ok members_id
    ∧ int_values roles = Ok members_role
    ∧ entities (simulation (init_entity (key, e) st).1.1)
      = alter (set_members_legacy_role members_role) key
          (alter (set_members_entity_id members_id) key
             (alter (set_roles_count n) key
                (alter (set_count (count_role_0 roles)) key
                   (entities (simulation st))))).
Proof.
  intros Hpe Hok.
  destruct (init_entity (key, e) st) as [[st' l] r] eqn:Hrun.
  cbn [fst snd] in *. subst r. revert Hrun.
  unfold init_entity. rewrite run_get_bind, Hpe.
  rewrite run_lift_bind. unfold getitem at 1.
  destruct (role_variable_by_entity_key !! key) as [rv|] eqn:Hrv; [|done].
  rewrite run_lift_bind.
  destruct (frame_getitem (input_data_frame st) rv) as [roles|err] eqn:Hroles;
    cbv beta iota; [|done].
  rewrite run_update_entity_bind, run_lift_bind.
  destruct (max_plus_1 roles) as [n|err] eqn:Hmax; cbv beta iota; [|done].
  rewrite run_update_entity_bind, run_lift_bind. unfold assert at 1.
  destruct (int64 n) eqn:Hn; cbv beta iota; [|done].
  rewrite run_lift_bind. unfold getitem at 1.
  destruct (id_variable_by_entity_key !! key) as [iv|] eqn:Hiv; [|done].
  rewrite run_lift_bind. cbn [input_data_frame].
  destruct (frame_getitem (input_data_frame st) iv) as [ids|err] eqn:Hids;
    cbv beta iota; [|done].
  rewrite run_lift_bind. unfold assert at 1.
  case_bool_decide as Hcount; cbv beta iota; [|done].
  rewrite run_lift_bind.
  destruct (int_values ids) as [members_id|err] eqn:Hmi; cbv beta iota; [|done].
  rewrite run_update_entity_bind, run_lift_bind.
  destruct (int_values roles) as [members_role|err] eqn:Hmr; cbv beta iota; [|done].
  rewrite run_update_entity. intros [= <- _].
  exists rv, iv, roles, ids, n, members_id, members_role. by repeat split.
Qed.

(** One turn of the loop: the entity held under [key] is the only one
    that changes, and when the turn goes through it is resolved. *)
Lemma init_entity_step key e e0 st :
  entities (simulation st) !! key = Some e0 →
  is_person e0 = is_person e →
  (∀ k, k ≠ key →
        entities (simulation (init_entity (key, e) st).1.1) !! k
        = entities (simulation st) !! k)
  ∧ ∃ e1, entities (simulation (init_entity (key, e) st).1.1) !! key = Some e1
          ∧ is_person e1 = is_person e
          ∧ ((init_entity (key, e) st).2 = Ok tt →
             resolved (input_data_frame st) key e1).
Proof.
  intros He0 Hp.
  destruct (touches_only_init_entity key e st) as [Hother Hkey].
  split; [exact Hother|].
  destruct (Hkey e0 He0) as (e1 & He1 & Hp1). exists e1.
  split; [done|]. split; [congruence|]. intros Hok.
  unfold resolved. rewrite Hp1, Hp.
  destruct (is_person e) eqn:Hpe.
  { revert He1. unfold init_entity.
    rewrite run_get_bind, Hpe, run_update_entity. simpl.
    rewrite lookup_alter_eq, He0. by intros [= <-]. }
  destruct (init_entity_ok key e st Hpe Hok)
    as (rv & iv & roles & ids & n & members_id & members_role & Hrv & Hiv & Hroles
        & Hids & Hmax & Hn & Hcount & Hmi & Hmr & Hents).
  rewrite Hents, !lookup_alter_eq, He0 in He1. injection He1 as <-.
  destruct (max_plus_1_spec roles n Hmax) as [Hgreatest Hexact].
  exists rv, iv, roles, ids, (Series_max (values roles)), n, members_id, members_role.
  cbn. split; [done|]. split; [done|]. split; [done|]. split; [done|].
  split; [apply count_role_0_spec|]. split; [done|]. split; [done|].
  split; [done|]. split; [by rewrite <- unique_count_spec, <- Hcount|].
  split; [done|]. split; [by apply int_values_stored|].
  split; [done|]. by apply int_values_stored.
Qed.

Lemma entities_loop l st :
  NoDup l.*1 →
  (∀ key e, (key, e) ∈ l →
            ∃ e0, entities (simulation st) !! key = Some e0
                  ∧ is_person e0 = is_person e) →
  (∀ k, k ∉ l.*1 →
        entities (simulation (for_each l init_entity st).1.1) !! k
        = entities (simulation st) !! k)
  ∧ ((for_each l init_entity st).2 = Ok tt →
     ∀ key e, (key, e) ∈ l →
              ∃ e1, entities (simulation (for_each l init_entity st).1.1) !! key
                    = Some e1
                    ∧ is_person e1 = is_person e
                    ∧ resolved (input_data_frame st) key e1).
Proof.
  revert st. induction l as [|[key e] l IH]; intros st Hnd Hin.
  { split; [done|]. intros _ ?? Hx. inv Hx. }
  rewrite fmap_cons in Hnd. apply NoDup_cons in Hnd as [Hkey Hnd]. simpl in Hkey.
  destruct (Hin key e) as (e0 & He0 & Hp); [left|].
  destruct (init_entity_step key e e0 st He0 Hp) as (Hother & e1 & He1 & Hp1 & Hres).
  pose proof (keeps_init_entity (key, e) st) as (Hframe & _).
  rewrite for_each_cons, run_bind.
  destruct (init_entity (key, e) st) as [[st1 l1] [[]|err]] eqn:Hstep; simpl in *.
  2:{ split; [|done]. intros k Hk. apply Hother. intros ->. apply Hk. left. }
  destruct (IH st1 Hnd) as [IH1 IH2].
  { intros k' e' Hin'. rewrite Hother.
    - apply Hin. by right.
    - intros ->. apply Hkey. apply list_elem_of_fmap. by exists (key, e'). }
  split.
  - intros k Hk. apply not_elem_of_cons in Hk as [Hk1 Hk2].
    rewrite IH1 by done. by apply Hother.
  - intros Hok k' e' Hin'. apply elem_of_cons in Hin' as [[= -> ->]|Hin'].
    + exists e1. rewrite IH1 by done. auto.
    + destruct (IH2 Hok k' e' Hin') as (e1' & ? & ? & ?).
      exists e1'. by rewrite <- Hframe.
Qed.

(** When the loop over the entities goes through, every entity of the
    simulation is resolved. *)
Lemma entities_loop_all st :
  let r := for_each (map_to_list (entities (simulation st))) init_entity st in
  r.2 = Ok tt →
  ∀ key e1, entities (simulation r.1.1) !! key = Some e1 →
            (∃ e0, entities (simulation st) !! key = Some e0
                   ∧ is_person e0 = is_person e1)
            ∧ resolved (input_data_frame st) key e1.
Proof.
  intros r Hok key e1 He1.
  destruct (entities_loop (map_to_list (entities (simulation st))) st) as [Hout Hin].
  { apply NoDup_fst_map_to_list. }
  { intros k e Hke. apply elem_of_map_to_list in Hke. eauto. }
  destruct (entities (simulation st) !! key) as [e0|] eqn:He0.
  - pose proof He0 as He0'. apply elem_of_map_to_list in He0.
    destruct (Hin Hok key e0 He0) as (e1' & He1' & Hp & Hres).
    fold r in He1'. simplify_eq. split; [|done]. by exists e0.
  - fold r in Hout. rewrite Hout in He1; [congruence|].
    intros Hk. apply list_elem_of_fmap in Hk as [[k e] [-> Hke]].
    apply elem_of_map_to_list in Hke. simpl in He0. congruence.
Qed.

End entity_properties.

(** ** The loop over the columns leaves the entities alone *)

Section column_keeps.
Context `{numeric, numpy, pandas}.
Import Scenarios.

#[global] Instance same_entities_preorder : PreOrder same_entities.
Proof.
  split.
  - by intros st.
  - intros st1 st2 st3 (?&?) (?&?). split; congruence.
Qed.

Lemma keeps_entities_fill_default name serie column :
  keeps same_entities (fill_default name serie column).
Proof.
  unfold fill_default. destruct (is_floating _); [|apply keeps_ret, _].
  apply keeps_bind; [apply _ | |].
  - apply keeps_when; [apply _|].
    repeat first
      [ apply keeps_info, _ | apply keeps_get, _
      | by apply keeps_modify
      | apply keeps_bind; [apply _ | | intros ?] ].
  - intros _.
    repeat first
      [ apply keeps_lift, _ | apply keeps_get, _
      | apply keeps_bind; [apply _ | | intros ?] ].
Qed.

Lemma keeps_entities_store_array period name column key serie :
  keeps same_entities (store_array period name column key serie).
Proof.
  unfold store_array, set_input.
  repeat first
    [ apply keeps_lift, _ | apply keeps_get, _
    | by apply keeps_modify
    | apply keeps_bind; [apply _ | | intros ?] ].
Qed.

Lemma keeps_entities_init_column period name :
  keeps same_entities (init_column period name).
Proof.
  unfold init_column. case_bool_decide; [apply keeps_ret, _|].
  apply keeps_bind; [apply _ | apply keeps_get, _ |]. intros st.
  apply keeps_bind; [apply _ | apply keeps_lift, _ |]. intros serie.
  apply keeps_bind; [apply _ | apply keeps_lift, _ |]. intros [column key].
  apply keeps_bind; [apply _ | |].
  { apply keeps_when; [apply _ | apply keeps_info, _]. }
  intros _. apply keeps_bind; [apply _ | apply keeps_entities_fill_default |].
  intros _. apply keeps_bind; [apply _ | apply keeps_get, _ |]. intros st'.
  apply keeps_bind; [apply _ | |].
  { destruct loc_writes_through; [apply keeps_lift, _ | apply keeps_ret, _]. }
  intros serie'. apply keeps_entities_store_array.
Qed.

End column_keeps.

(** ** [init_simulation_with_data_frame], step by step *)

Section init_properties.
Context `{numeric, numpy, pandas}.
Import Scenarios.

Lemma lift_inv {L S A} (r : result A) (s s' : S) (l : list L) x :
  lift r s = (s', l, x) → s' = s ∧ l = [] ∧ x = r.
Proof. unfold lift. intros Heq. by simplify_eq. Qed.

Lemma get_inv {L S} (s s' : S) (l : list L) x :
  get s = (s', l, x) → s' = s ∧ l = [] ∧ x = Ok s.
Proof. unfold get. intros Heq. by simplify_eq. Qed.

Lemma assert_Ok b a : assert b a = Ok tt → b = true.
Proof. by destruct b. Qed.

(** The steps of a run that goes through. *)
Lemma init_ok period tbs used st st' l :
  init_simulation_with_data_frame period tbs used st = (st', l, Ok tt) →
  ∃ ids roles st1 st2 l1 l2 l3,
    group_variables id_variable_by_entity_key (simulation st) = Ok ids
    ∧ group_variables role_variable_by_entity_key (simulation st) = Ok roles
    ∧ (∀ v, v ∈ ids ++ roles → v ∈ columns (input_data_frame st))
    ∧ filter_input_variables (column_by_name tbs) used st = (st1, l1, Ok tt)
    ∧ for_each (map_to_list (entities (simulation st1))) init_entity st1
      = (st2, l2, Ok tt)
    ∧ for_each (columns (input_data_frame st2)) (init_column period) st2
      = (st', l3, Ok tt).
Proof.
  unfold init_simulation_with_data_frame. rewrite run_get_bind. intros Hrun.
  apply bind_ok_inv in Hrun as (s1 & k1 & [] & k1' & Hwhen & Hrun & _).
  assert (s1 = st) as ->.
  { change s1 with (s1, k1, Ok tt : result unit).1.1. rewrite <- Hwhen.
    symmetry. apply (keeps_apply eq). apply keeps_when; [apply _|].
    repeat first [ apply keeps_info, _ | apply keeps_bind; [apply _ | | intros ?] ]. }
  apply bind_ok_inv in Hrun as (s1 & k2 & ids & k2' & Hids & Hrun & _).
  apply lift_inv in Hids as (-> & _ & Hids).
  apply bind_ok_inv in Hrun as (s1 & k3 & roles & k3' & Hroles & Hrun & _).
  apply lift_inv in Hroles as (-> & _ & Hroles).
  apply bind_ok_inv in Hrun as (s1 & k4 & [] & k4' & Hasserts & Hrun & _).
  assert (s1 = st) as ->.
  { change s1 with (s1, k4, Ok tt : result unit).1.1. rewrite <- Hasserts.
    symmetry. apply (keeps_apply eq). apply keeps_for_each; [apply _|].
    intros x _. apply keeps_lift, _. }
  apply bind_ok_inv in Hrun as (st1 & l1 & [] & k5' & Hfilter & Hrun & _).
  apply bind_ok_inv in Hrun as (s1 & k6 & st1' & k6' & Hget & Hrun & _).
  apply get_inv in Hget as (-> & _ & [= ->]).
  apply bind_ok_inv in Hrun as (st2 & l2 & [] & k7' & Hents & Hrun & _).
  rewrite run_get_bind in Hrun.
  exists ids, roles, st1, st2, l1, l2, k7'. repeat split; try done.
  intros v Hv.
  destruct (for_each_ok _ _ _ _ _ Hasserts v Hv) as (s1 & s2 & log1 & Hassert).
  apply lift_inv in Hassert as (_ & _ & Hassert). symmetry in Hassert.
  apply assert_Ok in Hassert. by apply bool_decide_eq_true in Hassert.
Qed.

(** What a run that goes through leaves in the entities, in terms of
    the table it was given. *)
Lemma init_resolves period tbs used st st' l :
  init_simulation_with_data_frame period tbs used st = (st', l, Ok tt) →
  ∀ key e, entities (simulation st') !! key = Some e →
           resolved (input_data_frame st) key e.
Proof.
  intros Hrun key e He.
  apply init_ok in Hrun
      as (ids & roles & st1 & st2 & l1 & l2 & l3 & Hids & Hroles & Hcols & Hfilter
          & Hents & Hloop).
  pose proof (filter_input_variables_narrows (column_by_name tbs) used st ids roles
                Hids Hroles) as Hnarrow.
  rewrite Hfilter in Hnarrow; simpl in Hnarrow.
  pose proof (entities_loop_all st1) as Hres. rewrite Hents in Hres; simpl in Hres.
  pose proof (keeps_for_each same_entities (columns (input_data_frame st2))
                (init_column period)
                (λ x _, keeps_entities_init_column period x) st2) as [Hsame _].
  rewrite Hloop in Hsame; simpl in Hsame. rewrite Hsame in He.
  destruct (Hres eq_refl key e He) as [(e0 & He0 & Hp) Hr].
  destruct Hnarrow as (Hsim & Hindex & Hdropped).
  unfold resolved in *. destruct (is_person e) eqn:Hpe; [congruence|].
  destruct Hr as (rv & iv & rs & idl & g & n & mi & mr & Hrv & Hiv & Hrs & Hidl & Hrest).
  rewrite Hsim in He0.
  destruct (group_variables_elem _ _ _ key e0 Hroles He0 Hp) as (rv' & Hrv' & Hin_r).
  destruct (group_variables_elem _ _ _ key e0 Hids He0 Hp) as (iv' & Hiv' & Hin_i).
  simplify_eq. exists rv, iv, rs, idl, g, n, mi, mr.
  assert (Hn : narrowed (ids ++ roles) st st1) by done.
  rewrite <- (narrowed_getitem _ _ _ rv Hn) by (apply elem_of_app; by right).
  rewrite <- (narrowed_getitem _ _ _ iv Hn) by (apply elem_of_app; by left).
  done.
Qed.

End init_properties.

(** ** Where the error of lines 550-552 can come from *)

Section id_count_error.
Context `{numeric, numpy, pandas}.
Import Scenarios.

















End id_count_error.

(** ** When the steps before the loop over the entities go through *)

Section progress.
Context `{numeric, numpy, pandas}.
Import Scenarios.

Lemma columns_drop name df df' :
  drop name df = Ok df' → columns df' = filter (λ n, n ≠ name) (columns df).
Proof.
  intros Hd. apply drop_spec in Hd as [_ Hit]. unfold columns. rewrite Hit.
  by apply columns_filter.
Qed.

(** What [drop_column] does to a frame that has the column. *)
Lemma drop_column_run name st :
  name ∈ columns (input_data_frame st) →
  (drop_column name st).2 = Ok tt
  ∧ columns (input_data_frame (drop_column name st).1.1)
    = filter (λ n, n ≠ name) (columns (input_data_frame st)).
Proof.
  intros Hin. unfold drop_column. rewrite run_get_bind, run_lift_bind.
  destruct (drop_is_Ok name _ Hin) as [df' Hd]. rewrite Hd. simpl.
  split; [done|]. by apply columns_drop.
Qed.

(** The two loops of [filter_input_variables] go through on a table
    whose labels are distinct. *)
Lemma filter_input_variables_is_Ok cbn used st ids roles :
  NoDup (columns (input_data_frame st)) →
  group_variables id_variable_by_entity_key (simulation st) = Ok ids →
  group_variables role_variable_by_entity_key (simulation st) = Ok roles →
  (filter_input_variables cbn used st).2 = Ok tt.
Proof.
  intros Hnd Hi Hr. unfold filter_input_variables.
  rewrite run_get_bind, Hi, run_lift_bind, Hr, run_lift_bind, run_info_bind. simpl.
  set (keep := ids ++ roles).
  (* first loop *)
  destruct (for_each_is_Ok
              (λ l' s, NoDup l'
                       ∧ (∀ y, y ∈ l' → y ∈ columns (input_data_frame s))
                       ∧ NoDup (columns (input_data_frame s))
                       ∧ ∀ n, n ∈ columns (input_data_frame s) →
                              n ∈ l' ∨ n ∈ keep ∨ n ∈ dom cbn)
              (columns (input_data_frame st))
              (drop_unknown cbn ids roles) st) as [Hok1 (_ & _ & Hnd1 & Hknown)].
  { repeat split; auto. }
  { intros x l' s (Hndl & Hcols & Hnds & Hk).
    apply NoDup_cons in Hndl as [Hx Hndl]. unfold drop_unknown. fold keep.
    assert (Hrest : ∀ y, y ∈ l' → y ≠ x) by (intros y Hy ->; done).
    case_bool_decide as Hkeep; [|case_bool_decide as Hunknown]; simpl.
    - repeat split; auto. { intros y Hy. apply Hcols. by right. }
      intros n Hn. destruct (Hk n Hn) as [Hl|?]; [|auto].
      apply elem_of_cons in Hl as [->|?]; auto.
    - rewrite run_info_bind. cbn [fst snd].
      destruct (drop_column_run x s) as [Hok Hc]; [apply Hcols; left|].
      split; [done|]. rewrite Hc. repeat split; auto.
      + intros y Hy. apply list_elem_of_filter. split; [by apply Hrest|].
        apply Hcols. by right.
      + by apply NoDup_filter.
      + intros n Hn. apply list_elem_of_filter in Hn as [Hne Hn].
        destruct (Hk n Hn) as [Hl|?]; [|auto].
        apply elem_of_cons in Hl as [->|?]; [done|auto].
    - repeat split; auto. { intros y Hy. apply Hcols. by right. }
      intros n Hn. destruct (Hk n Hn) as [Hl|?]; [|auto].
      apply elem_of_cons in Hl as [->|?]; auto. }
  rewrite bind_result_ok with (a := tt) by done.
  set (st1 := (for_each _ (drop_unknown cbn ids roles) st).1.1) in *.
  rewrite run_get_bind.
  (* second loop *)
  destruct (for_each_is_Ok
              (λ l' s, NoDup l'
                       ∧ (∀ y, y ∈ l' → y ∈ columns (input_data_frame s))
                       ∧ ∀ n, n ∈ columns (input_data_frame s) →
                              n ∈ keep ∨ n ∈ dom cbn)
              (columns (input_data_frame st1))
              (drop_calculated cbn ids roles used) st1) as [Hok2 _].
  { repeat split; auto. intros n Hn. destruct (Hknown n Hn) as [Hl|?]; [inv Hl|done]. }
  { intros x l' s (Hndl & Hcols & Hk).
    apply NoDup_cons in Hndl as [Hx Hndl]. unfold drop_calculated. fold keep.
    assert (Hrest : ∀ y, y ∈ l' → y ≠ x) by (intros y Hy ->; done).
    assert (Hsame : (∀ y, y ∈ l' → y ∈ columns (input_data_frame s)))
      by (intros y Hy; apply Hcols; by right).
    case_bool_decide as Hkeep; simpl; [by repeat split|].
    destruct (Hk x) as [?|Hdom]; [apply Hcols; left|done|].
    apply elem_of_dom in Hdom as [column Hcolumn].
    rewrite run_lift_bind. unfold getitem. rewrite Hcolumn.
    destruct (negb _); simpl; [by repeat split|].
    destruct (function _); simpl; [|by repeat split].
    case_bool_decide; simpl; [by repeat split|].
    rewrite run_info_bind. cbn [fst snd].
    destruct (drop_column_run x s) as [Hok Hc]; [apply Hcols; left|].
    split; [done|]. rewrite Hc. repeat split; auto.
    + intros y Hy. apply list_elem_of_filter. split; [by apply Hrest|]. auto.
    + intros n Hn. apply list_elem_of_filter in Hn as [_ Hn]. auto. }
  rewrite bind_result_ok with (a := tt) by done.
  by rewrite run_get_bind.
Qed.




Lemma frame_getitem_length df name s :
  rectangular df → frame_getitem df name = Ok s → length (values s) = index df.
Proof.
  intros Hrect Hs. apply frame_getitem_columns in Hs as [_ Hin].
  exact (Hrect name s Hin).
Qed.

Lemma for_each_asserts {A} (l : list A) (b : A → bool) (a : A → assertion)
    (st : State) :
  (∀ x, x ∈ l → b x = true) →
  for_each l (λ x, lift (assert (b x) (a x)) : py log_record State unit) st
  = (st, [], Ok tt).
Proof.
  induction l as [|x l IH]; intros Hb; [done|].
  rewrite for_each_cons, run_lift_bind, (Hb x) by left. simpl.
  apply IH. intros y Hy. apply Hb. by right.
Qed.

Lemma bind_pure {L S A B} (m : py L S A) (f : A → py L S B) s a :
  (∃ l, m s = (s, l, Ok a)) →
  ((m ≫= f) s).2 = (f a s).2 ∧ ((m ≫= f) s).1.1 = (f a s).1.1.
Proof. intros [l Hm]. rewrite run_bind, Hm. done. Qed.


End progress.

(** ** The missing values of a floating column *)

Section fill_properties.
Context `{numeric, numpy, pandas}.
Import Scenarios.





Lemma loc_setitem_columns df mask name v :
  index (loc_setitem mask name v df) = index df
  ∧ columns (loc_setitem mask name v df) = columns df.
Proof.
  split; [done|]. unfold columns, loc_setitem; simpl.
  rewrite <- list_fmap_compose. apply list_fmap_ext.
  intros i c _. simpl. by destruct (decide (c.1 = name)).
Qed.



End fill_properties.

(** * The entity/role resolver *)

Section resolver_claims.
Import Scenarios Example.








End resolver_claims.

(** * Missing values *)

Section missing_values_claims.
Import Scenarios Example.




End missing_values_claims.

(** * Further properties of the helpers of scenarios.py *)

Section filter_extras.
Context `{numeric, numpy, pandas}.
Import Scenarios.

Lemma filter_input_variables_raises_early cbn used st e :
  group_variables id_variable_by_entity_key (simulation st) = Raise e
  ∨ (∃ ids, group_variables id_variable_by_entity_key (simulation st) = Ok ids
            ∧ group_variables role_variable_by_entity_key (simulation st) = Raise e) →
  filter_input_variables cbn used st = (st, [], Raise e).
Proof.
  unfold filter_input_variables. rewrite run_get_bind.
  intros [Hid|(ids & Hid & Hrole)].
  - by rewrite Hid, run_lift_bind.
  - by rewrite Hid, run_lift_bind, Hrole, run_lift_bind.
Qed.

Lemma group_variables_cases (d : gmap string string) (sim : Simulation) :
  (∃ l, group_variables d sim = Ok l) ∨ (∃ e, group_variables d sim = Raise e).
Proof. destruct (group_variables d sim); eauto. Qed.

End filter_extras.

(** X1. [filter_input_variables] only drops columns: whatever its
    outcome, the simulation and the number of rows are unchanged and
    the columns that are left are columns of the table it was given, in
    the same order and with the same cells; when it goes through, the
    identifier and role columns of every group entity of the simulation
    are still there. *)
Theorem filter_input_variables_only_drops (N : numeric) (NP : numpy) (PD : pandas)
    (cbn : gmap string Column) (used : list string) (st : Scenarios.State) :
  let r := Scenarios.filter_input_variables cbn used st in
  Scenarios.simulation r.1.1 = Scenarios.simulation st
  ∧ index (Scenarios.input_data_frame r.1.1) = index (Scenarios.input_data_frame st)
  ∧ items (Scenarios.input_data_frame r.1.1)
      `sublist_of` items (Scenarios.input_data_frame st)
  ∧ ∀ key e v,
      entities (Scenarios.simulation st) !! key = Some e →
      is_person e = false →
      Scenarios.id_variable_by_entity_key !! key = Some v
      ∨ Scenarios.role_variable_by_entity_key !! key = Some v →
      r.2 = Ok tt →
      frame_getitem (Scenarios.input_data_frame r.1.1) v
      = frame_getitem (Scenarios.input_data_frame st) v.
Proof.
  intros r. subst r.
  destruct (group_variables_cases Scenarios.id_variable_by_entity_key
              (Scenarios.simulation st)) as [[ids Hids]|[e Hids]].
  2:{ rewrite (filter_input_variables_raises_early cbn used st e) by (by left).
      simpl. repeat split; done. }
  destruct (group_variables_cases Scenarios.role_variable_by_entity_key
              (Scenarios.simulation st)) as [[roles Hroles]|[e Hroles]].
  2:{ rewrite (filter_input_variables_raises_early cbn used st e) by (right; eauto).
      simpl. repeat split; done. }
  pose proof (filter_input_variables_narrows cbn used st ids roles Hids Hroles) as Hn.
  pose proof Hn as (Hsim & Hindex & dropped & Hdropped & Hitems).
  split; [done|]. split; [done|]. split.
  - rewrite Hitems. apply sublist_filter.
  - intros key e v He Hp Hv _. apply (narrowed_getitem _ _ _ v Hn).
    apply elem_of_app. destruct Hv as [Hv|Hv].
    + left. destruct (group_variables_elem _ _ _ key e Hids He Hp) as (v' & ? & ?).
      by simplify_eq.
    + right. destruct (group_variables_elem _ _ _ key e Hroles He Hp) as (v' & ? & ?).
      by simplify_eq.
Qed.

Lemma filter_input_variables_only_drops_witness :
  let r := @Scenarios.filter_input_variables Example.option_Z_numeric
             (column_by_name Example.system) [] (Example.start Example.four_persons) in
  r.2 = Ok tt
  ∧ frame_getitem (Scenarios.input_data_frame r.1.1) "quimen"
    = frame_getitem Example.four_persons "quimen".
Proof.
  intros r. assert (Hok : r.2 = Ok tt) by (vm_compute; reflexivity).
  split; [exact Hok|].
  destruct (filter_input_variables_only_drops Example.option_Z_numeric
              Example.keep_cells Example.writes_through
              (column_by_name Example.system) [] (Example.start Example.four_persons))
    as (_ & _ & _ & Hkeep).
  apply (Hkeep "menage" (Example.new_entity false) "quimen");
    [reflexivity | reflexivity | right; reflexivity | exact Hok].
Defined.

Section filter_exact.
Context `{numeric, numpy, pandas}.
Import Scenarios.

(** A loop whose turn for [x] drops the column [x] when [D x] holds and
    leaves the table alone otherwise, as long as the labels satisfy [J]. *)
Lemma dropping_loop (D : string → bool) (J : list string → Prop)
    (body : string → py log_record State unit) (l : list string) (st : State) :
  (∀ C (P : string → Prop) `{!∀ n, Decision (P n)}, J C → J (filter P C)) →
  (∀ x s, x ∈ columns (input_data_frame s) → J (columns (input_data_frame s)) →
          (body x s).2 = Ok tt
          ∧ columns (input_data_frame (body x s).1.1)
            = if D x then filter (λ n, n ≠ x) (columns (input_data_frame s))
              else columns (input_data_frame s)) →
  NoDup l →
  (∀ x, x ∈ l → x ∈ columns (input_data_frame st)) →
  J (columns (input_data_frame st)) →
  (for_each l body st).2 = Ok tt
  ∧ columns (input_data_frame (for_each l body st).1.1)
    = filter (λ n, ¬ (n ∈ l ∧ D n = true)) (columns (input_data_frame st)).
Proof.
  intros HJ Hbody. revert st. induction l as [|x l IH]; intros st Hnd Hin HJst.
  { split; [done|]. simpl. symmetry. apply filter_all. intros n _ [Hn _]. inv Hn. }
  apply NoDup_cons in Hnd as [Hx Hnd].
  destruct (Hbody x st) as [Hok Hcols]; [apply Hin; left|done|].
  rewrite for_each_cons, run_bind, Hok. cbn [fst snd].
  set (st1 := (body x st).1.1) in *.
  assert (Hin1 : ∀ y, y ∈ l → y ∈ columns (input_data_frame st1)).
  { intros y Hy. rewrite Hcols. destruct (D x).
    - apply list_elem_of_filter. split; [by intros ->|]. apply Hin. by right.
    - apply Hin. by right. }
  assert (HJ1 : J (columns (input_data_frame st1))).
  { rewrite Hcols. destruct (D x); [by apply HJ|done]. }
  destruct (IH st1 Hnd Hin1 HJ1) as [Hok' Hcols'].
  split; [done|]. rewrite Hcols', Hcols.
  destruct (D x) eqn:HD.
  - rewrite list_filter_filter. apply list_filter_iff. intros n. split.
    + intros [Hn Hne] [Hn' Hd]. apply elem_of_cons in Hn' as [->|Hn']; [done|].
      by apply Hn.
    + intros Hn. split.
      * intros [Hn' Hd]. apply Hn. split; [by right|done].
      * intros ->. apply Hn. split; [left|done].
  - apply list_filter_iff. intros n. split.
    + intros Hn [Hn' Hd]. apply elem_of_cons in Hn' as [->|Hn']; [congruence|].
      by apply Hn.
    + intros Hn [Hn' Hd]. apply Hn. split; [by right|done].
Qed.

Lemma list_filter_iff_in {A} (P1 P2 : A → Prop)
    `{!∀ x, Decision (P1 x), !∀ x, Decision (P2 x)} (l : list A) :
  (∀ x, x ∈ l → P1 x ↔ P2 x) → filter P1 l = filter P2 l.
Proof.
  induction l as [|a l IH]; intros HP; [done|].
  assert (IH' : filter P1 l = filter P2 l) by (apply IH; intros x Hx; apply HP; by right).
  destruct (decide (P1 a)) as [Ha|Ha].
  - rewrite !filter_cons_True; [by rewrite IH' | by apply HP; [left|] | done].
  - rewrite !filter_cons_False; [done | | done]. intros Ha'. apply Ha, HP; [left|done].
Qed.

Lemma filter_with_all (D : string → bool) (C : list string) :
  filter (λ n, ¬ (n ∈ C ∧ D n = true)) C = filter (λ n, D n = false) C.
Proof.
  apply list_filter_iff_in. intros n Hn. split.
  - intros Hnot. destruct (D n); [|done]. by destruct Hnot.
  - intros Hd [_ Hd']. congruence.
Qed.

Lemma filter_input_variables_columns cbn used st ids roles :
  NoDup (columns (input_data_frame st)) →
  group_variables id_variable_by_entity_key (simulation st) = Ok ids →
  group_variables role_variable_by_entity_key (simulation st) = Ok roles →
  (filter_input_variables cbn used st).2 = Ok tt
  ∧ columns (input_data_frame (filter_input_variables cbn used st).1.1)
    = filter (λ n, kept_by_filter cbn (ids ++ roles) used n = true)
        (columns (input_data_frame st)).
Proof.
  intros Hnd Hids Hroles. unfold filter_input_variables.
  rewrite run_get_bind, Hids, run_lift_bind, Hroles, run_lift_bind, run_info_bind.
  cbn [fst snd]. set (keep := ids ++ roles).
  set (D1 := λ n : string, negb (bool_decide (n ∈ keep))
                           && negb (bool_decide (is_Some (cbn !! n)))).
  set (D2 := λ n : string,
         negb (bool_decide (n ∈ keep))
         && match cbn !! n with
            | Some column =>
                is_simple_formula (formula_class column)
                && bool_decide (is_Some (function (formula_class column)))
                && negb (bool_decide (n ∈ used))
            | None => false
            end).
  destruct (dropping_loop D1 (λ _, True) (drop_unknown cbn ids roles)
              (columns (input_data_frame st)) st) as [Hok1 Hcols1]; try done.
  { intros x s Hx _. unfold drop_unknown, D1. fold keep.
    case_bool_decide as Hkeep; [done|]. cbn [negb andb].
    case_bool_decide as Hunknown.
    - rewrite run_info_bind. cbn [fst snd].
      rewrite bool_decide_eq_false_2; [cbn [negb]; by apply drop_column_run|].
      intros Hsome. apply Hunknown. by apply elem_of_dom.
    - rewrite bool_decide_eq_true_2; [cbn [negb]; done | by apply elem_of_dom]. }
  rewrite filter_with_all in Hcols1.
  rewrite run_bind, Hok1. cbn [fst snd].
  set (st1 := (for_each _ (drop_unknown cbn ids roles) st).1.1) in *.
  rewrite run_get_bind.
  destruct (dropping_loop D2
              (λ C, ∀ n, n ∈ C → n ∈ keep ∨ is_Some (cbn !! n))
              (drop_calculated cbn ids roles used)
              (columns (input_data_frame st1)) st1) as [Hok2 Hcols2]; try done.
  { intros C P ? HC n Hn. apply list_elem_of_filter in Hn as [_ Hn]. by apply HC. }
  { intros x s Hx HJ. unfold drop_calculated, D2. fold keep.
    case_bool_decide as Hkeep; [done|]. cbn [negb andb].
    destruct (HJ x Hx) as [?|[column Hcolumn]]; [done|].
    rewrite run_lift_bind. unfold getitem. rewrite Hcolumn.
    destruct (is_simple_formula (formula_class column)); cbn [negb andb]; [|done].
    destruct (function (formula_class column)) as [f|] eqn:Hf; cbn [andb].
    2:{ rewrite (bool_decide_eq_false_2 (is_Some None)) by (by intros [??]).
        cbn [andb]. done. }
    rewrite (bool_decide_eq_true_2 (is_Some (Some f))) by (by eexists). cbn [andb].
    case_bool_decide as Hused; cbn [negb]; [done|].
    rewrite run_info_bind. cbn [fst snd]. by apply drop_column_run. }
  { rewrite Hcols1. by apply NoDup_filter. }
  { rewrite Hcols1. intros n Hn. apply list_elem_of_filter in Hn as [Hd _].
    unfold D1 in Hd. apply andb_false_iff in Hd as [Hd|Hd].
    - left. apply negb_false_iff, bool_decide_eq_true in Hd. done.
    - right. apply negb_false_iff, bool_decide_eq_true in Hd. done. }
  rewrite filter_with_all in Hcols2.
  rewrite run_bind, Hok2. cbn [fst snd]. rewrite run_get_bind. cbn [info fst snd].
  split; [done|]. rewrite Hcols2, Hcols1, list_filter_filter.
  apply list_filter_iff. intros n. unfold D1, D2, kept_by_filter. fold keep.
  destruct (bool_decide (n ∈ keep)); cbn [negb andb orb]; [naive_solver|].
  destruct (cbn !! n) as [column|] eqn:Hn.
  - rewrite (bool_decide_eq_true_2 (is_Some (Some column))) by (by eexists).
    cbn [negb]. split; [by intros [-> _]|]. intros Hk. split; [|done].
    by apply negb_true_iff in Hk.
  - rewrite (bool_decide_eq_false_2 (is_Some None)) by (by intros [??]).
    cbn [negb]. split; [by intros [_ ?]|done].
Qed.

End filter_exact.

(** X2. On a table with distinct labels, for a simulation whose group
    entities are among famille, foyer_fiscal and menage,
    [filter_input_variables] goes through and leaves, in their order,
    exactly the columns of the group entities of the simulation and
    the variables of the schema that are not calculated ones, or that
    are used as input: unknown columns and calculated variables that
    are not whitelisted are dropped. *)
Theorem filter_input_variables_keeps_exactly (N : numeric) (NP : numpy) (PD : pandas)
    (cbn : gmap string Column) (used : list string) (st : Scenarios.State)
    (ids roles : list string) :
  NoDup (columns (Scenarios.input_data_frame st)) →
  Scenarios.group_variables Scenarios.id_variable_by_entity_key
    (Scenarios.simulation st) = Ok ids →
  Scenarios.group_variables Scenarios.role_variable_by_entity_key
    (Scenarios.simulation st) = Ok roles →
  let r := Scenarios.filter_input_variables cbn used st in
  r.2 = Ok tt
  ∧ columns (Scenarios.input_data_frame r.1.1)
    = filter (λ n, kept_by_filter cbn (ids ++ roles) used n = true)
        (columns (Scenarios.input_data_frame st)).
Proof. intros Hnd Hids Hroles. by apply filter_input_variables_columns. Qed.

Lemma filter_input_variables_keeps_exactly_witness :
  let r := @Scenarios.filter_input_variables Example.option_Z_numeric
             (column_by_name Example.system) [] (Example.start Example.raw_table) in
  r.2 = Ok tt
  ∧ columns (Scenarios.input_data_frame r.1.1) = ["idmen"; "quimen"; "salaire"].
Proof.
  intros r.
  destruct (filter_input_variables_keeps_exactly Example.option_Z_numeric
              Example.keep_cells Example.writes_through
              (column_by_name Example.system) [] (Example.start Example.raw_table)
              ["idmen"] ["quimen"]) as [Hok Hcols].
  - apply (bool_decide_unpack (NoDup _)). vm_compute. exact I.
  - vm_compute. reflexivity.
  - vm_compute. reflexivity.
  - split; [exact Hok|]. fold r in Hcols. rewrite Hcols. vm_compute. reflexivity.
Defined.

Section init_extras.
Context `{numeric, numpy, pandas}.
Import Scenarios.

Lemma for_each_asserts_raise {A} (l : list A) (b : A → bool) (a : A → assertion)
    (st : State) :
  (∃ x, x ∈ l ∧ b x = false) →
  ∃ x, x ∈ l ∧ b x = false
       ∧ for_each l (λ x, (lift (assert (b x) (a x)) : py log_record State unit)) st
         = (st, [], Raise (AssertionError (a x))).
Proof.
  induction l as [|y l IH]; intros (x & Hx & Hb); [inv Hx|].
  rewrite for_each_cons, run_lift_bind. destruct (b y) eqn:Hy; simpl.
  - destruct IH as (x' & Hx' & Hb' & Hrun).
    { apply elem_of_cons in Hx as [->|Hx]; [congruence|eauto]. }
    exists x'. split; [by right|done].
  - exists y. split; [left|done].
Qed.

(** The table lacks a column of a group entity: lines 529-531 stop the
    run before anything is changed. *)
Lemma init_missing_column period tbs used st ids roles :
  group_variables id_variable_by_entity_key (simulation st) = Ok ids →
  group_variables role_variable_by_entity_key (simulation st) = Ok roles →
  (∃ v, v ∈ ids ++ roles ∧ v ∉ columns (input_data_frame st)) →
  ∃ v log, v ∈ ids ++ roles ∧ (v ∉ columns (input_data_frame st))
           ∧ init_simulation_with_data_frame period tbs used st
             = (st, log, Raise (AssertionError (NotInInputDataFrame v))).
Proof.
  intros Hids Hroles (v & Hv & Hmissing).
  destruct (for_each_asserts_raise (ids ++ roles)
              (λ v, bool_decide (v ∈ columns (input_data_frame st)))
              NotInInputDataFrame st) as (v' & Hv' & Hb & Hrun).
  { exists v. split; [done|]. by apply bool_decide_eq_false. }
  apply bool_decide_eq_false in Hb.
  unfold init_simulation_with_data_frame. rewrite run_get_bind, run_bind.
  match goal with
  | |- context [when ?b ?m st] =>
      assert (∃ log, when b m st = (st, log, Ok tt)) as [log ->]
        by (destruct b; eexists; reflexivity)
  end.
  cbn [fst snd]. rewrite Hids, run_lift_bind, Hroles, run_lift_bind, run_bind, Hrun.
  cbn [fst snd]. exists v', (log ++ []). done.
Qed.

(** A table with no row: the loop over the entities stops at the first
    group entity, whose greatest role does not exist. *)
Lemma entities_loop_no_row l st :
  (∀ key e, (key, e) ∈ l → is_person e = false →
            ∃ rv roles, role_variable_by_entity_key !! key = Some rv
                        ∧ frame_getitem (input_data_frame st) rv = Ok roles
                        ∧ values roles = []) →
  (∃ key e, (key, e) ∈ l ∧ is_person e = false) →
  (for_each l init_entity st).2
  = Raise (ValueError "cannot convert float NaN to integer").
Proof.
  revert st. induction l as [|[key e] l IH]; intros st Hcols (k & e' & Hin & Hp).
  { inv Hin. }
  rewrite for_each_cons. destruct (is_person e) eqn:Hpe.
  - assert (Hhead : (init_entity (key, e) st).2 = Ok tt).
    { unfold init_entity. rewrite run_get_bind, Hpe. by rewrite run_update_entity. }
    rewrite bind_result_ok with (a := tt) by done.
    destruct (keeps_init_entity (key, e) st) as (Hdf & _).
    apply IH.
    + intros k1 e1 Hin1 Hp1. rewrite Hdf. apply (Hcols k1 e1); [by right|done].
    + apply elem_of_cons in Hin as [[= -> ->]|Hin]; [congruence|eauto].
  - apply bind_result_raise.
    destruct (Hcols key e) as (rv & roles & Hrv & Hroles & Hnil); [left|done|].
    assert (Hget : getitem role_variable_by_entity_key key = Ok rv)
      by (unfold getitem; by rewrite Hrv).
    assert (Hmax : max_plus_1 roles
                   = Raise (ValueError "cannot convert float NaN to integer"))
      by (unfold max_plus_1; by rewrite Hnil).
    unfold init_entity. rewrite run_get_bind, Hpe.
    rewrite run_lift_bind, Hget. cbv beta iota.
    rewrite run_lift_bind, Hroles. cbv beta iota.
    rewrite run_update_entity_bind. by rewrite run_lift_bind, Hmax.
Qed.

Lemma frame_getitem_no_row df name :
  (∀ n s, (n, s) ∈ items df → values s = []) →
  name ∈ columns df → ∃ s, frame_getitem df name = Ok s ∧ values s = [].
Proof.
  intros Hempty Hin. destruct (frame_getitem_is_Ok df name Hin) as [s Hs].
  exists s. split; [done|].
  apply frame_getitem_columns in Hs as [_ Hs]. by apply (Hempty name).
Qed.

Lemma init_no_row period tbs used st :
  NoDup (columns (input_data_frame st)) →
  (∀ n s, (n, s) ∈ items (input_data_frame st) → values s = []) →
  (∀ key e, entities (simulation st) !! key = Some e → is_person e = false →
            ∃ iv rv, id_variable_by_entity_key !! key = Some iv
                     ∧ role_variable_by_entity_key !! key = Some rv
                     ∧ iv ∈ columns (input_data_frame st)
                     ∧ rv ∈ columns (input_data_frame st)) →
  (∃ key e, entities (simulation st) !! key = Some e ∧ is_person e = false) →
  (init_simulation_with_data_frame period tbs used st).2
  = Raise (ValueError "cannot convert float NaN to integer").
Proof.
  intros Hnd Hempty Hgroups (key & e & He & Hp).
  destruct (group_variables_is_Ok id_variable_by_entity_key (simulation st))
    as (ids_l & Hids_l & Hids_in).
  { intros k e' He' Hp'. destruct (Hgroups k e' He' Hp') as (?&?&->&?); eauto. }
  destruct (group_variables_is_Ok role_variable_by_entity_key (simulation st))
    as (roles_l & Hroles_l & Hroles_in).
  { intros k e' He' Hp'. destruct (Hgroups k e' He' Hp') as (?&?&?&->&?); eauto. }
  unfold init_simulation_with_data_frame. rewrite run_get_bind.
  match goal with
  | |- context [(when ?b ?m ≫= ?f) st] =>
      destruct (bind_pure (when b m) f st tt) as [-> _];
        [destruct b; eexists; reflexivity|]
  end.
  rewrite Hids_l, run_lift_bind, Hroles_l, run_lift_bind.
  match goal with
  | |- context [(for_each ?l ?body ≫= ?f) st] =>
      destruct (bind_pure (for_each l body) f st tt) as [-> _]
  end.
  { exists []. apply (for_each_asserts _ (λ v, bool_decide (v ∈ columns (input_data_frame st)))).
    intros v Hv. apply bool_decide_eq_true.
    apply elem_of_app in Hv as [Hv|Hv].
    - destruct (Hids_in v Hv) as (k & e' & He' & Hp' & Hk).
      destruct (Hgroups k e' He' Hp') as (?&?&?&?&?&?). by simplify_eq.
    - destruct (Hroles_in v Hv) as (k & e' & He' & Hp' & Hk).
      destruct (Hgroups k e' He' Hp') as (?&?&?&?&?&?). by simplify_eq. }
  pose proof (filter_input_variables_is_Ok (column_by_name tbs) used st ids_l roles_l
                Hnd Hids_l Hroles_l) as Hfilter.
  pose proof (filter_input_variables_narrows (column_by_name tbs) used st ids_l roles_l
                Hids_l Hroles_l) as Hnarrow.
  rewrite bind_result_ok with (a := tt) by done.
  set (st1 := (filter_input_variables (column_by_name tbs) used st).1.1) in *.
  rewrite run_get_bind. apply bind_result_raise.
  assert (Hsim : simulation st1 = simulation st) by (by destruct Hnarrow).
  apply entities_loop_no_row.
  - intros k e' Hin Hp'. apply elem_of_map_to_list in Hin. rewrite Hsim in Hin.
    destruct (Hgroups k e' Hin Hp') as (iv & rv & Hiv & Hrv & Hiv_in & Hrv_in).
    destruct (group_variables_elem _ _ _ k e' Hroles_l Hin Hp') as (? & ? & Hin_r).
    simplify_eq.
    destruct (frame_getitem_no_row _ rv Hempty Hrv_in) as (roles & Hroles & Hnil).
    exists rv, roles. split; [done|]. split; [|done].
    by rewrite (narrowed_getitem _ _ _ rv Hnarrow) by (apply elem_of_app; by right).
  - exists key, e. split; [|done]. apply elem_of_map_to_list. by rewrite Hsim.
Qed.

Lemma for_each_ext_in {L S A} (l : list A) (body body' : A → py L S unit) s :
  (∀ x, x ∈ l → body x = body' x) → for_each l body s = for_each l body' s.
Proof.
  revert s. induction l as [|x l IH]; intros s Hb; [done|].
  rewrite !for_each_cons, !run_bind, (Hb x) by left.
  destruct (body' x s) as [[s1 l1] [[]|e]]; [|done]. cbn [fst snd].
  by rewrite IH by (intros; apply Hb; by right).
Qed.

Lemma same_outcome_bind {L S A B} (m m' : py L S A) (f : A → py L S B) s :
  same_outcome (m s) (m' s) → same_outcome ((m ≫= f) s) ((m' ≫= f) s).
Proof.
  rewrite !run_bind. destruct (m s) as [[s1 l1] r1], (m' s) as [[s2 l2] r2].
  intros [Hs Hr]. simpl in *. subst. by destruct r2.
Qed.

Lemma drop_calculated_used cbn ids roles used used' name :
  (name ∈ used ↔ name ∈ used') →
  drop_calculated cbn ids roles used name = drop_calculated cbn ids roles used' name.
Proof.
  intros Hiff. unfold drop_calculated.
  by rewrite (bool_decide_ext (name ∈ used) (name ∈ used')).
Qed.

Lemma filter_input_variables_used cbn used used' st :
  (∀ x, x ∈ columns (input_data_frame st) → x ∈ used ↔ x ∈ used') →
  same_outcome (filter_input_variables cbn used st)
    (filter_input_variables cbn used' st).
Proof.
  intros Hiff. unfold filter_input_variables.
  rewrite !run_get_bind, !run_lift_bind.
  destruct (group_variables id_variable_by_entity_key _) as [ids|]; [|done].
  cbv beta iota. rewrite !run_lift_bind.
  destruct (group_variables role_variable_by_entity_key _) as [roles|]; [|done].
  cbv beta iota. rewrite !run_info_bind. unfold same_outcome. cbn [fst snd].
  rewrite !(run_bind (for_each (columns (input_data_frame st))
                        (drop_unknown cbn ids roles))).
  pose proof (keeps_for_each (narrowed (ids ++ roles)) (columns (input_data_frame st))
                (drop_unknown cbn ids roles)
                (λ x _, keeps_drop_unknown cbn ids roles x) st) as Hnarrow.
  destruct (for_each (columns (input_data_frame st)) (drop_unknown cbn ids roles) st)
    as [[s1 l1] [[]|e]]; [|done].
  cbn [fst snd] in *. rewrite !run_get_bind.
  rewrite !(run_bind (for_each (columns (input_data_frame s1)) _)).
  rewrite (for_each_ext_in (columns (input_data_frame s1))
             (drop_calculated cbn ids roles used)
             (drop_calculated cbn ids roles used')); [done|].
  intros x Hx. apply drop_calculated_used, Hiff.
  apply narrowed_columns in Hnarrow. by apply (elem_of_sublist _ _ _ Hx Hnarrow).
Qed.

Lemma init_used period tbs used used' st :
  (∀ x, x ∈ columns (input_data_frame st) → x ∈ used ↔ x ∈ used') →
  same_outcome (init_simulation_with_data_frame period tbs used st)
    (init_simulation_with_data_frame period tbs used' st).
Proof.
  intros Hiff. unfold init_simulation_with_data_frame, same_outcome.
  rewrite !run_get_bind.
  do 2 match goal with
  | |- context [(when ?b ?m ≫= ?f) st] =>
      destruct (bind_pure (when b m) f st tt) as [-> ->];
        [destruct b; eexists; reflexivity|]
  end.
  rewrite !run_lift_bind.
  destruct (group_variables id_variable_by_entity_key _) as [ids|]; [|done].
  cbv beta iota. rewrite !run_lift_bind.
  destruct (group_variables role_variable_by_entity_key _) as [roles|]; [|done].
  cbv beta iota.
  match goal with
  | |- ((?m ≫= ?f) st).1.1 = ((?m ≫= ?f') st).1.1 ∧ _ =>
      rewrite !(run_bind m);
        destruct (m st) as [[s1 l1] [[]|e]] eqn:Hasserts; [|done]
  end.
  cbn [fst snd].
  assert (s1 = st) as ->.
  { change s1 with (s1, l1, Ok tt : result unit).1.1. rewrite <- Hasserts.
    symmetry. apply (keeps_apply eq). apply keeps_for_each; [apply _|].
    intros x _. apply keeps_lift, _. }
  by apply (same_outcome_bind _ _ _ st), filter_input_variables_used.
Qed.

(** *** The arrays given to the holders *)

#[global] Instance same_but_holder_preorder name : PreOrder (same_but_holder name).
Proof.
  split.
  - by intros st.
  - intros st1 st2 st3 (He12 & Ht12 & H12) (He23 & Ht23 & H23).
    split; [congruence|]. split; [congruence|].
    intros other p Hne. by rewrite H23, H12.
Qed.

Lemma keeps_holder_set_input period name array :
  keeps (same_but_holder name) (set_input name period array).
Proof.
  intros st. unfold set_input. rewrite run_get_bind. simpl.
  split; [done|]. split; [done|].
  intros other p Hne. simpl. apply lookup_insert_ne. congruence.
Qed.

Lemma keeps_holder_set_frame name df :
  keeps (same_but_holder name) (set_frame df).
Proof. apply keeps_modify. intros st. by split. Qed.

Lemma keeps_holder_init_column period name :
  keeps (same_but_holder name) (init_column period name).
Proof.
  unfold init_column. case_bool_decide; [apply keeps_ret, _|].
  repeat first
    [ apply keeps_ret, _ | apply keeps_get, _ | apply keeps_info, _
    | apply keeps_lift, _
    | apply keeps_holder_set_input
    | apply keeps_holder_set_frame
    | apply keeps_when; [apply _|]
    | apply keeps_bind; [apply _ | | intros ?] ].
  - match goal with a : (Column * string)%type |- _ => destruct a end.
    repeat first
      [ apply keeps_ret, _ | apply keeps_get, _ | apply keeps_info, _
      | apply keeps_lift, _
      | apply keeps_holder_set_input
      | apply keeps_holder_set_frame
      | apply keeps_when; [apply _|]
      | apply keeps_bind; [apply _ | | intros ?] ].
    destruct loc_writes_through; [apply keeps_lift, _ | apply keeps_ret, _].
Qed.

Lemma fill_default_columns name serie column st :
  columns (input_data_frame (fill_default name serie column st).1.1)
  = columns (input_data_frame st).
Proof.
  unfold fill_default. destruct (is_floating _); [|done].
  destruct (existsb isnull (values serie)).
  - unfold when. rewrite !run_bind_assoc, run_info_bind, run_bind_assoc, run_info_bind.
    rewrite run_bind_assoc, run_get_bind. unfold set_frame.
    rewrite run_modify_bind, run_get_bind. cbn [input_data_frame].
    rewrite run_lift_bind. cbn [fst snd].
    destruct (frame_getitem _ name); simpl; apply loc_setitem_columns.
  - unfold when. rewrite run_ret_bind, run_get_bind, run_lift_bind.
    by destruct (frame_getitem _ name).
Qed.

Lemma store_array_columns period name column key serie st :
  input_data_frame (store_array period name column key serie st).1.1
  = input_data_frame st.
Proof.
  unfold store_array. rewrite run_get_bind, run_lift_bind.
  destruct (getitem _ key); [|done]. cbv beta iota. rewrite run_lift_bind.
  destruct (entity_array _ _ _ _ _); [|done]. cbv beta iota. rewrite run_lift_bind.
  destruct (assert _ _); [|done]. cbv beta iota.
  unfold set_input. by rewrite run_get_bind.
Qed.

(** The array that [store_array] gives to a holder is as long as the
    entity of the holder counts members. *)
Lemma store_array_given period name column key serie st st1 log :
  store_array period name column key serie st = (st1, log, Ok tt) →
  Core.tax_benefit_system (simulation st1) = Core.tax_benefit_system (simulation st)
  ∧ ∃ e array,
      entities (simulation st1) !! key = Some e
      ∧ holder_input (simulation st1) !! (name, period) = Some array
      ∧ length array = count e.
Proof.
  unfold store_array. rewrite run_get_bind, run_lift_bind.
  destruct (getitem (entities (simulation st)) key) as [e|] eqn:He; [|done].
  cbv beta iota. rewrite run_lift_bind.
  destruct (entity_array _ _ _ _ _) as [array|]; [|done].
  cbv beta iota. rewrite run_lift_bind. unfold assert.
  case_bool_decide as Hlen; [|done]. cbv beta iota.
  unfold set_input. rewrite run_get_bind. simpl. intros [= <- _].
  split; [done|]. exists e, array. simpl. rewrite lookup_insert_eq.
  unfold getitem in He. destruct (entities (simulation st) !! key); by simplify_eq.
Qed.

Lemma when_info_inv (b : bool) (x : log_record) (st s1 : State) l r :
  when b (info x) st = (s1, l, r) → s1 = st.
Proof. destruct b; simpl; by intros [= <- _ _]. Qed.

Lemma init_column_given period name st st1 log :
  name ∉ group_labels →
  init_column period name st = (st1, log, Ok tt) →
  given_to_holder period st1 name
  ∧ columns (input_data_frame st1) = columns (input_data_frame st).
Proof.
  intros Hname. unfold init_column, group_labels in *.
  rewrite bool_decide_eq_false_2 by done.
  rewrite run_get_bind, run_lift_bind.
  destruct (frame_getitem (input_data_frame st) name) as [serie|]; [|done].
  cbv beta iota. rewrite run_lift_bind.
  destruct (get_or_new_holder (simulation st) name) as [[column key]|] eqn:Hholder;
    [|done].
  cbv beta iota. intros Hrun.
  apply bind_ok_inv in Hrun as (s1 & l1 & [] & l1' & Hwhen & Hrun & _).
  apply when_info_inv in Hwhen as ->.
  apply bind_ok_inv in Hrun as (s2 & l2 & [] & l2' & Hfill & Hrun & _).
  rewrite run_get_bind in Hrun.
  apply bind_ok_inv in Hrun as (s3 & l3 & serie' & l3' & Hserie & Hrun & _).
  assert (s3 = s2) as ->.
  { destruct loc_writes_through.
    - by apply lift_inv in Hserie as (-> & _).
    - by injection Hserie as <- _ _. }
  pose proof (keeps_entities_fill_default name serie column st) as Hkeep.
  rewrite Hfill in Hkeep. destruct Hkeep as [Hents Htbs]. simpl in Hents, Htbs.
  pose proof (fill_default_columns name serie column st) as Hcols.
  rewrite Hfill in Hcols. simpl in Hcols.
  pose proof (store_array_columns period name column key serie' s2) as Hdf.
  rewrite Hrun in Hdf. simpl in Hdf.
  apply store_array_given in Hrun as (Htbs1 & e & array & He & Harray & Hlen).
  split; [|by rewrite Hdf].
  unfold get_or_new_holder in Hholder.
  destruct (getitem (column_by_name _) name) as [column'|] eqn:Hcolumn; [|done].
  simpl in Hholder. destruct (getitem (entities _) _); [|done].
  simpl in Hholder. injection Hholder as -> <-.
  exists column, e, array. repeat split; try done.
  rewrite Htbs1, Htbs. unfold getitem in Hcolumn.
  destruct (column_by_name _ !! name); by simplify_eq.
Qed.

Lemma init_column_keeps_given period name other st st1 log :
  init_column period name st = (st1, log, Ok tt) →
  given_to_holder period st other → given_to_holder period st1 other.
Proof.
  intros Hrun Hgiven. destruct (decide (other = name)) as [->|Hne].
  - destruct (decide (name ∈ group_labels)) as [Hin|Hnin].
    + unfold init_column, group_labels in *.
      rewrite bool_decide_eq_true_2 in Hrun by done. by injection Hrun as <- _.
    + by destruct (init_column_given _ _ _ _ _ Hnin Hrun).
  - pose proof (keeps_holder_init_column period name st) as Hkeep.
    rewrite Hrun in Hkeep. cbn [fst] in Hkeep.
    destruct Hkeep as (Hents & Htbs & Hother).
    destruct Hgiven as (column & e & array & Hcolumn & He & Harray & Hlen).
    exists column, e, array.
    rewrite Htbs, Hents, (Hother other period Hne). by repeat split.
Qed.

Lemma columns_loop_given period l st st' log :
  for_each l (init_column period) st = (st', log, Ok tt) →
  columns (input_data_frame st') = columns (input_data_frame st)
  ∧ (∀ n, given_to_holder period st n → given_to_holder period st' n)
  ∧ ∀ n, n ∈ l → n ∉ group_labels → given_to_holder period st' n.
Proof.
  revert st log. induction l as [|x l IH]; intros st log Hrun.
  { injection Hrun as <- _. split; [done|]. split; [done|]. intros n Hn. inv Hn. }
  rewrite for_each_cons in Hrun.
  apply bind_ok_inv in Hrun as (s1 & l1 & [] & l2 & Hx & Hrun & _).
  destruct (IH _ _ Hrun) as (Hcols & Hkept & Hgiven).
  assert (Hcols1 : columns (input_data_frame s1) = columns (input_data_frame st)).
  { destruct (decide (x ∈ group_labels)) as [Hin|Hnin].
    - unfold init_column, group_labels in *.
      rewrite bool_decide_eq_true_2 in Hx by done. by injection Hx as <- _.
    - by destruct (init_column_given _ _ _ _ _ Hnin Hx). }
  split; [congruence|]. split.
  - intros n Hn. apply Hkept. by apply (init_column_keeps_given _ _ _ _ _ _ Hx).
  - intros n Hn Hnin. apply elem_of_cons in Hn as [->|Hn]; [|by apply Hgiven].
    apply Hkept. by destruct (init_column_given _ _ _ _ _ Hnin Hx).
Qed.

Lemma init_gives_arrays period tbs used st st' log :
  init_simulation_with_data_frame period tbs used st = (st', log, Ok tt) →
  ∀ n, n ∈ columns (input_data_frame st') → n ∉ group_labels →
       given_to_holder period st' n.
Proof.
  intros Hrun.
  apply init_ok in Hrun as (ids & roles & st1 & st2 & l1 & l2 & l3 & _ & _ & _ & _ & _
                            & Hloop).
  destruct (columns_loop_given _ _ _ _ _ Hloop) as (Hcols & _ & Hgiven).
  intros n Hn. rewrite Hcols in Hn. by apply Hgiven.
Qed.

(** *** The members of the group entities *)

Lemma init_members period tbs used st st' log key e :
  init_simulation_with_data_frame period tbs used st = (st', log, Ok tt) →
  rectangular (input_data_frame st) →
  entities (simulation st') !! key = Some e →
  is_person e = false →
  ∃ id_variable role_variable id_column role_column ids roles,
    id_variable_by_entity_key !! key = Some id_variable
    ∧ role_variable_by_entity_key !! key = Some role_variable
    ∧ frame_getitem (input_data_frame st) id_variable = Ok id_column
    ∧ frame_getitem (input_data_frame st) role_variable = Ok role_column
    ∧ members_entity_id e = Some ids
    ∧ members_legacy_role e = Some roles
    ∧ Forall2 stored_as (values id_column) ids
    ∧ Forall2 stored_as (values role_column) roles
    ∧ length ids = index (input_data_frame st)
    ∧ length roles = index (input_data_frame st)
    ∧ count e = length (distinct (values id_column))
    ∧ (count e ≤ index (input_data_frame st))%nat.
Proof.
  intros Hrun Hrect He Hp.
  pose proof (init_resolves _ _ _ _ _ _ Hrun key e He) as Hres.
  unfold resolved in Hres. rewrite Hp in Hres.
  destruct Hres as (rv & iv & roles & ids & g & n & mi & mr & Hrv & Hiv & Hroles & Hids
                    & Hcount & _ & _ & _ & Hunique & Hmi & Hsi & Hmr & Hsr).
  pose proof (frame_getitem_length _ _ _ Hrect Hroles) as Hlr.
  pose proof (frame_getitem_length _ _ _ Hrect Hids) as Hli.
  exists iv, rv, ids, roles, mi, mr. do 8 (split; [done|]).
  split; [by rewrite <- (Forall2_length _ _ _ Hsi)|].
  split; [by rewrite <- (Forall2_length _ _ _ Hsr)|].
  split; [done|]. rewrite Hcount, <- Hlr. apply length_filter.
Qed.

(** *** The rows and the columns of the table *)

#[global] Instance same_rows_fewer_columns_preorder : PreOrder same_rows_fewer_columns.
Proof.
  split.
  - by intros st.
  - intros st1 st2 st3 [Hi12 Hc12] [Hi23 Hc23]. split; [congruence|].
    by etrans.
Qed.

Lemma keeps_rows_drop_column name :
  keeps same_rows_fewer_columns (drop_column name).
Proof.
  intros st. unfold drop_column. rewrite run_get_bind, run_lift_bind.
  destruct (drop name (input_data_frame st)) as [df'|e] eqn:Hd; simpl; [|reflexivity].
  pose proof (columns_drop _ _ _ Hd) as Hcols. apply drop_spec in Hd as [Hi _].
  split; simpl; [done|]. rewrite Hcols. apply sublist_filter.
Qed.

Lemma keeps_rows_fill_default name serie column :
  keeps same_rows_fewer_columns (fill_default name serie column).
Proof.
  intros st. split; [|by rewrite fill_default_columns].
  unfold fill_default. destruct (is_floating _); [|done].
  destruct (existsb isnull (values serie)).
  - unfold when. rewrite !run_bind_assoc, run_info_bind, run_bind_assoc, run_info_bind.
    rewrite run_bind_assoc, run_get_bind. unfold set_frame.
    rewrite run_modify_bind, run_get_bind. cbn [input_data_frame].
    rewrite run_lift_bind. cbn [fst snd].
    by destruct (frame_getitem _ name); [destruct (assert _ _)|].
  - unfold when. rewrite run_ret_bind, run_get_bind, run_lift_bind.
    by destruct (frame_getitem _ name); [destruct (assert _ _)|].
Qed.

Lemma keeps_rows_set_simulation sim :
  keeps same_rows_fewer_columns (set_simulation sim).
Proof. apply keeps_modify. by intros st. Qed.

Ltac keeps_rows :=
  repeat first
    [ apply keeps_ret, _ | apply keeps_get, _ | apply keeps_info, _
    | apply keeps_lift, _
    | apply keeps_rows_drop_column
    | apply keeps_rows_fill_default
    | apply keeps_rows_set_simulation
    | apply keeps_when; [apply _|]
    | apply keeps_for_each; [apply _ | intros ? _]
    | apply keeps_bind; [apply _ | | intros ?]
    | match goal with
      | |- keeps _ (match ?x with _ => _ end) => destruct x
      | |- keeps _ (let '(_, _) := ?x in _) => destruct x
      end ].

Lemma keeps_rows_init period tbs used :
  keeps same_rows_fewer_columns (init_simulation_with_data_frame period tbs used).
Proof.
  unfold init_simulation_with_data_frame, filter_input_variables, drop_unknown,
    drop_calculated, init_entity, init_column, store_array, set_input, update_entity.
  keeps_rows.
Qed.

End init_extras.

(** X4. When the table lacks the identifier or the role column of a
    group entity of the simulation, [init_simulation_with_data_frame]
    stops at the assert of lines 529-531, before the table or the
    simulation is changed. *)
Theorem init_refuses_missing_group_column (N : numeric) (NP : numpy) (PD : pandas)
    (period : string) (tbs : TaxBenefitSystem) (used : list string)
    (st : Scenarios.State) (key : string) (e : Entity) (v : string) :
  (∀ k e', entities (Scenarios.simulation st) !! k = Some e' → is_person e' = false →
           is_Some (Scenarios.id_variable_by_entity_key !! k)
           ∧ is_Some (Scenarios.role_variable_by_entity_key !! k)) →
  entities (Scenarios.simulation st) !! key = Some e →
  is_person e = false →
  Scenarios.id_variable_by_entity_key !! key = Some v
  ∨ Scenarios.role_variable_by_entity_key !! key = Some v →
  v ∉ columns (Scenarios.input_data_frame st) →
  let r := Scenarios.init_simulation_with_data_frame period tbs used st in
  r.1.1 = st
  ∧ ∃ missing, (missing ∉ columns (Scenarios.input_data_frame st))
               ∧ r.2 = Raise (AssertionError (NotInInputDataFrame missing)).
Proof.
  intros Hkeys He Hp Hv Hmissing r.
  destruct (group_variables_is_Ok Scenarios.id_variable_by_entity_key
              (Scenarios.simulation st)) as (ids & Hids & _).
  { intros k e' He' Hp'. by destruct (Hkeys k e' He' Hp'). }
  destruct (group_variables_is_Ok Scenarios.role_variable_by_entity_key
              (Scenarios.simulation st)) as (roles & Hroles & _).
  { intros k e' He' Hp'. by destruct (Hkeys k e' He' Hp'). }
  destruct (init_missing_column period tbs used st ids roles Hids Hroles)
    as (missing & log & _ & Hm & Hrun).
  { exists v. split; [|done]. apply elem_of_app. destruct Hv as [Hv|Hv].
    - left. destruct (group_variables_elem _ _ _ key e Hids He Hp) as (? & ? & ?).
      by simplify_eq.
    - right. destruct (group_variables_elem _ _ _ key e Hroles He Hp) as (? & ? & ?).
      by simplify_eq. }
  subst r. rewrite Hrun. split; [done|]. by exists missing.
Qed.

Lemma init_refuses_missing_group_column_witness :
  let st := Example.start Example.no_role_column in
  let r := @Scenarios.init_simulation_with_data_frame Example.option_Z_numeric
             Example.keep_cells Example.writes_through "2009" Example.system [] st in
  r.1.1 = st
  ∧ ∃ missing, (missing ∉ columns Example.no_role_column)
               ∧ r.2 = Raise (AssertionError (NotInInputDataFrame missing)).
Proof.
  apply (init_refuses_missing_group_column Example.option_Z_numeric Example.keep_cells
           Example.writes_through "2009" Example.system []
           (Example.start Example.no_role_column) "menage" (Example.new_entity false)
           "quimen").
  - intros k e' He' Hp'.
    assert (k = "menage") as ->.
    { apply elem_of_map_to_list in He'. vm_compute in He'.
      repeat (apply elem_of_cons in He' as [[= ? ?]|He'];
              [subst; first [reflexivity | discriminate Hp']|]).
      inv He'. }
    split; by eexists.
  - reflexivity.
  - reflexivity.
  - by right.
  - apply (bool_decide_unpack (_ ∉ _)). vm_compute. exact I.
Defined.

(** X5. A table with no row cannot initialise a simulation that has a
    group entity: the greatest role of line 546 does not exist, and the
    run stops with the [ValueError] of [int(nan)]. *)
Theorem init_refuses_table_without_row (N : numeric) (NP : numpy) (PD : pandas)
    (period : string) (tbs : TaxBenefitSystem) (used : list string)
    (st : Scenarios.State) :
  NoDup (columns (Scenarios.input_data_frame st)) →
  (∀ n s, (n, s) ∈ items (Scenarios.input_data_frame st) → values s = []) →
  (∀ key e, entities (Scenarios.simulation st) !! key = Some e → is_person e = false →
            ∃ iv rv, Scenarios.id_variable_by_entity_key !! key = Some iv
                     ∧ Scenarios.role_variable_by_entity_key !! key = Some rv
                     ∧ iv ∈ columns (Scenarios.input_data_frame st)
                     ∧ rv ∈ columns (Scenarios.input_data_frame st)) →
  (∃ key e, entities (Scenarios.simulation st) !! key = Some e ∧ is_person e = false) →
  (Scenarios.init_simulation_with_data_frame period tbs used st).2
  = Raise (ValueError "cannot convert float NaN to integer").
Proof. apply init_no_row. Qed.

Lemma init_refuses_table_without_row_witness :
  (@Scenarios.init_simulation_with_data_frame Example.option_Z_numeric
     Example.keep_cells Example.writes_through "2009" Example.system []
     (Example.start Example.no_row)).2
  = Raise (ValueError "cannot convert float NaN to integer").
Proof.
  apply (init_refuses_table_without_row Example.option_Z_numeric Example.keep_cells
           Example.writes_through "2009" Example.system []
           (Example.start Example.no_row)).
  - apply (bool_decide_unpack (NoDup _)). vm_compute. exact I.
  - intros n s Hin. simpl in Hin.
    apply elem_of_cons in Hin as [[= -> ->]|Hin]; [done|].
    apply elem_of_cons in Hin as [[= -> ->]|Hin]; [done|]. inv Hin.
  - intros k e' He' Hp'.
    assert (k = "menage") as ->.
    { apply elem_of_map_to_list in He'. vm_compute in He'.
      repeat (apply elem_of_cons in He' as [[= ? ?]|He'];
              [subst; first [reflexivity | discriminate Hp']|]).
      inv He'. }
    exists "idmen", "quimen". repeat split; try reflexivity.
    + apply (bool_decide_unpack (_ ∈ _)). vm_compute. exact I.
    + apply (bool_decide_unpack (_ ∈ _)). vm_compute. exact I.
  - exists "menage", (Example.new_entity false). split; reflexivity.
Defined.

(** X6. After [init_simulation_with_data_frame] has returned, every
    column left in the table, the identifier and role columns apart, is
    a variable of the schema whose holder has been given, for the
    period, an array as long as the entity of the variable counts
    members (lines 584-589). *)
Theorem init_gives_arrays_of_entity_size (N : numeric) (NP : numpy) (PD : pandas)
    (period : string) (tbs : TaxBenefitSystem) (used : list string)
    (st st' : Scenarios.State) (log : list Scenarios.log_record) (n : string) :
  Scenarios.init_simulation_with_data_frame period tbs used st = (st', log, Ok tt) →
  n ∈ columns (Scenarios.input_data_frame st') →
  n ∉ group_labels →
  ∃ column e array,
    column_by_name (Core.tax_benefit_system (Scenarios.simulation st')) !! n
    = Some column
    ∧ entities (Scenarios.simulation st') !! entity_key column = Some e
    ∧ holder_input (Scenarios.simulation st') !! (n, period) = Some array
    ∧ length array = count e.
Proof. intros Hrun Hn Hgroup. by apply (init_gives_arrays period tbs used st st' log). Qed.

Lemma init_gives_arrays_of_entity_size_witness :
  let r := @Scenarios.init_simulation_with_data_frame Example.option_Z_numeric
             Example.keep_cells Example.writes_through "2009" Example.system []
             (Example.start Example.four_persons) in
  ∃ e array,
    entities (Scenarios.simulation r.1.1) !! "menage" = Some e
    ∧ holder_input (Scenarios.simulation r.1.1) !! ("loyer", "2009") = Some array
    ∧ length array = count e.
Proof.
  intros r.
  destruct (init_gives_arrays_of_entity_size Example.option_Z_numeric Example.keep_cells
              Example.writes_through "2009" Example.system []
              (Example.start Example.four_persons) r.1.1 r.1.2 "loyer")
    as (column & e & array & Hcolumn & He & Harray & Hlen).
  - vm_compute. reflexivity.
  - apply (bool_decide_unpack (_ ∈ _)). vm_compute. exact I.
  - apply (bool_decide_unpack (_ ∉ _)). vm_compute. exact I.
  - assert (Hkey : entity_key column = "menage").
    { assert (Hsys : column_by_name
                       (Core.tax_benefit_system (Scenarios.simulation r.1.1)) !! "loyer"
                     = Some (Example.input_variable "menage" (float_ 32) (VInt 0)))
        by (vm_compute; reflexivity).
      rewrite Hsys in Hcolumn. by injection Hcolumn as <-. }
    rewrite Hkey in He. exists e, array. split; [exact He|]. split; [exact Harray|].
    exact Hlen.
Defined.

(** ** The methods of the scenario *)

Section scenario_extras.
Context `{numeric}.
Import Scenarios.AbstractSurveyScenario.
Variable build_simulation : Scenario → bool → result Simulation.

Lemma run_get_simulation reference self :
  get_simulation build_simulation reference self
  = match simulation_slot reference self with
    | Some sim => (self, [], Ok sim)
    | None =>
        match build_simulation self reference with
        | Ok sim => (set_simulation reference sim self, [], Ok sim)
        | Raise e => (self, [], Raise e)
        end
    end.
Proof.
  unfold get_simulation, simulation_slot. rewrite run_get_bind.
  destruct (if reference then _ else _); [done|].
  unfold new_simulation. rewrite run_get_bind, run_lift_bind.
  destruct (build_simulation self reference); [|done].
  by rewrite run_modify_bind.
Qed.

Lemma simulation_slot_set reference reference' sim self :
  simulation_slot reference' (set_simulation reference sim self)
  = if bool_decide (reference' = reference) then Some sim
    else simulation_slot reference' self.
Proof. by destruct reference, reference'. Qed.

#[global] Instance fills_simulations_preorder : PreOrder fills_simulations.
Proof.
  split.
  - intros self. repeat split; try done. by left.
  - intros s1 s2 s3 (Hf12 & Ht12 & Hw12 & H12) (Hf23 & Ht23 & Hw23 & H23).
    split; [congruence|]. split; [congruence|]. split; [congruence|].
    intros reference. destruct (H12 reference) as [Heq|Hnone]; [|by right].
    destruct (H23 reference) as [Heq'|Hnone']; [left|right]; congruence.
Qed.

Lemma keeps_get_simulation reference :
  keeps fills_simulations (get_simulation build_simulation reference).
Proof.
  intros self. rewrite run_get_simulation.
  destruct (simulation_slot reference self) eqn:Hslot; [reflexivity|].
  destruct (build_simulation self reference); [|reflexivity].
  simpl. repeat split; try done. intros reference'.
  rewrite simulation_slot_set. case_bool_decide; [right; congruence|by left].
Qed.

Lemma bind_result_Ok_inv {L S A B} (m : py L S A) (f : A → py L S B) s b :
  ((m ≫= f) s).2 = Ok b → ∃ a, (m s).2 = Ok a ∧ (f a (m s).1.1).2 = Ok b.
Proof.
  rewrite run_bind. destruct (m s) as [[s1 l1] [a|e]]; simpl; [|done]. eauto.
Qed.

Lemma aggregate_operands_unknown v filter_by period reference self x :
  column_by_name (tax_benefit_system self) !! v = None →
  (aggregate_operands build_simulation (Some v) filter_by period reference self).2
  ≠ Ok x.
Proof.
  intros Hv Hrun. unfold aggregate_operands in Hrun. rewrite run_get_bind in Hrun.
  apply bind_result_Ok_inv in Hrun as (f' & Hf & Hrun).
  assert ((match filter_by with
           | Some _ => mret filter_by
           | None =>
               column ← lift (getitem_opt (column_by_name (tax_benefit_system self))
                                (Some v));
               lift (filtering_variable self (entity_key column))
           end : py Scenarios.log_record Scenario (option string)) self
          = (self, [], Ok f')) as Hpre.
  { destruct filter_by; [by injection Hf as <-|].
    rewrite run_lift_bind in Hf. simpl in Hf. unfold getitem in Hf.
    by rewrite Hv in Hf. }
  rewrite Hpre in Hrun. cbn [fst snd] in Hrun.
  apply bind_result_Ok_inv in Hrun as ([] & _ & Hrun). cbn [lift fst] in Hrun.
  apply bind_result_Ok_inv in Hrun as (sim & _ & Hrun).
  pose proof (keeps_get_simulation reference self) as (_ & Htbs & _).
  set (self1 := (get_simulation build_simulation reference self).1.1) in *.
  rewrite run_get_bind in Hrun.
  apply bind_result_Ok_inv in Hrun as ([] & _ & Hrun).
  match type of Hrun with
  | context [(when ?b ?m self1).1.1] =>
      assert ((when b m self1).1.1 = self1) as Hwhen by (by destruct b);
        rewrite Hwhen in Hrun; clear Hwhen
  end.
  apply bind_result_Ok_inv in Hrun as ([] & _ & Hrun). cbn [lift fst] in Hrun.
  rewrite run_lift_bind in Hrun. simpl in Hrun. unfold getitem in Hrun.
  by rewrite Htbs, Hv in Hrun.
Qed.

Lemma compute_aggregate_unknown v aggfunc filter_by period reference self :
  column_by_name (tax_benefit_system self) !! v = None →
  (∀ x, (compute_aggregate build_simulation (Some v) aggfunc filter_by period
           reference self).2 ≠ Ok x)
  ∧ (aggfunc ∈ ["count"; "mean"; "sum"] →
     compute_aggregate build_simulation (Some v) aggfunc None period reference self
     = (self, [], Raise (KeyError v))).
Proof.
  intros Hv. split.
  - intros x Hrun. unfold compute_aggregate in Hrun.
    apply bind_result_Ok_inv in Hrun as ([] & Hassert & Hrun). cbn [lift fst] in Hrun.
    apply bind_result_Ok_inv in Hrun as (ops & Hops & _).
    by apply aggregate_operands_unknown in Hops.
  - intros Hagg. unfold compute_aggregate.
    rewrite run_lift_bind, bool_decide_eq_true_2 by done. cbn [assert].
    unfold aggregate_operands. rewrite run_bind, run_get_bind, run_bind, run_lift_bind.
    simpl. unfold getitem. by rewrite Hv.
Qed.

Lemma compute_aggregate_run variable aggfunc filter_by period reference self :
  aggfunc ∈ ["count"; "mean"; "sum"] →
  (compute_aggregate build_simulation variable aggfunc filter_by period reference
     self).2
  = match (aggregate_operands build_simulation variable filter_by period reference
             self).2 with
    | Raise e => Raise e
    | Ok (value, weight, filter_dummy) =>
        if bool_decide (aggfunc = "sum")
        then sum_of_product3 value weight filter_dummy
        else if bool_decide (aggfunc = "mean")
        then s ← sum_of_product3 value weight filter_dummy;
             m ← sum_of_product2 weight filter_dummy;
             mret (fdiv s m)
        else sum_of_product2 weight filter_dummy
    end.
Proof.
  intros Hagg. unfold compute_aggregate.
  rewrite run_lift_bind, bool_decide_eq_true_2 by done. cbn [assert].
  rewrite run_bind.
  destruct (aggregate_operands _ _ _ _ _ self) as [[s1 l1] [[[value weight] f]|e]];
    [|done].
  cbn [fst snd]. repeat case_bool_decide; try done.
  exfalso. repeat (apply elem_of_cons in Hagg as [->|Hagg]; [done|]). inv Hagg.
Qed.

Lemma mean_sum_count variable filter_by period reference self s c :
  (compute_aggregate build_simulation variable "sum" filter_by period reference
     self).2 = Ok s →
  (compute_aggregate build_simulation variable "count" filter_by period reference
     self).2 = Ok c →
  (compute_aggregate build_simulation variable "mean" filter_by period reference
     self).2 = Ok (fdiv s c).
Proof.
  rewrite !compute_aggregate_run by (by repeat constructor).
  destruct (aggregate_operands _ _ _ _ _ self).2 as [[[value weight] f]|e]; [|done].
  rewrite !bool_decide_eq_true_2 by done.
  rewrite (bool_decide_eq_false_2 ("count" = "sum")) by done.
  rewrite (bool_decide_eq_false_2 ("count" = "mean")) by done.
  rewrite (bool_decide_eq_false_2 ("mean" = "sum")) by done.
  by intros -> ->.
Qed.

Lemma compute_aggregate_unknown_filter v column f aggfunc period reference self sim :
  aggfunc ∈ ["count"; "mean"; "sum"] →
  column_by_name (tax_benefit_system self) !! v = Some column →
  f ≠ "" →
  column_by_name (tax_benefit_system self) !! f = None →
  simulation_slot reference self = None →
  build_simulation self reference = Ok sim →
  compute_aggregate build_simulation (Some v) aggfunc (Some f) period reference self
  = (set_simulation reference sim self, [],
     Raise (AssertionError (NotInTaxBenefitSystem f))).
Proof.
  intros Hagg Hv Hf Hunknown Hslot Hbuild. unfold compute_aggregate.
  rewrite run_lift_bind, bool_decide_eq_true_2 by done. cbn [assert].
  rewrite run_bind. unfold aggregate_operands.
  rewrite run_get_bind, run_ret_bind, run_lift_bind.
  rewrite (bool_decide_eq_true_2 (is_Some (Some v))) by (by eexists). cbn [assert].
  rewrite (run_bind (get_simulation build_simulation reference)).
  rewrite run_get_simulation, Hslot, Hbuild. cbn [fst snd].
  rewrite run_get_bind.
  assert (Htruthy : truthy (Some f) = true) by (by destruct f).
  rewrite Htruthy. cbn [when]. rewrite run_lift_bind.
  rewrite bool_decide_eq_false_2; [done|].
  cbn [mbind option_bind]. destruct reference; simpl; rewrite Hunknown; by intros [? ?].
Qed.

Lemma aggregate_operands_weight_filter v column filter_by period reference self
    value weight filter_dummy :
  column_by_name (tax_benefit_system self) !! v = Some column →
  (aggregate_operands build_simulation (Some v) filter_by period reference self).2
  = Ok (value, weight, filter_dummy) →
  weight_and_filter build_simulation (entity_key column) filter_by period reference self
  = Ok (weight, filter_dummy).
Proof.
  intros Hv Hrun. unfold aggregate_operands in Hrun. rewrite run_get_bind in Hrun.
  assert (Hget : getitem (column_by_name (tax_benefit_system self)) v = Ok column)
    by (unfold getitem; by rewrite Hv).
  apply bind_result_Ok_inv in Hrun as (fb & Hfb & Hrun).
  assert ((match filter_by with
           | Some _ => mret filter_by
           | None =>
               column ← lift (getitem_opt (column_by_name (tax_benefit_system self))
                                (Some v));
               lift (filtering_variable self (entity_key column))
           end : py Scenarios.log_record Scenario (option string)) self
          = (self, [], match filter_by with
                       | None => filtering_variable self (entity_key column)
                       | Some _ => Ok filter_by
                       end)) as Hpre.
  { destruct filter_by; [done|]. rewrite run_lift_bind. cbn [getitem_opt].
    by rewrite Hget. }
  rewrite Hpre in Hfb, Hrun. cbn [fst snd] in Hfb, Hrun.
  apply bind_result_Ok_inv in Hrun as ([] & _ & Hrun). cbn [lift fst] in Hrun.
  apply bind_result_Ok_inv in Hrun as (sim & Hsim & Hrun).
  pose proof (keeps_get_simulation reference self) as (_ & Htbs & _).
  unfold weight_and_filter. rewrite Hfb. cbn [mbind result_bind].
  destruct (get_simulation build_simulation reference self) as [[self1 l1] r1].
  cbn [fst snd] in Hsim, Hrun, Htbs. subst r1.
  rewrite run_get_bind in Hrun.
  apply bind_result_Ok_inv in Hrun as ([] & _ & Hrun).
  match type of Hrun with
  | context [(when ?b ?m self1).1.1] =>
      assert ((when b m self1).1.1 = self1) as Hwhen by (by destruct b);
        rewrite Hwhen in Hrun; clear Hwhen
  end.
  apply bind_result_Ok_inv in Hrun as ([] & _ & Hrun). cbn [lift fst] in Hrun.
  rewrite run_lift_bind in Hrun. cbn [getitem_opt] in Hrun.
  rewrite Htbs, Hget in Hrun. cbv beta iota in Hrun.
  rewrite run_lift_bind in Hrun.
  destruct (getitem (default ∅ (weight_column_name_by_entity self1))
              (entity_key column)) as [entity_weight|]; [|done].
  cbv beta iota in Hrun. cbn [mbind result_bind].
  apply bind_result_Ok_inv in Hrun as (value' & _ & Hrun).
  match type of Hrun with
  | context [(?m self1).1.1] =>
      assert ((m self1).1.1 = self1) as Hvalue
        by (by case_bool_decide; [|rewrite run_info_bind]);
        rewrite Hvalue in Hrun; clear Hvalue
  end.
  rewrite run_lift_bind in Hrun.
  destruct (calculate_add sim entity_weight period) as [wl|]; [|done].
  cbv beta iota in Hrun. cbn [mbind result_bind].
  apply bind_result_Ok_inv in Hrun as (f' & Hf & Hrun).
  match type of Hrun with
  | context [(?m self1).1.1] =>
      assert ((m self1).1.1 = self1) as Hfd by (by destruct (truthy fb));
        rewrite Hfd in Hrun; clear Hfd
  end.
  injection Hrun as <- <- <-.
  destruct (truthy fb); [|by injection Hf as <-].
  cbn [lift snd] in Hf. by rewrite Hf.
Qed.

Lemma count_of_entity v1 v2 column1 column2 filter_by period reference self :
  column_by_name (tax_benefit_system self) !! v1 = Some column1 →
  column_by_name (tax_benefit_system self) !! v2 = Some column2 →
  entity_key column1 = entity_key column2 →
  let r1 := compute_aggregate build_simulation (Some v1) "count" filter_by period
              reference self in
  let r2 := compute_aggregate build_simulation (Some v2) "count" filter_by period
              reference self in
  (∃ x1, r1.2 = Ok x1) → (∃ x2, r2.2 = Ok x2) → r1.2 = r2.2.
Proof.
  intros Hv1 Hv2 Hkey r1 r2. subst r1 r2.
  rewrite !compute_aggregate_run by (by repeat constructor).
  rewrite !(bool_decide_eq_false_2 ("count" = "sum")) by done.
  rewrite !(bool_decide_eq_false_2 ("count" = "mean")) by done.
  destruct (aggregate_operands _ (Some v1) _ _ _ self).2
    as [[[value1 weight1] f1]|e1] eqn:H1; [|by intros [? ?]].
  destruct (aggregate_operands _ (Some v2) _ _ _ self).2
    as [[[value2 weight2] f2]|e2] eqn:H2; [|by intros _ [? ?]].
  intros _ _.
  apply (aggregate_operands_weight_filter _ _ _ _ _ _ _ _ _ Hv1) in H1.
  apply (aggregate_operands_weight_filter _ _ _ _ _ _ _ _ _ Hv2) in H2.
  rewrite Hkey in H1. rewrite H1 in H2. by injection H2 as <- <-.
Qed.

Section pivot_extras.
Context `{!pivoting}.

Lemma pivot_explicit_filter depth aggfunc columns difference f index period
    reference values self :
  aggfunc ∈ ["count"; "mean"; "sum"] →
  compute_pivot_table build_simulation (S depth) aggfunc columns difference (Some f)
    index period reference values self
  = (self, [], Raise (UnboundLocalError "tax_benefit_system")).
Proof.
  intros Hagg. cbn [compute_pivot_table].
  rewrite run_lift_bind, bool_decide_eq_true_2 by done. cbn [assert].
  rewrite run_get_bind. by rewrite run_lift_bind.
Qed.

Lemma pivot_difference_default_filter depth aggfunc columns index period reference
    values v0 column d f self :
  aggfunc ∈ ["count"; "mean"; "sum"] →
  first_value values = Ok v0 →
  column_by_name (tax_benefit_system self) !! v0 = Some column →
  filtering_variable_by_entity self = Some d →
  d !! entity_key column = Some f →
  is_Some (weight_column_name_by_entity self) →
  compute_pivot_table build_simulation (S (S depth)) aggfunc columns true None
    index period reference values self
  = (self, [], Raise (UnboundLocalError "tax_benefit_system")).
Proof.
  intros Hagg Hv0 Hcolumn Hd Hf Hw.
  generalize (pivot_explicit_filter depth aggfunc columns false f index period false
                (ValuesList match values with ValuesList l => l | _ => ["values"] end)
                self Hagg).
  generalize (S depth). intros n Hinner. cbn [compute_pivot_table].
  rewrite run_lift_bind, bool_decide_eq_true_2 by done. cbn [assert].
  assert (Hget : getitem (column_by_name (tax_benefit_system self)) v0 = Ok column)
    by (unfold getitem; by rewrite Hcolumn).
  assert (Hfilter : filtering_variable self (entity_key column) = Ok (Some f))
    by (unfold filtering_variable; by rewrite Hd, Hf).
  rewrite run_get_bind, run_lift_bind, run_lift_bind, Hv0. cbv beta iota.
  rewrite run_lift_bind, Hget. cbv beta iota.
  rewrite run_lift_bind, Hfilter. cbv beta iota.
  assert (Hvalues : match values with ValuesNone => false | _ => true end = true).
  { destruct values; [done| |]; done. }
  rewrite run_lift_bind, Hvalues. cbn [assert].
  rewrite run_lift_bind.
  rewrite (bool_decide_eq_true_2 (is_Some (weight_column_name_by_entity self)) Hw).
  cbn [assert]. rewrite run_bind. by rewrite Hinner.
Qed.

Lemma pivot_str_values depth aggfunc columns difference index period reference
    c rest self :
  aggfunc ∈ ["count"; "mean"; "sum"] →
  column_by_name (tax_benefit_system self) !! String c "" = None →
  compute_pivot_table build_simulation (S depth) aggfunc columns difference None
    index period reference (ValuesStr (String c rest)) self
  = (self, [], Raise (KeyError (String c ""))).
Proof.
  intros Hagg Hc. cbn [compute_pivot_table].
  rewrite run_lift_bind, bool_decide_eq_true_2 by done. cbn [assert].
  assert (Hget : getitem (column_by_name (tax_benefit_system self)) (String c "")
                 = Raise (KeyError (String c "")))
    by (unfold getitem; by rewrite Hc).
  rewrite run_get_bind, run_lift_bind, run_lift_bind. cbn [first_value].
  by rewrite run_lift_bind, Hget.
Qed.

End pivot_extras.

End scenario_extras.

(** X7. [self.simulation or self.new_simulation()]: once a simulation
    has been returned for a scenario, it is stored in the slot asked
    for, the other slot is as it was, and asking again returns the same
    simulation without building anything. *)
Theorem get_simulation_is_cached (N : numeric)
    (build build' : Scenarios.AbstractSurveyScenario.Scenario → bool → result Simulation)
    (reference : bool) (self self' : Scenarios.AbstractSurveyScenario.Scenario)
    (log : list Scenarios.log_record) (sim : Simulation) :
  Scenarios.AbstractSurveyScenario.get_simulation build reference self
  = (self', log, Ok sim) →
  simulation_slot reference self' = Some sim
  ∧ simulation_slot (negb reference) self' = simulation_slot (negb reference) self
  ∧ Scenarios.AbstractSurveyScenario.get_simulation build' reference self'
    = (self', [], Ok sim).
Proof.
  rewrite !run_get_simulation.
  destruct (simulation_slot reference self) as [sim0|] eqn:Hslot.
  - intros [= <- <- <-]. by rewrite Hslot.
  - destruct (build self reference) as [sim0|]; [|done]. intros [= <- <- <-].
    rewrite !simulation_slot_set, bool_decide_eq_true_2 by done.
    by rewrite bool_decide_eq_false_2 by (by destruct reference).
Qed.

Lemma get_simulation_is_cached_witness :
  let r := Scenarios.AbstractSurveyScenario.get_simulation
             ExampleScenario.build_simulation false ExampleScenario.scenario in
  Scenarios.AbstractSurveyScenario.get_simulation
    (λ _ _, Raise (EngineError "built again")) false r.1.1
  = (r.1.1, [], Ok ExampleScenario.computed_simulation).
Proof.
  intros r.
  destruct (get_simulation_is_cached Example.option_Z_numeric
              ExampleScenario.build_simulation
              (λ _ _, Raise (EngineError "built again")) false
              ExampleScenario.scenario r.1.1 r.1.2 ExampleScenario.computed_simulation)
    as (_ & _ & Hagain); [reflexivity|exact Hagain].
Defined.

(** X9. [compute_aggregate] on a variable that the schema of the
    scenario does not have never returns: lines 84 and 101 look the
    variable up in [column_by_name]. Without [filter_by] the call
    raises [KeyError] at line 84, before anything is built or
    changed. *)
Theorem compute_aggregate_unknown_variable (N : numeric)
    (build : Scenarios.AbstractSurveyScenario.Scenario → bool → result Simulation)
    (v aggfunc : string) (filter_by period : option string) (reference : bool)
    (self : Scenarios.AbstractSurveyScenario.Scenario) :
  column_by_name (Scenarios.AbstractSurveyScenario.tax_benefit_system self) !! v = None →
  (∀ x, (Scenarios.AbstractSurveyScenario.compute_aggregate build (Some v) aggfunc
           filter_by period reference self).2 ≠ Ok x)
  ∧ (aggfunc ∈ ["count"; "mean"; "sum"] →
     Scenarios.AbstractSurveyScenario.compute_aggregate build (Some v) aggfunc None
       period reference self
     = (self, [], Raise (KeyError v))).
Proof. apply compute_aggregate_unknown. Qed.

Lemma compute_aggregate_unknown_variable_witness :
  Scenarios.AbstractSurveyScenario.compute_aggregate ExampleScenario.build_simulation
    (Some "revenu") "sum" None None false ExampleScenario.scenario
  = (ExampleScenario.scenario, [], Raise (KeyError "revenu")).
Proof.
  apply (compute_aggregate_unknown_variable Example.option_Z_numeric
           ExampleScenario.build_simulation "revenu" "sum" None None false
           ExampleScenario.scenario).
  - reflexivity.
  - by repeat constructor.
Defined.

(** X10. From one state of the scenario, when the aggregates ['sum']
    and ['count'] of a variable are defined, its aggregate ['mean'] is
    defined and is the first divided by the second (lines 113-118). *)
Theorem mean_is_sum_over_count (N : numeric)
    (build : Scenarios.AbstractSurveyScenario.Scenario → bool → result Simulation)
    (variable filter_by period : option string) (reference : bool)
    (self : Scenarios.AbstractSurveyScenario.Scenario) (s c : F) :
  (Scenarios.AbstractSurveyScenario.compute_aggregate build variable "sum" filter_by
     period reference self).2 = Ok s →
  (Scenarios.AbstractSurveyScenario.compute_aggregate build variable "count" filter_by
     period reference self).2 = Ok c →
  (Scenarios.AbstractSurveyScenario.compute_aggregate build variable "mean" filter_by
     period reference self).2 = Ok (fdiv s c).
Proof. apply mean_sum_count. Qed.

Lemma mean_is_sum_over_count_witness :
  (Scenarios.AbstractSurveyScenario.compute_aggregate ExampleScenario.build_simulation
     (Some "loyer") "mean" None None false ExampleScenario.scenario).2
  = Ok (Some 16%Z).
Proof.
  apply (mean_is_sum_over_count Example.option_Z_numeric
           ExampleScenario.build_simulation (Some "loyer") None None false
           ExampleScenario.scenario (Some 80%Z) (Some 5%Z)).
  - vm_compute. reflexivity.
  - vm_compute. reflexivity.
Defined.

(** X11. [compute_pivot_table] cannot be given a [filter_by]: line 126
    reads the local name [tax_benefit_system], which line 125 binds
    only when [filter_by] is [None], so the call raises
    [UnboundLocalError] before anything is computed. *)
Theorem compute_pivot_table_explicit_filter (N : numeric)
    (P : Scenarios.AbstractSurveyScenario.pivoting)
    (build : Scenarios.AbstractSurveyScenario.Scenario → bool → result Simulation)
    (depth : nat) (aggfunc : string) (columns index : option (list string))
    (difference reference : bool) (f : string) (period : option string)
    (values : Scenarios.AbstractSurveyScenario.values_arg)
    (self : Scenarios.AbstractSurveyScenario.Scenario) :
  aggfunc ∈ ["count"; "mean"; "sum"] →
  Scenarios.AbstractSurveyScenario.compute_pivot_table build (S depth) aggfunc columns
    difference (Some f) index period reference values self
  = (self, [], Raise (UnboundLocalError "tax_benefit_system")).
Proof. apply pivot_explicit_filter. Qed.

Lemma compute_pivot_table_explicit_filter_witness :
  @Scenarios.AbstractSurveyScenario.compute_pivot_table Example.option_Z_numeric
    ExampleScenario.build_simulation ExampleScenario.totals
    5 "sum" None false (Some "champm") (Some ["champm"]) None false
    (Scenarios.AbstractSurveyScenario.ValuesList ["loyer"]) ExampleScenario.scenario
  = (ExampleScenario.scenario, [], Raise (UnboundLocalError "tax_benefit_system")).
Proof.
  apply (compute_pivot_table_explicit_filter Example.option_Z_numeric
           ExampleScenario.totals ExampleScenario.build_simulation 4 "sum").
  by repeat constructor.
Defined.

(** X12. The difference mode of [compute_pivot_table] raises
    [UnboundLocalError] as soon as the entity of the first value has a
    filtering variable: lines 145-148 pass the filter found at line 127
    on to the two calls, which then read the unbound name of line
    126. *)
Theorem compute_pivot_table_difference_with_filter (N : numeric)
    (P : Scenarios.AbstractSurveyScenario.pivoting)
    (build : Scenarios.AbstractSurveyScenario.Scenario → bool → result Simulation)
    (depth : nat) (aggfunc : string) (columns index : option (list string))
    (period : option string) (reference : bool)
    (values : Scenarios.AbstractSurveyScenario.values_arg) (v0 : string)
    (column : Column) (d : gmap string string) (f : string)
    (self : Scenarios.AbstractSurveyScenario.Scenario) :
  aggfunc ∈ ["count"; "mean"; "sum"] →
  Scenarios.AbstractSurveyScenario.first_value values = Ok v0 →
  column_by_name (Scenarios.AbstractSurveyScenario.tax_benefit_system self) !! v0
  = Some column →
  Scenarios.AbstractSurveyScenario.filtering_variable_by_entity self = Some d →
  d !! entity_key column = Some f →
  is_Some (Scenarios.AbstractSurveyScenario.weight_column_name_by_entity self) →
  Scenarios.AbstractSurveyScenario.compute_pivot_table build (S (S depth)) aggfunc
    columns true None index period reference values self
  = (self, [], Raise (UnboundLocalError "tax_benefit_system")).
Proof. apply pivot_difference_default_filter. Qed.

Lemma compute_pivot_table_difference_with_filter_witness :
  @Scenarios.AbstractSurveyScenario.compute_pivot_table Example.option_Z_numeric
    ExampleScenario.build_simulation ExampleScenario.totals
    5 "sum" None true None (Some ["champm"]) None false
    (Scenarios.AbstractSurveyScenario.ValuesList ["loyer"])
    ExampleScenario.filtered_scenario
  = (ExampleScenario.filtered_scenario, [],
     Raise (UnboundLocalError "tax_benefit_system")).
Proof.
  apply (compute_pivot_table_difference_with_filter Example.option_Z_numeric
           ExampleScenario.totals ExampleScenario.build_simulation 3 "sum" None
           (Some ["champm"]) None false
           (Scenarios.AbstractSurveyScenario.ValuesList ["loyer"]) "loyer"
           (Example.input_variable "menage" (float_ 32) (VInt 0))
           {["menage" := "champm"]} "champm").
  - by repeat constructor.
  - reflexivity.
  - vm_compute. reflexivity.
  - reflexivity.
  - reflexivity.
  - by eexists.
Defined.

(** X13. With a [str] for [values], line 126 looks up the first
    character of the string: unless the schema has a variable of that
    one-letter name, [compute_pivot_table] raises [KeyError] on that
    character before anything is computed. *)
Theorem compute_pivot_table_str_values (N : numeric)
    (P : Scenarios.AbstractSurveyScenario.pivoting)
    (build : Scenarios.AbstractSurveyScenario.Scenario → bool → result Simulation)
    (depth : nat) (aggfunc : string) (columns index : option (list string))
    (difference reference : bool) (period : option string) (c : ascii) (rest : string)
    (self : Scenarios.AbstractSurveyScenario.Scenario) :
  aggfunc ∈ ["count"; "mean"; "sum"] →
  column_by_name (Scenarios.AbstractSurveyScenario.tax_benefit_system self)
    !! String c "" = None →
  Scenarios.AbstractSurveyScenario.compute_pivot_table build (S depth) aggfunc columns
    difference None index period reference
    (Scenarios.AbstractSurveyScenario.ValuesStr (String c rest)) self
  = (self, [], Raise (KeyError (String c ""))).
Proof. apply pivot_str_values. Qed.

Lemma compute_pivot_table_str_values_witness :
  @Scenarios.AbstractSurveyScenario.compute_pivot_table Example.option_Z_numeric
    ExampleScenario.build_simulation ExampleScenario.totals
    5 "sum" None false None (Some ["champm"]) None false
    (Scenarios.AbstractSurveyScenario.ValuesStr "loyer") ExampleScenario.scenario
  = (ExampleScenario.scenario, [], Raise (KeyError "l")).
Proof.
  apply (compute_pivot_table_str_values Example.option_Z_numeric
           ExampleScenario.totals ExampleScenario.build_simulation 4 "sum").
  - by repeat constructor.
  - vm_compute. reflexivity.
Defined.

(** ** The periods of [new_simulation], and [neutralize_variables] *)

Section new_simulation_extras.
Import NewSimulation.

(** The regex of line 350 on some period strings. *)
Lemma findall_examples :
  findall "2008" = [""] ∧ findall "2008-03" = ["03"] ∧ findall "2008-Q2" = ["Q2"]
  ∧ findall "2008-13" = [] ∧ findall "1899" = [] ∧ findall "2008-Q5" = [].
Proof. repeat split; reflexivity. Qed.

Lemma optional_sub_period_shape rest t :
  t ∈ optional_sub_period rest → t = "" ∨ ∃ x y, t = String x (String y "").
Proof.
  unfold optional_sub_period.
  destruct rest as [|h [|x [|y rest']]];
    try (destruct (Surveys.at_end _); intros Ht;
         [apply list_elem_of_singleton in Ht; by left | inv Ht]).
  destruct (_ && _ && _).
  - intros Ht. apply list_elem_of_singleton in Ht. right. eauto.
  - destruct (Surveys.at_end _); intros Ht;
      [apply list_elem_of_singleton in Ht; by left | inv Ht].
Qed.

Lemma findall_shape s t :
  t ∈ findall s → t = "" ∨ ∃ x y, t = String x (String y "").
Proof.
  unfold findall. destruct s as [|a [|b [|c [|d rest]]]].
  1-4: intros Ht; inv Ht.
  destruct (_ && _ && _); [apply (optional_sub_period_shape rest)|intros Ht; inv Ht].
Qed.

Lemma quarter_never_found s : "Q" ∉ findall s.
Proof. intros Hq. apply findall_shape in Hq as [Hq|(x & y & Hq)]; discriminate. Qed.

Lemma initialisation_periods_one period : initialisation_periods period = Ok [period].
Proof.
  unfold initialisation_periods.
  destruct (match findall period with [] => true | _ => _ end); [done|].
  by rewrite bool_decide_eq_false_2 by apply quarter_never_found.
Qed.

Lemma neutralize_variable_run used non weights name column calls :
  neutralize_variable (Some used) (Some non) (Some weights) (name, column) calls
  = (if is_input_variable column && negb (bool_decide (name ∈ used))
        && negb (bool_decide (name ∈ non))
        && negb (bool_decide (name ∈ Scenarios.dict_values weights))
     then calls ++ [name] else calls, [], Ok tt).
Proof.
  unfold neutralize_variable, is_input_variable.
  destruct (is_simple_formula _); [|done]. simpl.
  destruct (function _); simpl; [done|].
  rewrite run_lift_bind. simpl. case_bool_decide; [done|]. simpl.
  rewrite run_lift_bind. simpl. case_bool_decide; [done|]. simpl.
  rewrite run_lift_bind. by case_bool_decide.
Qed.

Lemma neutralize_loop used non weights l calls :
  for_each l (neutralize_variable (Some used) (Some non) (Some weights)) calls
  = (calls ++ (filter (λ item : string * Column,
                         is_input_variable item.2 = true ∧ (item.1 ∉ used)
                         ∧ (item.1 ∉ non)
                         ∧ (item.1 ∉ Scenarios.dict_values weights))
                 l).*1, [], Ok tt).
Proof.
  revert calls. induction l as [|[name column] l IH]; intros calls.
  { simpl. by rewrite app_nil_r. }
  rewrite for_each_cons, run_bind, neutralize_variable_run. cbn [fst snd].
  rewrite IH. cbn [fst snd].
  match goal with
  | |- context [filter ?P (?x :: l)] => destruct (decide (P x)) as [HP|HP]
  end.
  - rewrite filter_cons_True by done. destruct HP as (Hi & Hu & Hn & Hw).
    cbn [fst snd] in *. rewrite Hi, !bool_decide_eq_false_2 by done. simpl.
    by rewrite <- app_assoc.
  - rewrite filter_cons_False by done.
    destruct (is_input_variable column) eqn:Hi; simpl; [|done].
    repeat case_bool_decide; simpl; try done. exfalso. by apply HP.
Qed.

Lemma neutralize_variable_without_list used weights name column calls :
  neutralize_variable (Some used) None weights (name, column) calls
  = (calls, [],
     if is_input_variable column && negb (bool_decide (name ∈ used))
     then Raise (TypeError "argument of type 'NoneType' is not iterable")
     else Ok tt).
Proof.
  unfold neutralize_variable, is_input_variable.
  destruct (is_simple_formula _); [|done]. simpl.
  destruct (function _); simpl; [done|].
  rewrite run_lift_bind. simpl. by case_bool_decide.
Qed.

Lemma neutralize_loop_without_list used weights l calls :
  for_each l (neutralize_variable (Some used) None weights) calls
  = (calls, [],
     if existsb (λ item : string * Column,
                   is_input_variable item.2 && negb (bool_decide (item.1 ∈ used))) l
     then Raise (TypeError "argument of type 'NoneType' is not iterable")
     else Ok tt).
Proof.
  induction l as [|[name column] l IH]; [done|].
  rewrite for_each_cons, run_bind, neutralize_variable_without_list. cbn [fst snd existsb].
  destruct (_ && _); [done|]. by rewrite IH.
Qed.

End new_simulation_extras.

(** X14. Lines 346-393 of [new_simulation] give the table of a period
    to [init_simulation_with_data_frame] exactly once, for that very
    period, whatever the period is written like: the list that
    [findall] returns never holds the string ['Q'], so the quarter
    branch of line 368 is never taken and a quarter is not expanded
    into its months. *)
Theorem one_initialisation_per_table (N : numeric) (NP : numpy) (PD : pandas)
    (period : string) (tbs : TaxBenefitSystem) (used : list string)
    (st : Scenarios.State) :
  NewSimulation.initialisation_periods period = Ok [period]
  ∧ NewSimulation.fill_from_table period tbs used st
    = Scenarios.init_simulation_with_data_frame period tbs used st.
Proof.
  split; [apply initialisation_periods_one|].
  unfold NewSimulation.fill_from_table.
  rewrite run_lift_bind, initialisation_periods_one, for_each_cons, run_bind.
  destruct (Scenarios.init_simulation_with_data_frame period tbs used st)
    as [[st' log] [[]|e]]; [|done].
  simpl. by rewrite app_nil_r.
Qed.

(** X15. With its three lists set, [neutralize_variables] returns
    normally and calls [neutralize_column], in the order of the schema,
    on exactly the input variables (a simple formula without a
    function) that are neither used as input, nor non-neutralizable,
    nor the weight of an entity: whether the table has brought data for
    the variable plays no part. *)
Theorem neutralize_variables_neutralizes
    (used non : list string) (weights : gmap string string)
    (tbs : TaxBenefitSystem) (calls : list string) :
  NewSimulation.neutralize_variables (Some used) (Some non) (Some weights) tbs calls
  = (calls ++ (filter (λ item : string * Column,
                         NewSimulation.is_input_variable item.2 = true
                         ∧ (item.1 ∉ used) ∧ (item.1 ∉ non)
                         ∧ (item.1 ∉ Scenarios.dict_values weights))
                 (map_to_list (column_by_name tbs))).*1, [], Ok tt).
Proof. apply neutralize_loop. Qed.

(** X16. With [non_neutralizable_variables] left at [None], the
    default of the class, [neutralize_variables] neutralizes nothing:
    it raises [TypeError] as soon as the schema has an input variable
    that is not used as input, and does nothing otherwise. *)
Theorem neutralize_variables_without_list
    (used : list string) (weights : option (gmap string string))
    (tbs : TaxBenefitSystem) (calls : list string) :
  NewSimulation.neutralize_variables (Some used) None weights tbs calls
  = (calls, [],
     if existsb (λ item : string * Column,
                   NewSimulation.is_input_variable item.2
                   && negb (bool_decide (item.1 ∈ used)))
          (map_to_list (column_by_name tbs))
     then Raise (TypeError "argument of type 'NoneType' is not iterable")
     else Ok tt).
Proof. apply neutralize_loop_without_list. Qed.

(** ** The other methods of [Survey] *)

Section survey_extras.
Import Surveys SurveyMethods.

Lemma get_values_selection self fs variables table lowercase rename_ident :
  (get_values self fs (Some variables) table lowercase rename_ident).2
  = match (get_values self fs None table lowercase rename_ident).2 with
    | Raise e => Raise e
    | Ok whole =>
        if bool_decide ((list_to_set variables : gset string)
                          ∖ list_to_set (columns whole) = ∅)
        then Ok (select_columns
                   (elements ((list_to_set variables : gset string)
                                ∩ list_to_set (columns whole))) whole)
        else Raise (Exception "The following variable(s) are missing")
    end.
Proof.
  unfold get_values. destruct (hdf5_file_path self); [|done].
  destruct (fs !! _); [|done]. destruct (_ !! table); [|done].
  destruct (if rename_ident then _ else _) as [df log]. simpl.
  by case_bool_decide.
Qed.

Lemma items_select_columns names df n s :
  (n, s) ∈ items (select_columns names df) ↔ (n, s) ∈ items df ∧ n ∈ names.
Proof.
  unfold select_columns. simpl. rewrite list_elem_of_bind. split.
  - intros (name & Hin & Hname). apply list_elem_of_filter in Hin as [Heq Hin].
    simpl in Heq. by subst.
  - intros [Hin Hn]. exists n. split; [|done]. by apply list_elem_of_filter.
Qed.

Lemma filter_none {A} (P : A → Prop) `{!∀ x, Decision (P x)} (l : list A) :
  (∀ x, x ∈ l → ¬ P x) → filter P l = [].
Proof.
  induction l as [|x l IH]; intros Hl; [done|].
  rewrite filter_cons_False by (apply Hl; left). apply IH. intros y Hy. apply Hl.
  by right.
Qed.

Lemma columns_select_columns_NoDup names df :
  NoDup (columns df) → (∀ n, n ∈ names → n ∈ columns df) →
  columns (select_columns names df) = names.
Proof.
  intros Hnd Hin. unfold columns, select_columns. simpl.
  induction names as [|n names IH]; [done|].
  cbn [mbind list_bind]. rewrite fmap_app, IH by (intros; apply Hin; by right).
  assert (Hone : (filter (λ c : string * Series, c.1 = n) (items df)).*1 = [n]).
  { assert (Hn : n ∈ (items df).*1) by (apply Hin; left).
    fold (columns df) in *. unfold columns in *.
    clear IH Hin. induction (items df) as [|c its IHits]; [inv Hn|].
    rewrite fmap_cons in Hnd, Hn. apply NoDup_cons in Hnd as [Hc Hnd].
    rewrite filter_cons. destruct (decide (c.1 = n)) as [Heq|Hne].
    - rewrite fmap_cons, Heq. f_equal.
      rewrite filter_none; [done|].
      intros c' Hc' Heq'. apply Hc. rewrite Heq, <- Heq'.
      apply list_elem_of_fmap. by exists c'.
    - apply IHits; [done|]. apply elem_of_cons in Hn as [Hn|Hn]; [congruence|done]. }
  by rewrite Hone.
Qed.

Lemma get_values_selects self fs variables table lowercase rename_ident whole :
  (get_values self fs None table lowercase rename_ident).2 = Ok whole →
  ((∃ df', (get_values self fs (Some variables) table lowercase rename_ident).2
           = Ok df')
   ↔ ∀ v, v ∈ variables → v ∈ columns whole)
  ∧ ∀ df', (get_values self fs (Some variables) table lowercase rename_ident).2
           = Ok df' →
           index df' = index whole
           ∧ (∀ n s, (n, s) ∈ items df' ↔ (n, s) ∈ items whole ∧ n ∈ variables)
           ∧ (NoDup (columns whole) → columns df' ≡ₚ remove_dups variables).
Proof.
  intros Hwhole. rewrite get_values_selection, Hwhole.
  assert (Hdiff : (list_to_set variables : gset string)
                    ∖ list_to_set (columns whole) = ∅
                  ↔ ∀ v, v ∈ variables → v ∈ columns whole).
  { split.
    - intros Hd v Hv. destruct (decide (v ∈ columns whole)) as [|Hn]; [done|].
      assert (v ∈ (list_to_set variables : gset string) ∖ list_to_set (columns whole))
        as Hin by (apply elem_of_difference; by rewrite !elem_of_list_to_set).
      rewrite Hd in Hin. by apply not_elem_of_empty in Hin.
    - intros Hall. apply leibniz_equiv. apply elem_of_equiv_empty. intros v Hv.
      apply elem_of_difference in Hv as [Hv Hn]. rewrite !elem_of_list_to_set in *.
      by apply Hn, Hall. }
  split.
  - rewrite <- Hdiff. case_bool_decide; split; try done.
    + by eexists.
    + by intros [? ?].
  - intros df'. case_bool_decide as Hd; [|done]. intros [= <-].
    pose proof (proj1 Hdiff Hd) as Hall. clear Hd. rename Hall into Hd.
    assert (Hels : ∀ n, n ∈ elements ((list_to_set variables : gset string)
                                        ∩ list_to_set (columns whole))
                        ↔ n ∈ variables).
    { intros n. rewrite elem_of_elements, elem_of_intersection, !elem_of_list_to_set.
      split; [by intros [? ?]|]. intros Hn. split; [done|by apply Hd]. }
    split; [done|]. split.
    + intros n s. rewrite items_select_columns. by rewrite Hels.
    + intros Hnd. rewrite columns_select_columns_NoDup; [|done|].
      2:{ intros n Hn. apply Hd. by apply Hels. }
      apply NoDup_Permutation; [apply NoDup_elements|apply NoDup_remove_dups|].
      intros n. by rewrite Hels, elem_of_remove_dups.
Qed.

Lemma ident_is_not_matched : ident_re_match "ident" = false.
Proof. reflexivity. Qed.

Lemma get_value_first_ident {V} (self : SurveyObject V) fs ts path store table df
    variable :
  tables self = Some ts →
  hdf5_file_path (survey self) = Some path →
  fs !! path = Some store →
  store !! table = Some df →
  first_ident (columns df) = Some variable →
  (get_value self fs variable table).2
  = Raise (Exception "The following variable(s) are missing").
Proof.
  intros Hts Hpath Hfs Hstore Hfirst. unfold get_value. rewrite Hts.
  assert (Hwhole : (get_values (survey self) fs None table false true).2
                   = Ok (rename variable "ident" df)).
  { unfold get_values. rewrite Hpath, Hfs, Hstore, rename_ident_loop_first, Hfirst.
    done. }
  assert (Hr : (get_values (survey self) fs (Some [variable]) table false true).2
               = Raise (Exception "The following variable(s) are missing")).
  { rewrite get_values_selection, Hwhole. rewrite bool_decide_eq_false_2; [done|].
    intros Hd. apply first_ident_matches in Hfirst as [Hmatch _].
    assert (variable ∈ (list_to_set [variable] : gset string)
                         ∖ list_to_set (columns (rename variable "ident" df))) as Hin.
    { apply elem_of_difference. rewrite !elem_of_list_to_set. split; [left|].
      rewrite columns_rename. intros Hin. apply list_elem_of_fmap in Hin as (n & Hn & _).
      destruct (decide (n = variable)) as [->|Hne]; [|done].
      rewrite Hn in Hmatch. by rewrite ident_is_not_matched in Hmatch. }
    rewrite Hd in Hin. by apply not_elem_of_empty in Hin. }
  destruct (get_values (survey self) fs (Some [variable]) table false true) as [log r].
  exact Hr.
Qed.

Lemma fmap_collision {A B} (f : A → B) (l : list A) x y :
  x ∈ l → y ∈ l → x ≠ y → f x = f y → ¬ NoDup (f <$> l).
Proof.
  intros Hx Hy Hne Heq Hnd.
  apply list_elem_of_split in Hx as (l1 & l2 & ->).
  rewrite fmap_app, fmap_cons in Hnd. apply NoDup_app in Hnd as (_ & Hdisj & Hnd).
  apply NoDup_cons in Hnd as [Hnot _].
  apply elem_of_app in Hy as [Hy|Hy].
  - apply (Hdisj (f x)); [|left]. rewrite Heq. apply list_elem_of_fmap. by exists y.
  - apply elem_of_cons in Hy as [->|Hy]; [done|].
    apply Hnot. rewrite Heq. apply list_elem_of_fmap. by exists y.
Qed.

Lemma get_values_collision self fs path store table df c :
  hdf5_file_path self = Some path →
  fs !! path = Some store →
  store !! table = Some df →
  first_ident (columns df) = Some c →
  "ident" ∈ columns df →
  (get_values self fs None table false true).2 = Ok (rename c "ident" df)
  ∧ ¬ NoDup (columns (rename c "ident" df)).
Proof.
  intros Hpath Hfs Hstore Hfirst Hident. split.
  - unfold get_values. by rewrite Hpath, Hfs, Hstore, rename_ident_loop_first, Hfirst.
  - rewrite columns_rename. apply first_ident_matches in Hfirst as [Hmatch Hc].
    apply (fmap_collision _ _ c "ident"); try done.
    + intros ->. by rewrite ident_is_not_matched in Hmatch.
    + rewrite decide_True by done. rewrite decide_False; [done|].
      intros <-. by rewrite ident_is_not_matched in Hmatch.
Qed.

Lemma for_each_info {L S A} (f : A → L) (l : list A) (s : S) :
  for_each l (λ x, info (f x) : py L S unit) s = (s, f <$> l, Ok tt).
Proof.
  induction l as [|x l IH]; [done|].
  rewrite for_each_cons, run_info_bind, IH. done.
Qed.

(** [get_columns] of a survey that has a path returns, and leaves the
    index alone. *)
Lemma get_columns_returns self path table rename_ident w :
  hdf5_file_path self = Some path →
  ∃ w' log columns,
    get_columns self table rename_ident w = (w', log, Ok columns)
    ∧ tables_index w' = tables_index w.
Proof.
  intros Hpath. unfold get_columns, open_store. rewrite Hpath.
  rewrite run_bind_assoc, run_get_bind, run_bind_assoc, run_modify_bind, run_ret_bind.
  destruct (default ∅ (files w !! path) !! table) as [df|].
  - rewrite run_info_bind.
    destruct (if rename_ident then _ else _) as [df' log].
    rewrite run_bind, for_each_info. cbn [fst snd]. by eexists _, _, _.
  - by eexists _, _, _.
Qed.

(** The tables whose indexed columns hold [variable]. *)
Lemma find_tables_loop_cached self variable tables container w :
  (∀ t, t ∈ tables → is_Some (tables_index w !! t)) →
  find_tables_loop self variable tables container w
  = (w, [], Ok (container
                  ++ filter (λ t, variable ∈ default [] (tables_index w !! t)) tables)).
Proof.
  revert container. induction tables as [|t tables IH]; intros container Hall.
  { simpl. by rewrite app_nil_r. }
  destruct (Hall t) as [cols Hcols]; [left|].
  cbn [find_tables_loop]. rewrite run_get_bind.
  rewrite bool_decide_eq_false_2 by (intros Hn; apply Hn, elem_of_dom; eauto).
  cbn [when]. rewrite run_ret_bind, run_get_bind, run_lift_bind.
  unfold getitem. rewrite Hcols. cbv beta iota.
  rewrite IH by (intros; apply Hall; by right).
  rewrite filter_cons, Hcols. change (default [] (Some cols)) with cols.
  case_bool_decide; [rewrite decide_True by done|rewrite decide_False by done]; [|done].
  by rewrite <- app_assoc.
Qed.

Lemma find_tables_loop_run self path variable tables container w :
  hdf5_file_path self = Some path →
  ∃ w' log,
    find_tables_loop self variable tables container w
    = (w', log,
       Ok (container
             ++ filter (λ t, variable ∈ default [] (tables_index w' !! t)) tables))
    ∧ (∀ t columns, tables_index w !! t = Some columns →
                    tables_index w' !! t = Some columns)
    ∧ (∀ t, t ∈ tables → is_Some (tables_index w' !! t)).
Proof.
  intros Hpath. revert container w.
  induction tables as [|t tables IH]; intros container w.
  { exists w, []. simpl. rewrite app_nil_r. repeat split; try done.
    intros t Ht. inv Ht. }
  cbn [find_tables_loop]. rewrite run_get_bind.
  (* the index after the columns of [t] are there *)
  assert (∃ w1 log1 cols,
            (when (bool_decide (t ∉ dom (tables_index w)))
               (columns ← get_columns self t true;
                modify (λ w, set_tables_index (<[t := columns]> (tables_index w)) w))
             : py SurveyMethods.log_record World unit) w = (w1, log1, Ok tt)
            ∧ tables_index w1 !! t = Some cols
            ∧ ∀ t' columns, tables_index w !! t' = Some columns →
                            tables_index w1 !! t' = Some columns)
    as (w1 & log1 & cols & Hwhen & Hcols & Hkept).
  { case_bool_decide as Hdom; cbn [when].
    - destruct (get_columns_returns self path t true w Hpath)
        as (w0 & log0 & cols & Hget & Hidx).
      rewrite run_bind, Hget. cbn [fst snd]. unfold modify.
      eexists _, _, cols. split; [reflexivity|]. simpl. split.
      + by rewrite lookup_insert_eq.
      + intros t' columns Ht'. rewrite Hidx. rewrite lookup_insert_ne; [done|].
        intros ->. apply Hdom, elem_of_dom. eauto.
    - apply elem_of_dom in Hdom as [cols Hcols].
      by exists w, [], cols. }
  rewrite run_bind, Hwhen. cbn [fst snd].
  rewrite run_get_bind, run_lift_bind. unfold getitem. rewrite Hcols. cbv beta iota.
  destruct (IH (if bool_decide (variable ∈ cols) then container ++ [t] else container)
              w1) as (w' & log & Hrun & Hkept' & Hall).
  rewrite Hrun. cbn [fst snd]. exists w', (log1 ++ log). split; [|split].
  - f_equal. f_equal. rewrite filter_cons, (Hkept' _ _ Hcols).
    change (default [] (Some cols)) with cols.
    case_bool_decide; [rewrite decide_True by done|rewrite decide_False by done];
      [|done].
    by rewrite <- app_assoc.
  - intros t' columns Ht'. by apply Hkept', Hkept.
  - intros t' Ht'. apply elem_of_cons in Ht' as [->|Ht']; [|by apply Hall].
    rewrite (Hkept' _ _ Hcols). by eexists.
Qed.

Lemma json_get_of_option {A} (x : option A) : json_get (json_of_option x) = x.
Proof. by destruct x. Qed.

Lemma create_from_json_to_json {V} (s : SurveyObject V) :
  create_from_json (to_json s)
  = if bool_decide (Exists (λ k, k ∈ dom (informations s))
                      ["self"; "name"; "label"; "hdf5_file_path"])
    then inl MultipleValues
    else inr {| survey := survey s; label := label s; tables := tables s;
                informations := delete "survey_collection" (informations s);
                survey_collection := informations s !! "survey_collection" |}.
Proof.
  unfold create_from_json, to_json, Survey_call. cbn [json_informations json_name
    json_label json_hdf5_file_path json_tables json_get].
  case_bool_decide; [done|]. rewrite !json_get_of_option. unfold Survey_init, set_tables.
  simpl. by destruct s as [[? ?] ? ? ? ?].
Qed.

End survey_extras.

(** X17. [get_values] with a list of variables, on a table that can be
    read: it returns exactly when every variable asked for is a column
    of the table (as renamed), and then gives the rows of the table and
    those columns only, each once however often it was asked for. *)
Theorem get_values_selects_requested (self : Surveys.Survey) (fs : Surveys.FileSystem)
    (variables : list string) (table : string) (lowercase rename_ident : bool)
    (whole : DataFrame) :
  (Surveys.get_values self fs None table lowercase rename_ident).2 = Ok whole →
  ((∃ df', (Surveys.get_values self fs (Some variables) table lowercase
              rename_ident).2 = Ok df')
   ↔ ∀ v, v ∈ variables → v ∈ columns whole)
  ∧ ∀ df', (Surveys.get_values self fs (Some variables) table lowercase
              rename_ident).2 = Ok df' →
           index df' = index whole
           ∧ (∀ n s, (n, s) ∈ items df' ↔ (n, s) ∈ items whole ∧ n ∈ variables)
           ∧ (NoDup (columns whole) → columns df' ≡ₚ remove_dups variables).
Proof. apply get_values_selects. Qed.

Lemma get_values_selects_requested_witness :
  ∃ df', (Surveys.get_values ExampleSurveys.erfs_2008 ExampleSurveys.disk
            (Some ["wprm"; "wprm"]) "menage" false true).2 = Ok df'
         ∧ columns df' ≡ₚ ["wprm"].
Proof.
  destruct (get_values_selects_requested ExampleSurveys.erfs_2008 ExampleSurveys.disk
              ["wprm"; "wprm"] "menage" false true
              (rename "ident08" "ident" ExampleSurveys.households))
    as [Hreturns Hcontent]; [vm_compute; reflexivity|].
  destruct (proj2 Hreturns) as [df' Hdf'].
  { intros v Hv. assert (v = "wprm") as ->.
    { repeat (apply elem_of_cons in Hv as [->|Hv]; [done|]). inv Hv. }
    apply (bool_decide_unpack (_ ∈ _)). vm_compute. exact I. }
  exists df'. split; [exact Hdf'|].
  destruct (Hcontent df' Hdf') as (_ & _ & Hcolumns). apply Hcolumns.
  apply (bool_decide_unpack (NoDup _)). vm_compute. exact I.
Defined.

(** X18. [get_value] cannot read the identifier column under the name
    it has in the file: [get_values] renames the first column that
    matches [ident_re] before it looks for the variable, so asking for
    that column raises the exception of line 221 although the table has
    it. *)
Theorem get_value_of_renamed_ident (V : Type) (self : SurveyMethods.SurveyObject V)
    (fs : Surveys.FileSystem) (ts : gmap string (gmap string V)) (path : string)
    (store : Surveys.HDFStore) (table : string) (df : DataFrame) (variable : string) :
  SurveyMethods.tables self = Some ts →
  Surveys.hdf5_file_path (SurveyMethods.survey self) = Some path →
  fs !! path = Some store →
  store !! table = Some df →
  Surveys.first_ident (columns df) = Some variable →
  (SurveyMethods.get_value self fs variable table).2
  = Raise (Exception "The following variable(s) are missing").
Proof. apply get_value_first_ident. Qed.

Lemma get_value_of_renamed_ident_witness :
  "ident08" ∈ columns ExampleSurveys.households
  ∧ (SurveyMethods.get_value (ExampleSurveys.object_of ExampleSurveys.erfs_2008)
       ExampleSurveys.disk "ident08" "menage").2
    = Raise (Exception "The following variable(s) are missing").
Proof.
  split; [left|].
  apply (get_value_of_renamed_ident string
           (ExampleSurveys.object_of ExampleSurveys.erfs_2008) ExampleSurveys.disk
           {["menage" := ∅]} "erfs_2008.h5" {["menage" := ExampleSurveys.households]}
           "menage" ExampleSurveys.households "ident08"); reflexivity.
Defined.

(** X20. [find_tables] of a survey that has a file path returns the
    tables asked for, in their order, whose indexed columns hold the
    variable. It never refreshes an entry of [Survey.tables_index], and
    since that dict belongs to the class, any survey asked afterwards
    about the same tables gets the same answer without reading a file,
    whatever its own file holds. *)
Theorem find_tables_uses_shared_index (V : Type) (self : SurveyMethods.SurveyObject V)
    (path variable : string) (tables : list string) (rename_ident : bool)
    (w : SurveyMethods.World) :
  Surveys.hdf5_file_path (SurveyMethods.survey self) = Some path →
  ∃ w' log found,
    SurveyMethods.find_tables self variable (Some tables) rename_ident w
    = (w', log, Ok found)
    ∧ found = filter (λ t, variable ∈ default [] (SurveyMethods.tables_index w' !! t))
                tables
    ∧ (∀ t columns, SurveyMethods.tables_index w !! t = Some columns →
                    SurveyMethods.tables_index w' !! t = Some columns)
    ∧ ∀ (other : SurveyMethods.SurveyObject V) (rename_ident' : bool)
        (w2 : SurveyMethods.World),
        SurveyMethods.tables_index w2 = SurveyMethods.tables_index w' →
        SurveyMethods.find_tables other variable (Some tables) rename_ident' w2
        = (w2, [], Ok found).
Proof.
  intros Hpath. unfold SurveyMethods.find_tables.
  destruct (find_tables_loop_run (SurveyMethods.survey self) path variable tables [] w
              Hpath) as (w' & log & Hrun & Hkept & Hall).
  exists w', log, (filter (λ t, variable
                               ∈ default [] (SurveyMethods.tables_index w' !! t))
                     tables).
  split; [by rewrite run_ret_bind|]. split; [done|]. split; [done|].
  intros other rename_ident' w2 Hindex. rewrite run_ret_bind.
  rewrite find_tables_loop_cached by (rewrite Hindex; apply Hall).
  by rewrite Hindex.
Qed.

Lemma find_tables_uses_shared_index_witness :
  let r := SurveyMethods.find_tables (ExampleSurveys.object_of ExampleSurveys.erfs_2008)
             "loyer" (Some ["menage"]) true ExampleSurveys.fresh in
  r.2 = Ok ["menage"]
  ∧ ("loyer" ∉ columns ExampleSurveys.households_without_rent)
  ∧ SurveyMethods.find_tables (ExampleSurveys.object_of ExampleSurveys.erfs_2009)
      "loyer" (Some ["menage"]) true r.1.1
    = (r.1.1, [], Ok ["menage"]).
Proof.
  intros r.
  assert (Hr : r = (r.1.1, r.1.2, Ok ["menage"])) by (vm_compute; reflexivity).
  split; [by rewrite Hr|]. split.
  { apply (bool_decide_unpack (_ ∉ _)). vm_compute. exact I. }
  destruct (find_tables_uses_shared_index string
              (ExampleSurveys.object_of ExampleSurveys.erfs_2008) "erfs_2008.h5"
              "loyer" ["menage"] true ExampleSurveys.fresh)
    as (w' & log & found & Hrun & _ & _ & Hother); [reflexivity|].
  fold r in Hrun. rewrite Hrun in Hr. cbn [fst snd] in Hr.
  injection Hr as Hfound. rewrite Hrun. cbn [fst snd]. subst found.
  by apply Hother.
Defined.

(** X21. [create_from_json] undoes [to_json] on a survey whose
    [informations] have none of the keys [self], [name], [label],
    [hdf5_file_path] and [survey_collection], but for the survey
    collection, which [to_json] does not write. With one of the first
    four keys among the informations the survey cannot be built
    again: [Survey] is given that parameter twice. *)
Theorem json_round_trip (V : Type) (s : SurveyMethods.SurveyObject V) :
  ((∀ k, k ∈ ["self"; "name"; "label"; "hdf5_file_path"; "survey_collection"] →
         SurveyMethods.informations s !! k = None) →
   SurveyMethods.create_from_json (SurveyMethods.to_json s)
   = inr {| SurveyMethods.survey := SurveyMethods.survey s;
            SurveyMethods.label := SurveyMethods.label s;
            SurveyMethods.tables := SurveyMethods.tables s;
            SurveyMethods.informations := SurveyMethods.informations s;
            SurveyMethods.survey_collection := None |})
  ∧ ((∃ k, k ∈ ["self"; "name"; "label"; "hdf5_file_path"]
           ∧ is_Some (SurveyMethods.informations s !! k)) →
     SurveyMethods.create_from_json (SurveyMethods.to_json s)
     = inl SurveyMethods.MultipleValues).
Proof.
  rewrite create_from_json_to_json. split.
  - intros Hnone. rewrite bool_decide_eq_false_2.
    + rewrite (Hnone "survey_collection") by (by repeat constructor).
      by rewrite delete_id by (apply Hnone; by repeat constructor).
    + intros Hex. apply Exists_exists in Hex as (k & Hk & Hdom).
      apply elem_of_dom in Hdom as [v Hv]. rewrite Hnone in Hv; [done|].
      repeat (apply elem_of_cons in Hk as [->|Hk]; [by repeat constructor|]).
      inv Hk.
  - intros (k & Hk & Hsome). rewrite bool_decide_eq_true_2; [done|].
    apply Exists_exists. exists k. split; [done|]. by apply elem_of_dom.
Qed.

Lemma json_round_trip_witness :
  SurveyMethods.create_from_json
    (SurveyMethods.to_json (ExampleSurveys.object_of ExampleSurveys.erfs_2008))
  = inr (ExampleSurveys.object_of ExampleSurveys.erfs_2008).
Proof.
  apply (proj1 (json_round_trip string
                  (ExampleSurveys.object_of ExampleSurveys.erfs_2008))).
  intros k Hk.
  repeat (apply elem_of_cons in Hk as [->|Hk]; [reflexivity|]). inv Hk.
Defined.

(** X22. The variables declared as used as input that the table does
    not have play no part: [init_simulation_with_data_frame] ends in
    the same state, with the same outcome, as when it is given only
    those of them that are columns of the table. The log alone
    differs. *)
Theorem init_reads_used_columns_only (N : numeric) (NP : numpy) (PD : pandas)
    (period : string) (tbs : TaxBenefitSystem) (used : list string)
    (st : Scenarios.State) :
  let present :=
    filter (λ v, v ∈ columns (Scenarios.input_data_frame st)) used in
  let r := Scenarios.init_simulation_with_data_frame period tbs used st in
  let r' := Scenarios.init_simulation_with_data_frame period tbs present st in
  r.1.1 = r'.1.1 ∧ r.2 = r'.2.
Proof.
  intros present r r'.
  assert (Hiff : ∀ x, x ∈ columns (Scenarios.input_data_frame st) →
                      x ∈ used ↔ x ∈ present).
  { intros x Hx. subst present. rewrite list_elem_of_filter. tauto. }
  pose proof (init_used period tbs used present st Hiff) as Hsame.
  exact Hsame.
Qed.

(** X23. The aggregate ['count'] depends on the variable through its
    entity only: for two variables of the schema that belong to the
    same entity, with the same filter, period and simulation, whenever
    both aggregates are defined they are equal (line 118 reads the
    weight and the filter, not the values). *)
Theorem count_depends_on_entity_only (N : numeric)
    (build : Scenarios.AbstractSurveyScenario.Scenario → bool → result Simulation)
    (v1 v2 : string) (column1 column2 : Column) (filter_by period : option string)
    (reference : bool) (self : Scenarios.AbstractSurveyScenario.Scenario) :
  column_by_name (Scenarios.AbstractSurveyScenario.tax_benefit_system self) !! v1
  = Some column1 →
  column_by_name (Scenarios.AbstractSurveyScenario.tax_benefit_system self) !! v2
  = Some column2 →
  entity_key column1 = entity_key column2 →
  let r1 := Scenarios.AbstractSurveyScenario.compute_aggregate build (Some v1) "count"
              filter_by period reference self in
  let r2 := Scenarios.AbstractSurveyScenario.compute_aggregate build (Some v2) "count"
              filter_by period reference self in
  (∃ x1, r1.2 = Ok x1) → (∃ x2, r2.2 = Ok x2) → r1.2 = r2.2.
Proof. apply count_of_entity. Qed.

Lemma count_depends_on_entity_only_witness :
  (Scenarios.AbstractSurveyScenario.compute_aggregate ExampleScenario.build_simulation
     (Some "loyer") "count" None None false ExampleScenario.scenario).2
  = (Scenarios.AbstractSurveyScenario.compute_aggregate ExampleScenario.build_simulation
       (Some "champm") "count" None None false ExampleScenario.scenario).2.
Proof.
  apply (count_depends_on_entity_only Example.option_Z_numeric
           ExampleScenario.build_simulation "loyer" "champm"
           (Example.input_variable "menage" (float_ 32) (VInt 0))
           (Example.input_variable "menage" bool_ (VBool false)) None None false
           ExampleScenario.scenario).
  - vm_compute. reflexivity.
  - vm_compute. reflexivity.
  - reflexivity.
  - exists (Some 5%Z). vm_compute. reflexivity.
  - exists (Some 5%Z). vm_compute. reflexivity.
Defined.

(** X24. Whatever its outcome, [init_simulation_with_data_frame]
    leaves the table it is given with the rows it had and with columns
    that are, in their order, among those it had: it drops columns and
    fills cells, and never adds a row or a column. *)
Theorem init_keeps_rows_and_drops_columns (N : numeric) (NP : numpy) (PD : pandas)
    (period : string) (tbs : TaxBenefitSystem) (used : list string)
    (st : Scenarios.State) :
  let r := Scenarios.init_simulation_with_data_frame period tbs used st in
  index (Scenarios.input_data_frame r.1.1) = index (Scenarios.input_data_frame st)
  ∧ columns (Scenarios.input_data_frame r.1.1)
    `sublist_of` columns (Scenarios.input_data_frame st).
Proof.
  intros r. pose proof (keeps_rows_init period tbs used st) as Hkeep. exact Hkeep.
Qed.

(** ** The pattern of the identifier columns *)

Section ident_re_extras.
Import Surveys.

Lemma at_end_line_end s : at_end s = true ↔ line_end s.
Proof.
  unfold line_end. destruct s as [|c [|c' s']]; simpl.
  - split; [by left|done].
  - rewrite bool_decide_eq_true. split; [intros ->; by right|].
    intros [?|[= ->]]; done.
  - split; [done|]. intros [?|?]; done.
Qed.

Lemma digits_then_end_spec lo hi s :
  digits_then_end lo hi s = true
  ↔ ∃ digits tail,
      s = digits +:+ tail ∧ (lo ≤ String.length digits ≤ hi)%nat
      ∧ all_digits digits = true ∧ line_end tail.
Proof.
  revert lo hi. induction s as [|c s IH]; intros lo hi.
  - cbn [digits_then_end]. rewrite bool_decide_eq_true. split.
    + intros ->. exists "", "". split; [done|]. split; [simpl; lia|].
      split; [done|by left].
    + intros (digits & tail & Hs & [Hlo _] & _ & _).
      destruct digits; [simpl in Hlo; lia|discriminate Hs].
  - cbn [digits_then_end]. rewrite orb_true_iff, !andb_true_iff, !bool_decide_eq_true.
    rewrite IH, at_end_line_end. split.
    + intros [[[Hc Hhi] (digits & tail & -> & [Hlo Hhi'] & Hd & Ht)]|[-> Hend]].
      * exists (String c digits), tail. simpl. rewrite Hc, Hd.
        split; [done|]. split; [lia|]. by split.
      * exists "", (String c s). split; [done|]. split; [simpl; lia|]. by split.
    + intros (digits & tail & Hs & [Hlo Hhi] & Hd & Ht).
      destruct digits as [|d digits].
      * right. change ("" +:+ tail) with tail in Hs. simpl in Hlo. subst tail.
        split; [lia|done].
      * left. change (String d digits +:+ tail) with (String d (digits +:+ tail)) in Hs.
        simpl in Hd, Hlo, Hhi. injection Hs as <- ->.
        apply andb_true_iff in Hd as [Hc Hd].
        split; [split; [done|lia]|].
        exists digits, tail. split; [done|]. split; [lia|]. by split.
Qed.

Lemma ignorecase_spec lit k s :
  ignorecase lit k s = true
  ↔ ∃ letters rest, s = letters +:+ rest ∧ lower letters = lower lit ∧ k rest = true.
Proof.
  revert s. induction lit as [|a lit IH]; intros s.
  - cbn [ignorecase]. split.
    + intros Hk. by exists "", s.
    + intros (letters & rest & -> & Hl & Hk). destruct letters; [done|].
      discriminate Hl.
  - destruct s as [|c s]; cbn [ignorecase].
    + split; [done|]. intros (letters & rest & Hs & Hl & _).
      destruct letters; [done|]. discriminate Hs.
    + rewrite andb_true_iff, bool_decide_eq_true, IH. split.
      * intros [Hc (letters & rest & -> & Hl & Hk)].
        exists (String c letters), rest. simpl. by rewrite Hc, Hl.
      * intros (letters & rest & Hs & Hl & Hk).
        destruct letters as [|c' letters]; [discriminate Hl|].
        change (String c' letters +:+ rest) with (String c' (letters +:+ rest)) in Hs.
        simpl in Hl. injection Hs as <- ->. injection Hl as Hc Hl.
        split; [done|]. by exists letters, rest.
Qed.

End ident_re_extras.

(** X25. [ident_re] matches exactly the labels made of the letters
    [ident] in any case, then two to four decimal digits, then nothing
    but a newline at most: a longer run of digits, or anything after
    the digits, is not matched. *)
Theorem ident_re_matches_exactly (s : string) :
  Surveys.ident_re_match s = true
  ↔ ∃ letters digits tail,
      s = letters +:+ digits +:+ tail
      ∧ Surveys.lower letters = "ident"
      ∧ (2 ≤ String.length digits ≤ 4)%nat
      ∧ all_digits digits = true
      ∧ line_end tail.
Proof.
  unfold Surveys.ident_re_match. rewrite ignorecase_spec. split.
  - intros (letters & rest & -> & Hl & Hd).
    apply digits_then_end_spec in Hd as (digits & tail & -> & Hn & Hd & Ht).
    by exists letters, digits, tail.
  - intros (letters & digits & tail & -> & Hl & Hn & Hd & Ht).
    exists letters, (digits +:+ tail). split; [done|]. split; [done|].
    apply digits_then_end_spec. by exists digits, tail.
Qed.

(** X26. After [init_simulation_with_data_frame] has returned on a
    table whose columns all have one cell per row, a group entity
    holds, for every row of the table in turn, the integer part of the
    identifier and the integer part of the role that its identifier
    and role columns give the person, and it counts as many members as
    its identifier column has distinct values, which is at most the
    number of rows (lines 544-555). *)
Theorem init_group_members_are_per_person (N : numeric) (NP : numpy) (PD : pandas)
    (period : string) (tbs : TaxBenefitSystem) (used : list string)
    (st st' : Scenarios.State) (log : list Scenarios.log_record)
    (key : string) (e : Entity) :
  Scenarios.init_simulation_with_data_frame period tbs used st = (st', log, Ok tt) →
  rectangular (Scenarios.input_data_frame st) →
  entities (Scenarios.simulation st') !! key = Some e →
  is_person e = false →
  ∃ id_variable role_variable id_column role_column ids roles,
    Scenarios.id_variable_by_entity_key !! key = Some id_variable
    ∧ Scenarios.role_variable_by_entity_key !! key = Some role_variable
    ∧ frame_getitem (Scenarios.input_data_frame st) id_variable = Ok id_column
    ∧ frame_getitem (Scenarios.input_data_frame st) role_variable = Ok role_column
    ∧ members_entity_id e = Some ids
    ∧ members_legacy_role e = Some roles
    ∧ Forall2 stored_as (values id_column) ids
    ∧ Forall2 stored_as (values role_column) roles
    ∧ length ids = index (Scenarios.input_data_frame st)
    ∧ length roles = index (Scenarios.input_data_frame st)
    ∧ count e = length (distinct (values id_column))
    ∧ (count e ≤ index (Scenarios.input_data_frame st))%nat.
Proof. apply init_members. Qed.

Lemma fractional_role_rectangular : rectangular Example.fractional_role.
Proof.
  intros name s Hin. simpl in Hin.
  repeat (apply elem_of_cons in Hin as [[= -> ->]|Hin]; [reflexivity|]). inv Hin.
Qed.

Lemma fractional_role_stored ids roles :
  Forall2 stored_as [VFloat 1 0; VFloat 1 0] ids →
  Forall2 stored_as [VFloat 0 0; VFloat 3 (-1)] roles →
  ids = [1; 1]%Z ∧ roles = [0; 1]%Z.
Proof.
  intros Hids Hroles.
  apply Forall2_cons_inv_l in Hids as (z1 & ids1 & H1 & Hids & ->).
  apply Forall2_cons_inv_l in Hids as (z2 & ids2 & H2 & Hids & ->).
  apply Forall2_nil_inv_l in Hids as ->.
  apply Forall2_cons_inv_l in Hroles as (r1 & roles1 & H3 & Hroles & ->).
  apply Forall2_cons_inv_l in Hroles as (r2 & roles2 & H4 & Hroles & ->).
  apply Forall2_nil_inv_l in Hroles as ->.
  assert (Hcell : ∀ x z, stored_as x z → ∀ q, number x = Some q →
                         (- 2 ^ 63 ≤ integer_part q < 2 ^ 63)%Z →
                         z = integer_part q).
  { intros x z Hz q Hq Hr. apply (Hz q); [done| |done].
    by apply truncated_integer_part. }
  rewrite (Hcell _ _ H1 _ eq_refl), (Hcell _ _ H2 _ eq_refl) by (by vm_compute).
  rewrite (Hcell _ _ H3 _ eq_refl), (Hcell _ _ H4 _ eq_refl) by (by vm_compute).
  split; reflexivity.
Qed.

Lemma init_group_members_are_per_person_witness :
  let r := @Scenarios.init_simulation_with_data_frame Example.option_Z_numeric
             Example.keep_cells Example.writes_through "2009" Example.system []
             (Example.start Example.fractional_role) in
  ∃ e, entities (Scenarios.simulation r.1.1) !! "menage" = Some e
       ∧ members_entity_id e = Some [1; 1]%Z
       ∧ members_legacy_role e = Some [0; 1]%Z
       ∧ count e = 1%nat.
Proof.
  intros r.
  assert (He : ∃ e, entities (Scenarios.simulation r.1.1) !! "menage" = Some e
                    ∧ is_person e = false)
    by (eexists; split; vm_compute; reflexivity).
  destruct He as (e & He & Hp).
  destruct (init_group_members_are_per_person Example.option_Z_numeric
              Example.keep_cells Example.writes_through "2009" Example.system []
              (Example.start Example.fractional_role) r.1.1 r.1.2 "menage" e)
    as (iv & rv & id_column & role_column & ids & roles & Hiv & Hrv & Hidc & Hrolec
        & Hids & Hroles & Hsi & Hsr & _ & _ & Hcount & _);
    [vm_compute; reflexivity|exact fractional_role_rectangular|exact He|exact Hp|].
  assert (Hidmen : Scenarios.id_variable_by_entity_key !! "menage" = Some "idmen")
    by (vm_compute; reflexivity).
  assert (Hquimen : Scenarios.role_variable_by_entity_key !! "menage" = Some "quimen")
    by (vm_compute; reflexivity).
  rewrite Hidmen in Hiv. injection Hiv as <-.
  rewrite Hquimen in Hrv. injection Hrv as <-.
  assert (H1 : frame_getitem (Scenarios.input_data_frame
                                (Example.start Example.fractional_role)) "idmen"
               = Ok (Example.floats [VFloat 1 0; VFloat 1 0])) by reflexivity.
  assert (H2 : frame_getitem (Scenarios.input_data_frame
                                (Example.start Example.fractional_role)) "quimen"
               = Ok (Example.floats [VFloat 0 0; VFloat 3 (-1)])) by reflexivity.
  rewrite H1 in Hidc. injection Hidc as <-.
  rewrite H2 in Hrolec. injection Hrolec as <-.
  destruct (fractional_role_stored ids roles Hsi Hsr) as [-> ->].
  exists e. split; [exact He|]. split; [exact Hids|]. split; [exact Hroles|].
  exact Hcount.
Defined.

(** X27. Renaming the identifier column can give the table two columns
    of one name: when the table read by [get_values] already has a
    column [ident] beside a column that [ident_re] matches, the table
    returned has the label [ident] twice. *)
Theorem get_values_rename_collides (self : Surveys.Survey) (fs : Surveys.FileSystem)
    (path : string) (store : Surveys.HDFStore) (table : string) (df : DataFrame)
    (c : string) :
  Surveys.hdf5_file_path self = Some path →
  fs !! path = Some store →
  store !! table = Some df →
  Surveys.first_ident (columns df) = Some c →
  "ident" ∈ columns df →
  (Surveys.get_values self fs None table false true).2 = Ok (rename c "ident" df)
  ∧ ¬ NoDup (columns (rename c "ident" df)).
Proof. apply get_values_collision. Qed.

Lemma get_values_rename_collides_witness :
  let df := {| index := 1;
               items := [("ident", Example.ints [7]%Z);
                         ("ident08", Example.ints [7]%Z)] |} in
  NoDup (columns df)
  ∧ ∃ whole, (Surveys.get_values ExampleSurveys.erfs_2008
                {["erfs_2008.h5" := {["menage" := df]}]} None "menage" false true).2
             = Ok whole
             ∧ ¬ NoDup (columns whole).
Proof.
  intros df. split.
  { apply (bool_decide_unpack (NoDup _)). vm_compute. exact I. }
  exists (rename "ident08" "ident" df).
  apply (get_values_rename_collides ExampleSurveys.erfs_2008
           {["erfs_2008.h5" := {["menage" := df]}]} "erfs_2008.h5"
           {["menage" := df]} "menage" df "ident08"); try reflexivity.
  left.
Defined.

(** X28. [compute_aggregate] checks a [filter_by] it is given only
    after it has got the simulation: with a filter that is not a
    variable of the schema and no simulation yet, the call raises the
    [AssertionError] of lines 95-96, and the scenario is left with the
    simulation that was built on the way. *)
Theorem compute_aggregate_unknown_filter_after_build (N : numeric)
    (build : Scenarios.AbstractSurveyScenario.Scenario → bool → result Simulation)
    (v f aggfunc : string) (column : Column) (period : option string)
    (reference : bool) (self : Scenarios.AbstractSurveyScenario.Scenario)
    (sim : Simulation) :
  aggfunc ∈ ["count"; "mean"; "sum"] →
  column_by_name (Scenarios.AbstractSurveyScenario.tax_benefit_system self) !! v
  = Some column →
  f ≠ "" →
  column_by_name (Scenarios.AbstractSurveyScenario.tax_benefit_system self) !! f = None →
  simulation_slot reference self = None →
  build self reference = Ok sim →
  Scenarios.AbstractSurveyScenario.compute_aggregate build (Some v) aggfunc (Some f)
    period reference self
  = (Scenarios.AbstractSurveyScenario.set_simulation reference sim self, [],
     Raise (AssertionError (NotInTaxBenefitSystem f))).
Proof. apply compute_aggregate_unknown_filter. Qed.

Lemma compute_aggregate_unknown_filter_after_build_witness :
  Scenarios.AbstractSurveyScenario.compute_aggregate ExampleScenario.build_simulation
    (Some "loyer") "sum" (Some "champ") None false ExampleScenario.scenario
  = (Scenarios.AbstractSurveyScenario.set_simulation false
       ExampleScenario.computed_simulation ExampleScenario.scenario, [],
     Raise (AssertionError (NotInTaxBenefitSystem "champ"))).
Proof.
  apply (compute_aggregate_unknown_filter_after_build Example.option_Z_numeric
           ExampleScenario.build_simulation "loyer" "champ" "sum"
           (Example.input_variable "menage" (float_ 32) (VInt 0))).
  - by repeat constructor.
  - vm_compute. reflexivity.
  - discriminate.
  - vm_compute. reflexivity.
  - reflexivity.
  - reflexivity.
Defined.
